(** * STL geometry ingestion: [server/lib/stlParser.ts] and
      [client/src/lib/stlParser.ts]

    A shallow embedding of the two STL readers of the repository and the
    properties the specification states about them.

    Modelling conventions.
    - A [Buffer] / [ArrayBuffer] is a [list byte]; its [length] is the byte
      length ([buffer.length], [arrayBuffer.byteLength], [file.size]).
    - A JavaScript string is the list of its code points ([jsString]).  Every
      string operation the two files use ([trim], [split], [startsWith],
      [endsWith], [toLowerCase], the regular expressions, [parseFloat]) only
      tests characters of the Basic Multilingual Plane, so the surrogate
      pairs of UTF-16 play no part.
    - A JavaScript number is an IEEE-754 binary64 value: Rocq's primitive
      [float].  Offsets, loop counters and the client's counts are integers
      far below 2^53, where double arithmetic is exact; they are kept in [Z].
    - A [throw] is the [Throw] constructor of [result]; [try]/[catch] is a
      [match] on it. *)

From Stdlib.Strings Require Import String Ascii Byte.
From Stdlib Require Import ZArith List Bool Lia.
From Stdlib Require Import Uint63 Floats.
Import Corelib.Init.Datatypes.
Import ListNotations.

Set Warnings "-inexact-float".

Local Open Scope Z_scope.

(* ------------------------------------------------------------------ *)
(** * Exceptions *)

(** The exceptions the two files can meet: the [RangeError] of an
    out-of-bounds typed-array view or buffer read, and the [Error] that
    [analyzeSTL] rethrows around any exception of its body.  The message of
    a [RangeError] is the engine's; the ones below are those of V8 and
    Node, shortened, and no property here depends on their text. *)
Inductive exn : Type :=
| RangeError (message : string)
| Error (message : string).

Definition exn_message (e : exn) : string :=
  match e with
  | RangeError m => m
  | Error m => m
  end.

Inductive result (A : Type) : Type :=
| Ok (a : A)
| Throw (e : exn).

Arguments Ok {A} a.
Arguments Throw {A} e.

Definition bind {A B : Type} (r : result A) (k : A -> result B) : result B :=
  match r with
  | Ok a => k a
  | Throw e => Throw e
  end.

Notation "x <- r ;; k" := (bind r (fun x => k))
  (at level 61, r at next level, right associativity).

(* ------------------------------------------------------------------ *)
(** * Buffers *)

Definition Buffer : Type := list byte.

Definition byteZ (b : byte) : Z := Z.of_N (Byte.to_N b).

Definition byteLength (buffer : Buffer) : Z := Z.of_nat (length buffer).

(** The byte at an offset inside the buffer ([x00] is never observed: every
    reader checks the range first). *)
Definition byteAt (buffer : Buffer) (offset : Z) : Z :=
  byteZ (nth (Z.to_nat offset) buffer x00).

(** The unsigned little-endian 32-bit integer at [offset], unchecked. *)
Definition le32 (buffer : Buffer) (offset : Z) : Z :=
  byteAt buffer offset
  + byteAt buffer (offset + 1) * 2 ^ 8
  + byteAt buffer (offset + 2) * 2 ^ 16
  + byteAt buffer (offset + 3) * 2 ^ 24.

Definition inBounds (buffer : Buffer) (offset size : Z) : bool :=
  (0 <=? offset) && (offset + size <=? byteLength buffer).

(** [buffer.readUInt32LE(offset)] of Node: a [RangeError] unless the four
    bytes lie inside the buffer. *)
Definition readUInt32LE (buffer : Buffer) (offset : Z) : result Z :=
  if inBounds buffer offset 4 then Ok (le32 buffer offset)
  else Throw (RangeError "The value of offset is out of range").

(** [new DataView(arrayBuffer).getUint32(offset, true)]. *)
Definition getUint32 (arrayBuffer : Buffer) (offset : Z) : result Z :=
  if inBounds arrayBuffer offset 4 then Ok (le32 arrayBuffer offset)
  else Throw (RangeError "Offset is outside the bounds of the DataView").

(* ------------------------------------------------------------------ *)
(** * Numbers *)

(** An integer [0 <= z < 2^53] as a JavaScript number. *)
Definition Z2F (z : Z) : float := PrimFloat.of_uint63 (Uint63.of_Z z).

(** The value of an IEEE-754 binary32 bit pattern, widened to binary64
    (exact: every binary32 value is a binary64 value). *)
Definition float32_of_bits (bits : Z) : float :=
  let sign := Z.testbit bits 31 in
  let e := Z.land (Z.shiftr bits 23) 255 in
  let m := Z.land bits (2 ^ 23 - 1) in
  let magnitude :=
    if e =? 255 then (if m =? 0 then infinity else nan)
    else if e =? 0 then Z.ldexp (Z2F m) (-149)
    else Z.ldexp (Z2F (2 ^ 23 + m)) (e - 150) in
  if sign then (- magnitude)%float else magnitude.

(** [buffer.readFloatLE(offset)]. *)
Definition readFloatLE (buffer : Buffer) (offset : Z) : result float :=
  if inBounds buffer offset 4 then Ok (float32_of_bits (le32 buffer offset))
  else Throw (RangeError "The value of offset is out of range").

(** [Math.min] and [Math.max] on two arguments (ECMAScript 21.3.2.24/25):
    NaN if either is NaN, and -0 is smaller than +0. *)
Definition Math_min (a b : float) : float :=
  if is_nan a || is_nan b then nan
  else if (b <? a)%float then b
  else if (a <? b)%float then a
  else if get_sign b then b else a.

Definition Math_max (a b : float) : float :=
  if is_nan a || is_nan b then nan
  else if (a <? b)%float then b
  else if (b <? a)%float then a
  else if get_sign b then a else b.

(* ------------------------------------------------------------------ *)
(** * The server: geometry *)

Definition vertex : Type := (float * float * float)%type.

Record BoundingBox : Type := {
  min : vertex;
  max : vertex
}.

(** [interface STLInfo] of the server. *)
Record STLInfo : Type := {
  vertexCount : float;
  faceCount : float;
  boundingBox : BoundingBox;
  surfaceArea : float;
  volume : float
}.

(** One turn of the [for (const [x, y, z] of vertices)] loop. *)
Definition boundingBox_step (acc : BoundingBox) (v : vertex) : BoundingBox :=
  let '(x, y, z) := v in
  let '(min0, min1, min2) := min acc in
  let '(max0, max1, max2) := max acc in
  {| min := (Math_min min0 x, Math_min min1 y, Math_min min2 z);
     max := (Math_max max0 x, Math_max max1 y, Math_max max2 z) |}.

Definition calculateBoundingBox (vertices : list vertex) : BoundingBox :=
  match vertices with
  | [] => {| min := (zero, zero, zero); max := (zero, zero, zero) |}
  | _ =>
      fold_left boundingBox_step vertices
        {| min := (infinity, infinity, infinity);
           max := (neg_infinity, neg_infinity, neg_infinity) |}
  end.

Definition estimateSurfaceArea (faceCount : float) : float :=
  (faceCount * 0.01)%float.

Definition estimateVolume (boundingBox : BoundingBox) : float :=
  let '(min0, min1, min2) := min boundingBox in
  let '(max0, max1, max2) := max boundingBox in
  let width := (max0 - min0)%float in
  let height := (max1 - min1)%float in
  let depth := (max2 - min2)%float in
  (width * height * depth * 0.3)%float.

(* ------------------------------------------------------------------ *)
(** * Strings *)

Definition jsString : Type := list Z.

(** A literal of the source as a [jsString]. *)
Definition str (s : string) : jsString :=
  map (fun a => Z.of_N (N_of_ascii a)) (list_ascii_of_string s).

Fixpoint takeWhile {A : Type} (p : A -> bool) (l : list A) : list A :=
  match l with
  | [] => []
  | x :: r => if p x then x :: takeWhile p r else []
  end.

Fixpoint dropWhile {A : Type} (p : A -> bool) (l : list A) : list A :=
  match l with
  | [] => []
  | x :: r => if p x then dropWhile p r else l
  end.

Definition jsString_eqb (s t : jsString) : bool :=
  if list_eq_dec Z.eq_dec s t then true else false.

(** [WhiteSpace] and [LineTerminator] of ECMAScript: what [trim] strips,
    what [\s] matches and what [parseFloat] skips. *)
Definition isWhiteSpace (c : Z) : bool :=
  ((9 <=? c) && (c <=? 13)) || (c =? 32) || (c =? 0xA0) || (c =? 0x1680)
  || ((0x2000 <=? c) && (c <=? 0x200A)) || (c =? 0x2028) || (c =? 0x2029)
  || (c =? 0x202F) || (c =? 0x205F) || (c =? 0x3000) || (c =? 0xFEFF).

Definition trimStart (s : jsString) : jsString := dropWhile isWhiteSpace s.
Definition trimEnd (s : jsString) : jsString := rev (dropWhile isWhiteSpace (rev s)).
Definition trim (s : jsString) : jsString := trimEnd (trimStart s).

Fixpoint startsWith (s prefix : jsString) : bool :=
  match prefix, s with
  | [], _ => true
  | p :: prefix', c :: s' => (c =? p) && startsWith s' prefix'
  | _ :: _, [] => false
  end.

Definition endsWith (s suffix : jsString) : bool :=
  startsWith (rev s) (rev suffix).

(** [s.split('\n')], as an accumulating scan ([cur] is the line being read,
    reversed). *)
Fixpoint splitLines_go (cur : jsString) (s : jsString) : list jsString :=
  match s with
  | [] => [rev cur]
  | c :: r => if c =? 10 then rev cur :: splitLines_go [] r
              else splitLines_go (c :: cur) r
  end.

Definition splitLines (s : jsString) : list jsString := splitLines_go [] s.

(** [s.split(/\s+/)]: the pieces between maximal runs of white space
    ([inSep] says that the scan is inside such a run). *)
Fixpoint splitWhiteSpace_go (inSep : bool) (cur : jsString) (s : jsString)
  : list jsString :=
  match s with
  | [] => [rev cur]
  | c :: r =>
      if isWhiteSpace c then
        if inSep then splitWhiteSpace_go true cur r
        else rev cur :: splitWhiteSpace_go true [] r
      else splitWhiteSpace_go false (c :: cur) r
  end.

Definition splitWhiteSpace (s : jsString) : list jsString :=
  splitWhiteSpace_go false [] s.

(** ** UTF-8 decoding

    [buffer.toString('utf8')] and [new TextDecoder().decode] both decode
    with replacement: the decoder of the WHATWG Encoding standard, a
    malformed sequence giving U+FFFD.  [TextDecoder] also drops a leading
    byte order mark. *)
Record utf8_pending : Type := {
  code_point : Z;
  bytes_left : nat;
  lower_boundary : Z;
  upper_boundary : Z
}.

(** A byte met with no sequence pending: the code points it emits and the
    sequence it opens. *)
Definition utf8_lead (b : Z) : list Z * option utf8_pending :=
  if b <=? 0x7F then ([b], None)
  else if (0xC2 <=? b) && (b <=? 0xDF) then
    ([], Some {| code_point := Z.land b 0x1F; bytes_left := 1;
                 lower_boundary := 0x80; upper_boundary := 0xBF |})
  else if (0xE0 <=? b) && (b <=? 0xEF) then
    ([], Some {| code_point := Z.land b 0xF; bytes_left := 2;
                 lower_boundary := if b =? 0xE0 then 0xA0 else 0x80;
                 upper_boundary := if b =? 0xED then 0x9F else 0xBF |})
  else if (0xF0 <=? b) && (b <=? 0xF4) then
    ([], Some {| code_point := Z.land b 0x7; bytes_left := 3;
                 lower_boundary := if b =? 0xF0 then 0x90 else 0x80;
                 upper_boundary := if b =? 0xF4 then 0x8F else 0xBF |})
  else ([0xFFFD], None).

Fixpoint utf8_decode_from (pending : option utf8_pending) (bytes : list Z)
  : jsString :=
  match bytes with
  | [] => match pending with
          | None => []
          | Some _ => [0xFFFD]
          end
  | b :: rest =>
      match pending with
      | None =>
          let '(out, p) := utf8_lead b in out ++ utf8_decode_from p rest
      | Some p =>
          if (lower_boundary p <=? b) && (b <=? upper_boundary p) then
            let cp := Z.lor (Z.shiftl (code_point p) 6) (Z.land b 0x3F) in
            match bytes_left p with
            | S (S n) =>
                utf8_decode_from
                  (Some {| code_point := cp; bytes_left := S n;
                           lower_boundary := 0x80; upper_boundary := 0xBF |})
                  rest
            | _ => cp :: utf8_decode_from None rest
            end
          else
            let '(out, p') := utf8_lead b in
            0xFFFD :: out ++ utf8_decode_from p' rest
      end
  end.

(** [buffer.toString('utf8')] on the whole of [bytes]. *)
Definition utf8_decode (bytes : Buffer) : jsString :=
  utf8_decode_from None (map byteZ bytes).

(** [new TextDecoder().decode(bytes)]. *)
Definition TextDecoder_decode (bytes : Buffer) : jsString :=
  match utf8_decode bytes with
  | c :: s => if c =? 0xFEFF then s else c :: s
  | [] => []
  end.

(** ** [parseFloat] *)

Definition isDigit (c : Z) : bool := (48 <=? c) && (c <=? 57).

Definition digitsValue (ds : jsString) : Z :=
  fold_left (fun acc d => acc * 10 + (d - 48)) ds 0.

(** The binary64 value nearest to [m * 10^e10] (ties to even), signed. *)
Definition decimalToNumber (negative : bool) (m e10 : Z) : float :=
  SF2Prim
    match m with
    | Zpos p =>
        if 0 <=? e10 then
          binary_normalize prec emax
            (if negative then - (m * 10 ^ e10) else m * 10 ^ e10) 0 false
        else
          SFdiv prec emax (S754_finite negative p 0)
            (S754_finite false (Z.to_pos (10 ^ (- e10))) 0)
    | _ => S754_zero negative
    end.

(** An optional sign at the head of [s]: whether it is a minus, and the rest. *)
Definition stripSign (s : jsString) : bool * jsString :=
  match s with
  | c :: r =>
      if c =? 45 then (true, r)
      else if c =? 43 then (false, r)
      else (false, s)
  | [] => (false, s)
  end.

(** The digits after a decimal point at the head of [s], and the rest. *)
Definition fractionPart (s : jsString) : jsString * jsString :=
  match s with
  | c :: r =>
      if c =? 46 then (takeWhile isDigit r, dropWhile isDigit r)
      else ([], s)
  | [] => ([], s)
  end.

(** The value of an optional [ExponentPart] at the head of [s]. *)
Definition exponentPart (s : jsString) : Z :=
  match s with
  | c :: r =>
      if (c =? 101) || (c =? 69) then
        let '(negative, r') := stripSign r in
        match takeWhile isDigit r' with
        | [] => 0
        | ds => if negative then - digitsValue ds else digitsValue ds
        end
      else 0
  | [] => 0
  end.

(** [parseFloat(s)]: the longest prefix of the trimmed string that is a
    [StrDecimalLiteral], NaN when there is none. *)
Definition parseFloat (s : jsString) : float :=
  let '(negative, s) := stripSign (trimStart s) in
  if startsWith s (str "Infinity") then
    if negative then neg_infinity else infinity
  else
    let intDigits := takeWhile isDigit s in
    let '(fracDigits, rest) := fractionPart (dropWhile isDigit s) in
    match intDigits ++ fracDigits with
    | [] => nan
    | ds =>
        decimalToNumber negative (digitsValue ds)
          (exponentPart rest - Z.of_nat (length fracDigits))
    end.

(** ** [toLowerCase]

    ASCII letters are lowered here; the Unicode lower-case mapping of the
    code points outside ASCII is a parameter, [unicodeLower]. *)
Section Lower.
Variable unicodeLower : Z -> jsString.

Definition lowerCodePoint (c : Z) : jsString :=
  if (65 <=? c) && (c <=? 90) then [c + 32]
  else if c <? 128 then [c]
  else unicodeLower c.

Definition toLowerCase (s : jsString) : jsString :=
  flat_map lowerCodePoint s.
End Lower.

(* ------------------------------------------------------------------ *)
(** * The server: [server/lib/stlParser.ts] *)

Module Server.

Section WithLower.
Variable unicodeLower : Z -> jsString.

(** [isAsciiSTL]: [buffer.toString('utf8', 0, 6)] clamps its end to the
    buffer's length. *)
Definition isAsciiSTL (buffer : Buffer) : bool :=
  let header := utf8_decode (firstn 6 buffer) in
  jsString_eqb (toLowerCase unicodeLower (trim header)) (str "solid").
End WithLower.

(** The [vertexLines] of [parseAsciiSTL]. *)
Definition vertexLines (buffer : Buffer) : list jsString :=
  let content := utf8_decode buffer in
  let lines := splitLines content in
  filter (fun line => startsWith (trim line) (str "vertex")) lines.

(** One turn of the [for (const line of vertexLines)] loop. *)
Definition pushVertex (vertices : list vertex) (line : jsString) : list vertex :=
  let parts := splitWhiteSpace (trim line) in
  if 4 <=? Z.of_nat (length parts) then
    let x := parseFloat (nth 1 parts []) in
    let y := parseFloat (nth 2 parts []) in
    let z := parseFloat (nth 3 parts []) in
    vertices ++ [(x, y, z)]
  else vertices.

(** The [vertices] array of [parseAsciiSTL] when its loop ends. *)
Definition asciiVertices (buffer : Buffer) : list vertex :=
  fold_left pushVertex (vertexLines buffer) [].

Definition parseAsciiSTL (buffer : Buffer) : STLInfo :=
  let vertexLines := vertexLines buffer in
  let faceCount := (Z2F (Z.of_nat (length vertexLines)) / 3)%float in
  let vertexCount := (faceCount * 3)%float in
  let vertices := asciiVertices buffer in
  let boundingBox := calculateBoundingBox vertices in
  let surfaceArea := estimateSurfaceArea faceCount in
  let volume := estimateVolume boundingBox in
  {| vertexCount := vertexCount;
     faceCount := faceCount;
     boundingBox := boundingBox;
     surfaceArea := surfaceArea;
     volume := volume |}.

(** One turn of the [for (let j = 0; j < 3; j++)] loop. *)
Definition readVertex (buffer : Buffer) (offset : Z)
    (acc : result (list vertex)) (j : Z) : result (list vertex) :=
  vertices <- acc ;;
  let vOffset := offset + j * 12 in
  x <- readFloatLE buffer vOffset ;;
  y <- readFloatLE buffer (vOffset + 4) ;;
  z <- readFloatLE buffer (vOffset + 8) ;;
  Ok (vertices ++ [(x, y, z)]).

(** The [for (let i = 0; i < faceCount; i++)] loop, [remaining] turns from
    index [i] on. *)
Fixpoint facetLoop (buffer : Buffer) (remaining : nat) (i : Z)
    (vertices : list vertex) : result (list vertex) :=
  match remaining with
  | O => Ok vertices
  | S remaining' =>
      let offset := 84 + i * 50 + 12 in
      vertices' <- fold_left (readVertex buffer offset) [0; 1; 2] (Ok vertices) ;;
      facetLoop buffer remaining' (i + 1) vertices'
  end.

(** The [vertices] array of [parseBinarySTL] when its loops end. *)
Definition binaryVertices (buffer : Buffer) (faceCount : Z) : result (list vertex) :=
  facetLoop buffer (Z.to_nat faceCount) 0 [].

Definition parseBinarySTL (buffer : Buffer) : result STLInfo :=
  faceCount <- readUInt32LE buffer 80 ;;
  let vertexCount := (Z2F faceCount * 3)%float in
  vertices <- binaryVertices buffer faceCount ;;
  let boundingBox := calculateBoundingBox vertices in
  let surfaceArea := estimateSurfaceArea (Z2F faceCount) in
  let volume := estimateVolume boundingBox in
  Ok {| vertexCount := vertexCount;
        faceCount := Z2F faceCount;
        boundingBox := boundingBox;
        surfaceArea := surfaceArea;
        volume := volume |}.

Section WithLower.
Variable unicodeLower : Z -> jsString.

(** [analyzeSTL], on the bytes [readFileAsync(filePath)] resolved to. *)
Definition analyzeSTL (buffer : Buffer) : result STLInfo :=
  match
    (let isAscii := isAsciiSTL unicodeLower buffer in
     if isAscii then Ok (parseAsciiSTL buffer)
     else parseBinarySTL buffer)
  with
  | Ok info => Ok info
  | Throw error =>
      Throw (Error ("Failed to analyze STL file: " ++ exn_message error))
  end.

(** [isValidSTL], on the same bytes. *)
Definition isValidSTL (buffer : Buffer) : bool :=
  match analyzeSTL buffer with
  | Ok _ => true
  | Throw _ => false
  end.
End WithLower.

End Server.

(* ------------------------------------------------------------------ *)
(** * The client: [client/src/lib/stlParser.ts] *)

Module Client.

(** A [File] of the browser: its name and its bytes ([file.size] is their
    number, [file.arrayBuffer()] resolves to them). *)
Record File : Type := {
  name : jsString;
  content : Buffer
}.

Definition size (file : File) : Z := byteLength (content file).

(** [interface STLInfo] of the client. *)
Record STLInfo : Type := {
  vertexCount : Z;
  faceCount : Z;
  isValid : bool;
  errorMessage : option string
}.

Definition rejected (message : string) : STLInfo :=
  {| vertexCount := 0; faceCount := 0; isValid := false;
     errorMessage := Some message |}.

(** [new Uint8Array(arrayBuffer, byteOffset, length)]: a [RangeError] when
    the view does not fit in the buffer. *)
Definition Uint8Array (arrayBuffer : Buffer) (byteOffset len : Z) : result Buffer :=
  if byteOffset + len <=? byteLength arrayBuffer then
    Ok (firstn (Z.to_nat len) (skipn (Z.to_nat byteOffset) arrayBuffer))
  else Throw (RangeError "Invalid typed array length").

Definition isLineTerminator (c : Z) : bool :=
  (c =? 10) || (c =? 13) || (c =? 0x2028) || (c =? 0x2029).

(** [text.match] on the regular expression of [solidMatch] (the word
    solid, one or more white-space characters, then a group capturing the
    rest of the line): the capture of the leftmost match, [None] for
    [null]. *)
Fixpoint match_solid (text : jsString) : option jsString :=
  match text with
  | [] => None
  | _ :: rest =>
      if startsWith text (str "solid") && isWhiteSpace (nth 5 text 0) then
        Some (takeWhile (fun c => negb (isLineTerminator c))
                (dropWhile isWhiteSpace (skipn 5 text)))
      else match_solid rest
  end.

Section WithLower.
Variable unicodeLower : Z -> jsString.

Definition isAsciiSTL (arrayBuffer : Buffer) : result bool :=
  header <- Uint8Array arrayBuffer 0 6 ;;
  let text := TextDecoder_decode header in
  Ok (jsString_eqb (toLowerCase unicodeLower (trim text)) (str "solid")).

(** The body of the [try] block of [validateSTLFile]. *)
Definition validateSTLFile_try (file : File) : result STLInfo :=
  let arrayBuffer := content file in
  isAscii <- isAsciiSTL arrayBuffer ;;
  if (isAscii : bool) then
    bytes <- Uint8Array arrayBuffer 0 (Z.min 1000 (byteLength arrayBuffer)) ;;
    let text := TextDecoder_decode bytes in
    let solidMatch := match_solid text in
    match solidMatch with
    | None => Ok (rejected "Invalid ASCII STL file format")
    | Some _ =>
        let faceCount := size file / 400 in
        let vertexCount := faceCount * 3 in
        Ok {| vertexCount := vertexCount; faceCount := faceCount;
              isValid := true; errorMessage := None |}
    end
  else
    faceCount <- getUint32 arrayBuffer 80 ;;
    let vertexCount := faceCount * 3 in
    let expectedSize := 84 + faceCount * 50 in
    if size file <? expectedSize then
      Ok (rejected "Binary STL file is corrupted or incomplete")
    else
      Ok {| vertexCount := vertexCount; faceCount := faceCount;
            isValid := true; errorMessage := None |}.

Definition validateSTLFile (file : File) : STLInfo :=
  if negb (endsWith (toLowerCase unicodeLower (name file)) (str ".stl")) then
    rejected "File must have .stl extension"
  else if size file >? 100 * 1024 * 1024 then
    rejected "File is too large (max 100MB)"
  else
    match validateSTLFile_try file with
    | Ok info => info
    | Throw error =>
        rejected ("Failed to parse STL file: " ++ exn_message error)
    end.
End WithLower.

End Client.

(* ------------------------------------------------------------------ *)
(** * Sample buffers *)

Definition byte_of_Z (z : Z) : byte :=
  match Byte.of_N (Z.to_N z) with
  | Some b => b
  | None => x00
  end.

Definition bytes_of_string (s : string) : Buffer :=
  map byte_of_ascii (list_ascii_of_string s).

(** The four bytes of a 32-bit pattern, little-endian. *)
Definition le32_bytes (bits : Z) : Buffer :=
  map byte_of_Z
    [Z.land bits 255; Z.land (Z.shiftr bits 8) 255;
     Z.land (Z.shiftr bits 16) 255; Z.land (Z.shiftr bits 24) 255].

(** A 50-byte record: a zero normal, nine coordinates given by their
    binary32 patterns, two attribute bytes. *)
Definition facet_record (coordinates : list Z) : Buffer :=
  repeat x00 12 ++ flat_map le32_bytes coordinates ++ repeat x00 2.

Definition binary_stl (count : Z) (records : list Buffer) : Buffer :=
  repeat x00 80 ++ le32_bytes count ++ concat records.

Definition f32_0 : Z := 0.
Definition f32_1 : Z := 0x3F800000.

(** The two facets of the specification's scenario:
    (0,0,0),(1,0,0),(0,1,0) and (0,0,1),(1,0,1),(0,1,1). *)
Definition scenario_buffer : Buffer :=
  binary_stl 2
    [facet_record [f32_0; f32_0; f32_0; f32_1; f32_0; f32_0; f32_0; f32_1; f32_0];
     facet_record [f32_0; f32_0; f32_1; f32_1; f32_0; f32_1; f32_0; f32_1; f32_1]].

(** The 133 bytes of a one-facet file that lost its last byte. *)
Definition truncated_buffer : Buffer :=
  binary_stl 1 [firstn 49 (facet_record (repeat f32_0 9))].

(** The lower-case mapping that leaves every code point outside ASCII as it
    is, for the closed examples. *)
Definition keepCodePoint (c : Z) : jsString := [c].

(* ------------------------------------------------------------------ *)
(** * What the specification says, as definitions of its own *)

(** The vertex whose twelve bytes start at [offset]: three little-endian
    binary32 values. *)
Definition vertexAt (buffer : Buffer) (offset : Z) : vertex :=
  (float32_of_bits (le32 buffer offset),
   float32_of_bits (le32 buffer (offset + 4)),
   float32_of_bits (le32 buffer (offset + 8))).

(** The three vertices of record [i]: the record starts at [84 + i*50],
    its vertices after the 12 bytes of the normal. *)
Definition facetVertices (buffer : Buffer) (i : Z) : list vertex :=
  let record := 84 + i * 50 in
  [vertexAt buffer (record + 12); vertexAt buffer (record + 24);
   vertexAt buffer (record + 36)].

(** The vertices of records [first], ..., [first + count - 1], in file order. *)
Definition recordVertices (buffer : Buffer) (first count : nat) : list vertex :=
  flat_map (facetVertices buffer) (map Z.of_nat (seq first count)).

(** The [3*N] vertices a binary buffer declares. *)
Definition declaredVertices (buffer : Buffer) (N : Z) : list vertex :=
  recordVertices buffer 0 (Z.to_nat N).

(** The minimum and the maximum of a list of numbers (0 for the empty list). *)
Definition minimum (xs : list float) : float :=
  match xs with
  | [] => zero
  | x :: r => fold_left Math_min r x
  end.

Definition maximum (xs : list float) : float :=
  match xs with
  | [] => zero
  | x :: r => fold_left Math_max r x
  end.

Definition coordX (v : vertex) : float := fst (fst v).
Definition coordY (v : vertex) : float := snd (fst v).
Definition coordZ (v : vertex) : float := snd v.

(** The componentwise minimum and maximum of a vertex stream. *)
Definition componentwiseBox (vs : list vertex) : BoundingBox :=
  {| min := (minimum (map coordX vs), minimum (map coordY vs), minimum (map coordZ vs));
     max := (maximum (map coordX vs), maximum (map coordY vs), maximum (map coordZ vs)) |}.

Definition zeroBox : BoundingBox :=
  {| min := (zero, zero, zero); max := (zero, zero, zero) |}.

(** [a <= b] on numbers. *)
Definition fle (a b : float) : Prop := (a <=? b)%float = true.

Definition notNaN (x : float) : Prop := is_nan x = false.

(** [m] is the least (greatest) of the numbers [xs]. *)
Definition isLeastOf (m : float) (xs : list float) : Prop :=
  In m xs /\ Forall (fle m) xs.

Definition isGreatestOf (m : float) (xs : list float) : Prop :=
  In m xs /\ Forall (fun x => fle x m) xs.

(** [box] is the smallest axis-aligned box containing [vs]. *)
Definition isExactBox (box : BoundingBox) (vs : list vertex) : Prop :=
  isLeastOf (coordX (min box)) (map coordX vs) /\
  isLeastOf (coordY (min box)) (map coordY vs) /\
  isLeastOf (coordZ (min box)) (map coordZ vs) /\
  isGreatestOf (coordX (max box)) (map coordX vs) /\
  isGreatestOf (coordY (max box)) (map coordY vs) /\
  isGreatestOf (coordZ (max box)) (map coordZ vs).

Definition noNaN (vs : list vertex) : Prop :=
  Forall (fun v => notNaN (coordX v) /\ notNaN (coordY v) /\ notNaN (coordZ v)) vs.

(** The volume formula of the specification: width, height and depth of
    the box, times 0.3. *)
Definition boxVolume (box : BoundingBox) : float :=
  ((coordX (max box) - coordX (min box))
   * (coordY (max box) - coordY (min box))
   * (coordZ (max box) - coordZ (min box)) * 0.3)%float.

(** ** The sniff, byte by byte *)

Definition isAscii (c : Z) : bool := c <? 128.

Definition isAsciiWhiteSpace (b : Z) : bool :=
  ((9 <=? b) && (b <=? 13)) || (b =? 32).

Definition asciiLowerCase (c : Z) : Z :=
  if (65 <=? c) && (c <=? 90) then c + 32 else c.

(** Five bytes that spell the word, in either case. *)
Definition spellsSolid (bs : list Z) : bool :=
  jsString_eqb (map asciiLowerCase bs) (str "solid").

(** The word alone, or with one ASCII white-space byte before or after it. *)
Definition solidHeader (bs : list Z) : bool :=
  spellsSolid bs
  || match bs with
     | w :: r => isAsciiWhiteSpace w && spellsSolid r
     | [] => false
     end
  || match rev bs with
     | w :: r => isAsciiWhiteSpace w && spellsSolid (rev r)
     | [] => false
     end.

(** What holds of a pending sequence of the decoder: the code point it
    will give, if completed, lies outside ASCII. *)
Definition utf8_wf (p : utf8_pending) : Prop :=
  0 <= code_point p /\ 0x80 <= lower_boundary p /\ upper_boundary p <= 0xBF /\
  match bytes_left p with
  | O | S O => 2 <= code_point p
  | S (S O) => 1 <= code_point p \/ 0x82 <= lower_boundary p
  | _ => 1 <= code_point p \/ 0x81 <= lower_boundary p
  end.

Definition utf8_state_wf (st : option utf8_pending) : Prop :=
  match st with
  | None => True
  | Some p => utf8_wf p
  end.

(** ** The textual reader, line by line *)


(** A line with at least four white-space separated tokens. *)
Definition hasFourParts (line : jsString) : bool :=
  4 <=? Z.of_nat (length (splitWhiteSpace (trim line))).

(** Token [k] of a line (token 0 starts with [vertex]). *)
Definition token (k : nat) (line : jsString) : jsString :=
  nth k (splitWhiteSpace (trim line)) [].

(** The vertex a line gives: tokens 1, 2 and 3 through [parseFloat]. *)
Definition vertexOfLine (line : jsString) : vertex :=
  (parseFloat (token 1 line), parseFloat (token 2 line), parseFloat (token 3 line)).

(** The coordinate that token [k] of a vertex line gives. *)
Definition coordinate (k : nat) (v : vertex) : float :=
  match k with
  | 1%nat => coordX v
  | 2%nat => coordY v
  | _ => coordZ v
  end.

(** [s] starts (after white space) with a [StrDecimalLiteral]: an optional
    sign, then [Infinity], a digit, or a point and a digit. *)
Definition numericPrefix (s : jsString) : bool :=
  let '(_, s) := stripSign (trimStart s) in
  startsWith s (str "Infinity")
  || match s with
     | c :: r =>
         isDigit c
         || ((c =? 46) && match r with
                          | d :: _ => isDigit d
                          | [] => false
                          end)
     | [] => false
     end.

(** The whole of [s] is a [StrDecimalLiteral]: a numeric token. *)
Definition isStrDecimalLiteral (s : jsString) : bool :=
  let '(_, s) := stripSign s in
  jsString_eqb s (str "Infinity")
  || (let intDigits := takeWhile isDigit s in
      let '(fracDigits, rest) := fractionPart (dropWhile isDigit s) in
      match intDigits ++ fracDigits with
      | [] => false
      | _ :: _ =>
          match rest with
          | [] => true
          | c :: r =>
              ((c =? 101) || (c =? 69))
              && (let '(_, ds) := stripSign r in
                  match ds with
                  | [] => false
                  | _ :: _ => forallb isDigit ds
                  end)
          end
      end).

(** A textual file with a single vertex line. *)
Definition one_vertex_buffer : Buffer :=
  bytes_of_string "solid s
vertex 1 2 3
".

(** A textual file whose vertex line has the token [1x]. *)
Definition suffixed_token_buffer : Buffer :=
  bytes_of_string "solid s
vertex 1x 2 3
".



(** The two facets of the scenario in the binary layout, under an 80-byte
    header that starts with the text [solid exported]. *)
Definition solid_headed_buffer : Buffer :=
  firstn 80 (bytes_of_string "solid exported" ++ repeat x00 80)
  ++ skipn 80 scenario_buffer.

(** The header line of a text: what stands before its first line
    terminator. *)
Definition headerLine (text : jsString) : jsString :=
  takeWhile (fun c => negb (Client.isLineTerminator c)) text.

(** Three textual files.  The first two have the same header line, in
    upper case; the second line of the first one holds the word [solid] in
    lower case, inside [endsolid].  The header line of the third one has a
    letter right after the word. *)
Definition upper_header_file : Client.File :=
  {| Client.name := str "part.stl";
     Client.content := bytes_of_string "SOLID part
endsolid part
" |}.

Definition upper_case_file : Client.File :=
  {| Client.name := str "part.stl";
     Client.content := bytes_of_string "SOLID part
ENDSOLID part
" |}.

Definition joined_header_file : Client.File :=
  {| Client.name := str "part.stl";
     Client.content := bytes_of_string " solidx
endsolid foo
" |}.

(** A binary file of 84 bytes declaring no facet. *)
Definition empty_binary_buffer : Buffer := binary_stl 0 [].

(** ** The validation gate, clause by clause *)

Section Gate.
Variable unicodeLower : Z -> jsString.

(** The format sniff on the first six bytes. *)
Definition sniffedTextual (buffer : Buffer) : bool :=
  jsString_eqb
    (toLowerCase unicodeLower (trim (TextDecoder_decode (firstn 6 buffer))))
    (str "solid").

Definition wrongExtension (file : Client.File) : Prop :=
  endsWith (toLowerCase unicodeLower (Client.name file)) (str ".stl") = false.

Definition tooLarge (file : Client.File) : Prop :=
  104857600 < Client.size file.

(** Binary, and the declared size [84 + faceCount*50] exceeds the length. *)
Definition declaredTooLong (file : Client.File) : Prop :=
  84 <= Client.size file /\
  sniffedTextual (Client.content file) = false /\
  Client.size file < 84 + le32 (Client.content file) 80 * 50.

(** Textual, and the search that the code makes finds nothing: the first
    1000 bytes hold no [solid] in lower case followed by white space, at any
    place.  This is the test of the code, not a test of the header line. *)
Definition badHeader (file : Client.File) : Prop :=
  6 <= Client.size file /\
  sniffedTextual (Client.content file) = true /\
  Client.match_solid (TextDecoder_decode (firstn 1000 (Client.content file))) = None.

(** The reads that throw: the six-byte view of the sniff on a shorter
    buffer, the count of a binary buffer shorter than 84 bytes. *)
Definition decodingThrows (file : Client.File) : Prop :=
  Client.size file < 6 \/
  (sniffedTextual (Client.content file) = false /\ Client.size file < 84).

Definition accepted (faceCount : Z) : Client.STLInfo :=
  {| Client.vertexCount := faceCount * 3; Client.faceCount := faceCount;
     Client.isValid := true; Client.errorMessage := None |}.

(** [validateSTLFile] with its exceptions resolved into tests on the size. *)
Definition validationGate (file : Client.File) : Client.STLInfo :=
  let buffer := Client.content file in
  if negb (endsWith (toLowerCase unicodeLower (Client.name file)) (str ".stl")) then
    Client.rejected "File must have .stl extension"
  else if Client.size file >? 104857600 then
    Client.rejected "File is too large (max 100MB)"
  else if Client.size file <? 6 then
    Client.rejected "Failed to parse STL file: Invalid typed array length"
  else if sniffedTextual buffer then
    match Client.match_solid (TextDecoder_decode (firstn 1000 buffer)) with
    | None => Client.rejected "Invalid ASCII STL file format"
    | Some _ => accepted (Client.size file / 400)
    end
  else if Client.size file <? 84 then
    Client.rejected
      "Failed to parse STL file: Offset is outside the bounds of the DataView"
  else if Client.size file <? 84 + le32 buffer 80 * 50 then
    Client.rejected "Binary STL file is corrupted or incomplete"
  else accepted (le32 buffer 80).
End Gate.

(* ------------------------------------------------------------------ *)
(** * The bytes of a binary file that count *)

(** The offsets of the facet count and of the vertices of the records:
    bytes 80 to 83, and bytes 12 to 47 of every 50-byte record after the
    84-byte header. *)
Definition isRead (offset : Z) : bool :=
  ((80 <=? offset) && (offset <? 84))
  || ((84 <=? offset) && (12 <=? (offset - 84) mod 50)
      && ((offset - 84) mod 50 <? 48)).

Fixpoint keepReadFrom (offset : Z) (buffer : Buffer) : Buffer :=
  match buffer with
  | [] => []
  | b :: rest =>
      (if isRead offset then b else x00) :: keepReadFrom (offset + 1) rest
  end.

(** The buffer with every other byte set to zero: the 80 bytes of the
    header, the normals, the attribute words. *)
Definition keepRead (buffer : Buffer) : Buffer := keepReadFrom 0 buffer.

(* ------------------------------------------------------------------ *)
(** * Integers from strings, and parsed JSON *)

(** What [parseInt] returns: NaN, or a Number whose value is an integer,
    [Int z] for the value [z]; [Int (2 ^ 1024)] and [Int (- 2 ^ 1024)],
    which are the values of no binary64, stand for Infinity and -Infinity.
    The identifiers of the store are integers of this kind. *)
Inductive intOrNaN : Type :=
| NaN
| Int (z : Z).

(** [a === b] on two such numbers: NaN equals nothing. *)
Definition intOrNaN_eqb (a b : intOrNaN) : bool :=
  match a, b with
  | Int x, Int y => x =? y
  | _, _ => false
  end.

(** [a === b] where [a] may be [null] ([None]) and [b] is a number. *)
Definition nullable_eqb (a : option intOrNaN) (b : intOrNaN) : bool :=
  match a with
  | Some x => intOrNaN_eqb x b
  | None => false
  end.

(** The value of a digit in a radix, [None] for any other character. *)
Definition digitValue (radix c : Z) : option Z :=
  let v :=
    if isDigit c then c - 48
    else if (97 <=? c) && (c <=? 122) then c - 87
    else if (65 <=? c) && (c <=? 90) then c - 55
    else radix in
  if v <? radix then Some v else None.

Definition isRadixDigit (radix c : Z) : bool :=
  match digitValue radix c with
  | Some _ => true
  | None => false
  end.

Definition radixValue (radix : Z) (ds : jsString) : Z :=
  fold_left
    (fun acc d => acc * radix + match digitValue radix d with
                                | Some v => v
                                | None => 0
                                end) ds 0.

(** The Number for a non-negative integer [m], by its value: [m] itself
    when 53 bits hold it, and otherwise [m] rounded to 53 significant bits,
    to the nearest and to the even one at a tie; from [2 ^ 1024] on the
    Number is Infinity. *)
Definition numberValue (m : Z) : Z :=
  let bits := Z.log2 m + 1 in
  if bits <=? 53 then m
  else
    let shift := bits - 53 in
    let q := Z.shiftr m shift in
    let r := Z.land m (Z.ones shift) in
    let half := 2 ^ (shift - 1) in
    let q' := if (half <? r) || ((r =? half) && Z.odd q) then q + 1 else q in
    Z.min (Z.shiftl q' shift) (2 ^ 1024).

(** [parseInt(s)], no radix given: white space skipped, an optional sign,
    an optional [0x] for radix 16, then the longest run of digits; NaN when
    there is none, and otherwise the Number for the integer that the digits
    write, with the sign. *)
Definition parseInt (s : jsString) : intOrNaN :=
  let '(negative, s) := stripSign (trimStart s) in
  let hex := startsWith s (str "0x") || startsWith s (str "0X") in
  let radix := if hex then 16 else 10 in
  let s := if hex then skipn 2 s else s in
  match takeWhile (isRadixDigit radix) s with
  | [] => NaN
  | ds =>
      let mathInt := radixValue radix ds in
      Int (if negative then - numberValue mathInt else numberValue mathInt)
  end.

(** [parseInt(x)] where [x] may be [undefined] ([None]): the string
    "undefined" has no digit. *)
Definition parseInt_opt (x : option jsString) : intOrNaN :=
  match x with
  | Some s => parseInt s
  | None => NaN
  end.

(** A value that [JSON.parse] returns (the keys of an object distinct). *)
#[warnings="-register-all"]
Inductive json : Type :=
| JNull
| JBool (b : bool)
| JNumber (x : float)
| JString (s : jsString)
| JArray (items : list json)
| JObject (fields : list (jsString * json)).

Fixpoint lookupField (fields : list (jsString * json)) (key : jsString)
  : option json :=
  match fields with
  | [] => None
  | (k, v) :: rest => if jsString_eqb k key then Some v else lookupField rest key
  end.

(** [value.key] for one of the keys the code reads ([recommendations],
    [title], [description], [improvementPercentage]; no prototype defines
    them): a [TypeError] on [null], the field of an object, [undefined]
    ([None]) otherwise.  The [TypeError] is carried by its message. *)
Definition getProperty (value : json) (key : string) : result (option json) :=
  match value with
  | JNull =>
      Throw (Error ("Cannot read properties of null (reading '" ++ key ++ "')"))
  | JObject fields => Ok (lookupField fields (str key))
  | _ => Ok None
  end.

(** [Array.isArray(x)], with the elements when it holds. *)
Definition asArray (x : option json) : option (list json) :=
  match x with
  | Some (JArray items) => Some items
  | _ => None
  end.

(* ------------------------------------------------------------------ *)
(** * The records of [shared/schema.ts]

    A column that may be [null], and a property that an insert may leave
    out, is an [option] ([None] for [null] and for [undefined] alike). *)

Module User.
Record t : Type := {
  id : Z;
  username : jsString;
  password : jsString
}.
End User.

Module InsertUser.
Record t : Type := {
  username : jsString;
  password : jsString
}.
End InsertUser.

Module Project.
Record t : Type := {
  id : Z;
  name : jsString;
  description : option jsString;
  userId : option intOrNaN;
  createdAt : jsString;
  updatedAt : jsString;
  status : option jsString
}.
End Project.

Module InsertProject.
Record t : Type := {
  name : jsString;
  description : option jsString;
  userId : option intOrNaN;
  status : option jsString
}.
End InsertProject.

Module Model.
Record t : Type := {
  id : Z;
  projectId : option intOrNaN;
  name : jsString;
  stlPath : jsString;
  vertexCount : option float;
  faceCount : option float;
  isOptimized : option bool;
  originalModelId : option intOrNaN
}.
End Model.

Module InsertModel.
Record t : Type := {
  projectId : option intOrNaN;
  name : jsString;
  stlPath : jsString;
  vertexCount : option float;
  faceCount : option float;
  isOptimized : option bool;
  originalModelId : option intOrNaN
}.
End InsertModel.

Module SimulationSettings.
Record t : Type := {
  id : Z;
  projectId : option intOrNaN;
  fluidMedium : option jsString;
  flowVelocity : option float;
  reynoldsNumber : option float;
  meshDensity : option jsString;
  advancedSettings : option json
}.
End SimulationSettings.

Module InsertSimulationSettings.
Record t : Type := {
  projectId : option intOrNaN;
  fluidMedium : option jsString;
  flowVelocity : option float;
  reynoldsNumber : option float;
  meshDensity : option jsString;
  advancedSettings : option json
}.
End InsertSimulationSettings.

Module AnalysisOptions.
Record t : Type := {
  id : Z;
  projectId : option intOrNaN;
  dragCoefficient : option bool;
  liftCoefficient : option bool;
  pressureDistribution : option bool;
  vorticityAnalysis : option bool;
  surfaceStreamlines : option bool
}.
End AnalysisOptions.

Module InsertAnalysisOptions.
Record t : Type := {
  projectId : option intOrNaN;
  dragCoefficient : option bool;
  liftCoefficient : option bool;
  pressureDistribution : option bool;
  vorticityAnalysis : option bool;
  surfaceStreamlines : option bool
}.
End InsertAnalysisOptions.

Module AiOptimizationOptions.
Record t : Type := {
  id : Z;
  projectId : option intOrNaN;
  optimizationGoal : option jsString;
  constraintImportance : option float;
  generateExplanation : option bool
}.
End AiOptimizationOptions.

Module InsertAiOptimizationOptions.
Record t : Type := {
  projectId : option intOrNaN;
  optimizationGoal : option jsString;
  constraintImportance : option float;
  generateExplanation : option bool
}.
End InsertAiOptimizationOptions.

Module SimulationResults.
Record t : Type := {
  id : Z;
  projectId : option intOrNaN;
  modelId : option intOrNaN;
  dragCoefficient : option float;
  liftCoefficient : option float;
  liftDragRatio : option float;
  pressurePoints : option float;
  pressureDistribution : option json;
  completedAt : jsString
}.
End SimulationResults.

Module InsertSimulationResults.
Record t : Type := {
  projectId : option intOrNaN;
  modelId : option intOrNaN;
  dragCoefficient : option float;
  liftCoefficient : option float;
  liftDragRatio : option float;
  pressurePoints : option float;
  pressureDistribution : option json
}.
End InsertSimulationResults.

(** The routes fill [title], [description] and [improvementPercentage]
    with whatever the recommendation service answered, so they are parsed
    values, possibly [undefined]. *)
Module AiRecommendation.
Record t : Type := {
  id : Z;
  simulationResultId : option intOrNaN;
  title : option json;
  description : option json;
  improvementPercentage : option json;
  applied : option bool
}.
End AiRecommendation.

Module InsertAiRecommendation.
Record t : Type := {
  simulationResultId : option intOrNaN;
  title : option json;
  description : option json;
  improvementPercentage : option json;
  applied : option bool
}.
End InsertAiRecommendation.

(** [Partial<AiRecommendation>]: each property present ([Some]) or not. *)
Module PartialAiRecommendation.
Record t : Type := {
  id : option Z;
  simulationResultId : option (option intOrNaN);
  title : option (option json);
  description : option (option json);
  improvementPercentage : option (option json);
  applied : option (option bool)
}.
End PartialAiRecommendation.

(* ------------------------------------------------------------------ *)
(** * [Map<number, V>]

    The entries in insertion order.  The keys that the store sets are the
    values of its counters, integers; [get] is also asked for what
    [parseInt] returned, and no entry has the key NaN. *)

Definition JsMap (V : Type) : Type := list (Z * V).

Section JsMapOperations.
Context {V : Type}.

Fixpoint lookup (entries : JsMap V) (key : Z) : option V :=
  match entries with
  | [] => None
  | (k, v) :: rest => if k =? key then Some v else lookup rest key
  end.

(** [map.get(key)]. *)
Definition Map_get (map : JsMap V) (key : intOrNaN) : option V :=
  match key with
  | NaN => None
  | Int z => lookup map z
  end.

(** [map.set(key, value)]: the value of an existing key is replaced where
    the key stands, a new key goes to the end. *)
Fixpoint Map_set (map : JsMap V) (key : Z) (value : V) : JsMap V :=
  match map with
  | [] => [(key, value)]
  | (k, v) :: rest =>
      if k =? key then (k, value) :: rest else (k, v) :: Map_set rest key value
  end.

(** [Array.from(map.values())]. *)
Definition Map_values (map : JsMap V) : list V := List.map snd map.

Definition Map_keys (map : JsMap V) : list Z := List.map fst map.

End JsMapOperations.

(** A property of a spread [{...base, ...data}] that [data] may carry. *)
Definition spreadOver {A : Type} (data : option A) (base : A) : A :=
  match data with
  | Some v => v
  | None => base
  end.

(* ------------------------------------------------------------------ *)
(** * The store: [server/storage.ts]

    Every method is a function of the store before the call that gives the
    store after it with the value returned; the time that [new Date()]
    reads is an argument. *)

Module Storage.

Record MemStorage : Type := {
  users : JsMap User.t;
  projects : JsMap Project.t;
  models : JsMap Model.t;
  simulationSettings : JsMap SimulationSettings.t;
  analysisOptions : JsMap AnalysisOptions.t;
  aiOptimizationOptions : JsMap AiOptimizationOptions.t;
  simulationResults : JsMap SimulationResults.t;
  aiRecommendations : JsMap AiRecommendation.t;
  currentUserId : Z;
  currentProjectId : Z;
  currentModelId : Z;
  currentSimulationSettingsId : Z;
  currentAnalysisOptionsId : Z;
  currentAiOptimizationOptionsId : Z;
  currentSimulationResultsId : Z;
  currentAiRecommendationsId : Z
}.

(** The assignments [this.field = value], one for each field. *)
Definition set_users (this : MemStorage)
    (value : JsMap User.t) : MemStorage :=
  {| users := value; projects := projects this; models := models this;
     simulationSettings := simulationSettings this;
     analysisOptions := analysisOptions this;
     aiOptimizationOptions := aiOptimizationOptions this;
     simulationResults := simulationResults this;
     aiRecommendations := aiRecommendations this;
     currentUserId := currentUserId this;
     currentProjectId := currentProjectId this;
     currentModelId := currentModelId this;
     currentSimulationSettingsId := currentSimulationSettingsId this;
     currentAnalysisOptionsId := currentAnalysisOptionsId this;
     currentAiOptimizationOptionsId := currentAiOptimizationOptionsId this;
     currentSimulationResultsId := currentSimulationResultsId this;
     currentAiRecommendationsId := currentAiRecommendationsId this |}.

Definition set_projects (this : MemStorage)
    (value : JsMap Project.t) : MemStorage :=
  {| users := users this; projects := value; models := models this;
     simulationSettings := simulationSettings this;
     analysisOptions := analysisOptions this;
     aiOptimizationOptions := aiOptimizationOptions this;
     simulationResults := simulationResults this;
     aiRecommendations := aiRecommendations this;
     currentUserId := currentUserId this;
     currentProjectId := currentProjectId this;
     currentModelId := currentModelId this;
     currentSimulationSettingsId := currentSimulationSettingsId this;
     currentAnalysisOptionsId := currentAnalysisOptionsId this;
     currentAiOptimizationOptionsId := currentAiOptimizationOptionsId this;
     currentSimulationResultsId := currentSimulationResultsId this;
     currentAiRecommendationsId := currentAiRecommendationsId this |}.

Definition set_models (this : MemStorage)
    (value : JsMap Model.t) : MemStorage :=
  {| users := users this; projects := projects this; models := value;
     simulationSettings := simulationSettings this;
     analysisOptions := analysisOptions this;
     aiOptimizationOptions := aiOptimizationOptions this;
     simulationResults := simulationResults this;
     aiRecommendations := aiRecommendations this;
     currentUserId := currentUserId this;
     currentProjectId := currentProjectId this;
     currentModelId := currentModelId this;
     currentSimulationSettingsId := currentSimulationSettingsId this;
     currentAnalysisOptionsId := currentAnalysisOptionsId this;
     currentAiOptimizationOptionsId := currentAiOptimizationOptionsId this;
     currentSimulationResultsId := currentSimulationResultsId this;
     currentAiRecommendationsId := currentAiRecommendationsId this |}.

Definition set_simulationSettings (this : MemStorage)
    (value : JsMap SimulationSettings.t) : MemStorage :=
  {| users := users this; projects := projects this; models := models this;
     simulationSettings := value; analysisOptions := analysisOptions this;
     aiOptimizationOptions := aiOptimizationOptions this;
     simulationResults := simulationResults this;
     aiRecommendations := aiRecommendations this;
     currentUserId := currentUserId this;
     currentProjectId := currentProjectId this;
     currentModelId := currentModelId this;
     currentSimulationSettingsId := currentSimulationSettingsId this;
     currentAnalysisOptionsId := currentAnalysisOptionsId this;
     currentAiOptimizationOptionsId := currentAiOptimizationOptionsId this;
     currentSimulationResultsId := currentSimulationResultsId this;
     currentAiRecommendationsId := currentAiRecommendationsId this |}.

Definition set_analysisOptions (this : MemStorage)
    (value : JsMap AnalysisOptions.t) : MemStorage :=
  {| users := users this; projects := projects this; models := models this;
     simulationSettings := simulationSettings this; analysisOptions := value;
     aiOptimizationOptions := aiOptimizationOptions this;
     simulationResults := simulationResults this;
     aiRecommendations := aiRecommendations this;
     currentUserId := currentUserId this;
     currentProjectId := currentProjectId this;
     currentModelId := currentModelId this;
     currentSimulationSettingsId := currentSimulationSettingsId this;
     currentAnalysisOptionsId := currentAnalysisOptionsId this;
     currentAiOptimizationOptionsId := currentAiOptimizationOptionsId this;
     currentSimulationResultsId := currentSimulationResultsId this;
     currentAiRecommendationsId := currentAiRecommendationsId this |}.

Definition set_aiOptimizationOptions (this : MemStorage)
    (value : JsMap AiOptimizationOptions.t) : MemStorage :=
  {| users := users this; projects := projects this; models := models this;
     simulationSettings := simulationSettings this;
     analysisOptions := analysisOptions this; aiOptimizationOptions := value;
     simulationResults := simulationResults this;
     aiRecommendations := aiRecommendations this;
     currentUserId := currentUserId this;
     currentProjectId := currentProjectId this;
     currentModelId := currentModelId this;
     currentSimulationSettingsId := currentSimulationSettingsId this;
     currentAnalysisOptionsId := currentAnalysisOptionsId this;
     currentAiOptimizationOptionsId := currentAiOptimizationOptionsId this;
     currentSimulationResultsId := currentSimulationResultsId this;
     currentAiRecommendationsId := currentAiRecommendationsId this |}.

Definition set_simulationResults (this : MemStorage)
    (value : JsMap SimulationResults.t) : MemStorage :=
  {| users := users this; projects := projects this; models := models this;
     simulationSettings := simulationSettings this;
     analysisOptions := analysisOptions this;
     aiOptimizationOptions := aiOptimizationOptions this;
     simulationResults := value; aiRecommendations := aiRecommendations this;
     currentUserId := currentUserId this;
     currentProjectId := currentProjectId this;
     currentModelId := currentModelId this;
     currentSimulationSettingsId := currentSimulationSettingsId this;
     currentAnalysisOptionsId := currentAnalysisOptionsId this;
     currentAiOptimizationOptionsId := currentAiOptimizationOptionsId this;
     currentSimulationResultsId := currentSimulationResultsId this;
     currentAiRecommendationsId := currentAiRecommendationsId this |}.

Definition set_aiRecommendations (this : MemStorage)
    (value : JsMap AiRecommendation.t) : MemStorage :=
  {| users := users this; projects := projects this; models := models this;
     simulationSettings := simulationSettings this;
     analysisOptions := analysisOptions this;
     aiOptimizationOptions := aiOptimizationOptions this;
     simulationResults := simulationResults this; aiRecommendations := value;
     currentUserId := currentUserId this;
     currentProjectId := currentProjectId this;
     currentModelId := currentModelId this;
     currentSimulationSettingsId := currentSimulationSettingsId this;
     currentAnalysisOptionsId := currentAnalysisOptionsId this;
     currentAiOptimizationOptionsId := currentAiOptimizationOptionsId this;
     currentSimulationResultsId := currentSimulationResultsId this;
     currentAiRecommendationsId := currentAiRecommendationsId this |}.

Definition set_currentUserId (this : MemStorage) (value : Z) : MemStorage :=
  {| users := users this; projects := projects this; models := models this;
     simulationSettings := simulationSettings this;
     analysisOptions := analysisOptions this;
     aiOptimizationOptions := aiOptimizationOptions this;
     simulationResults := simulationResults this;
     aiRecommendations := aiRecommendations this; currentUserId := value;
     currentProjectId := currentProjectId this;
     currentModelId := currentModelId this;
     currentSimulationSettingsId := currentSimulationSettingsId this;
     currentAnalysisOptionsId := currentAnalysisOptionsId this;
     currentAiOptimizationOptionsId := currentAiOptimizationOptionsId this;
     currentSimulationResultsId := currentSimulationResultsId this;
     currentAiRecommendationsId := currentAiRecommendationsId this |}.

Definition set_currentProjectId (this : MemStorage)
    (value : Z) : MemStorage :=
  {| users := users this; projects := projects this; models := models this;
     simulationSettings := simulationSettings this;
     analysisOptions := analysisOptions this;
     aiOptimizationOptions := aiOptimizationOptions this;
     simulationResults := simulationResults this;
     aiRecommendations := aiRecommendations this;
     currentUserId := currentUserId this; currentProjectId := value;
     currentModelId := currentModelId this;
     currentSimulationSettingsId := currentSimulationSettingsId this;
     currentAnalysisOptionsId := currentAnalysisOptionsId this;
     currentAiOptimizationOptionsId := currentAiOptimizationOptionsId this;
     currentSimulationResultsId := currentSimulationResultsId this;
     currentAiRecommendationsId := currentAiRecommendationsId this |}.

Definition set_currentModelId (this : MemStorage) (value : Z) : MemStorage :=
  {| users := users this; projects := projects this; models := models this;
     simulationSettings := simulationSettings this;
     analysisOptions := analysisOptions this;
     aiOptimizationOptions := aiOptimizationOptions this;
     simulationResults := simulationResults this;
     aiRecommendations := aiRecommendations this;
     currentUserId := currentUserId this;
     currentProjectId := currentProjectId this; currentModelId := value;
     currentSimulationSettingsId := currentSimulationSettingsId this;
     currentAnalysisOptionsId := currentAnalysisOptionsId this;
     currentAiOptimizationOptionsId := currentAiOptimizationOptionsId this;
     currentSimulationResultsId := currentSimulationResultsId this;
     currentAiRecommendationsId := currentAiRecommendationsId this |}.

Definition set_currentSimulationSettingsId (this : MemStorage)
    (value : Z) : MemStorage :=
  {| users := users this; projects := projects this; models := models this;
     simulationSettings := simulationSettings this;
     analysisOptions := analysisOptions this;
     aiOptimizationOptions := aiOptimizationOptions this;
     simulationResults := simulationResults this;
     aiRecommendations := aiRecommendations this;
     currentUserId := currentUserId this;
     currentProjectId := currentProjectId this;
     currentModelId := currentModelId this;
     currentSimulationSettingsId := value;
     currentAnalysisOptionsId := currentAnalysisOptionsId this;
     currentAiOptimizationOptionsId := currentAiOptimizationOptionsId this;
     currentSimulationResultsId := currentSimulationResultsId this;
     currentAiRecommendationsId := currentAiRecommendationsId this |}.

Definition set_currentAnalysisOptionsId (this : MemStorage)
    (value : Z) : MemStorage :=
  {| users := users this; projects := projects this; models := models this;
     simulationSettings := simulationSettings this;
     analysisOptions := analysisOptions this;
     aiOptimizationOptions := aiOptimizationOptions this;
     simulationResults := simulationResults this;
     aiRecommendations := aiRecommendations this;
     currentUserId := currentUserId this;
     currentProjectId := currentProjectId this;
     currentModelId := currentModelId this;
     currentSimulationSettingsId := currentSimulationSettingsId this;
     currentAnalysisOptionsId := value;
     currentAiOptimizationOptionsId := currentAiOptimizationOptionsId this;
     currentSimulationResultsId := currentSimulationResultsId this;
     currentAiRecommendationsId := currentAiRecommendationsId this |}.

Definition set_currentAiOptimizationOptionsId (this : MemStorage)
    (value : Z) : MemStorage :=
  {| users := users this; projects := projects this; models := models this;
     simulationSettings := simulationSettings this;
     analysisOptions := analysisOptions this;
     aiOptimizationOptions := aiOptimizationOptions this;
     simulationResults := simulationResults this;
     aiRecommendations := aiRecommendations this;
     currentUserId := currentUserId this;
     currentProjectId := currentProjectId this;
     currentModelId := currentModelId this;
     currentSimulationSettingsId := currentSimulationSettingsId this;
     currentAnalysisOptionsId := currentAnalysisOptionsId this;
     currentAiOptimizationOptionsId := value;
     currentSimulationResultsId := currentSimulationResultsId this;
     currentAiRecommendationsId := currentAiRecommendationsId this |}.

Definition set_currentSimulationResultsId (this : MemStorage)
    (value : Z) : MemStorage :=
  {| users := users this; projects := projects this; models := models this;
     simulationSettings := simulationSettings this;
     analysisOptions := analysisOptions this;
     aiOptimizationOptions := aiOptimizationOptions this;
     simulationResults := simulationResults this;
     aiRecommendations := aiRecommendations this;
     currentUserId := currentUserId this;
     currentProjectId := currentProjectId this;
     currentModelId := currentModelId this;
     currentSimulationSettingsId := currentSimulationSettingsId this;
     currentAnalysisOptionsId := currentAnalysisOptionsId this;
     currentAiOptimizationOptionsId := currentAiOptimizationOptionsId this;
     currentSimulationResultsId := value;
     currentAiRecommendationsId := currentAiRecommendationsId this |}.

Definition set_currentAiRecommendationsId (this : MemStorage)
    (value : Z) : MemStorage :=
  {| users := users this; projects := projects this; models := models this;
     simulationSettings := simulationSettings this;
     analysisOptions := analysisOptions this;
     aiOptimizationOptions := aiOptimizationOptions this;
     simulationResults := simulationResults this;
     aiRecommendations := aiRecommendations this;
     currentUserId := currentUserId this;
     currentProjectId := currentProjectId this;
     currentModelId := currentModelId this;
     currentSimulationSettingsId := currentSimulationSettingsId this;
     currentAnalysisOptionsId := currentAnalysisOptionsId this;
     currentAiOptimizationOptionsId := currentAiOptimizationOptionsId this;
     currentSimulationResultsId := currentSimulationResultsId this;
     currentAiRecommendationsId := value |}.


(** What [getSimulationResultWithRecommendations] returns:
    [{...result, recommendations}]. *)
Record SimulationResultWithRecommendations : Type := {
  result_ : SimulationResults.t;
  recommendations : list AiRecommendation.t
}.

(* User operations *)

Definition getUser (this : MemStorage) (id : intOrNaN) : option User.t :=
  Map_get (users this) id.

Definition getUserByUsername (this : MemStorage) (username : jsString)
  : option User.t :=
  find (fun user => jsString_eqb (User.username user) username)
       (Map_values (users this)).

Definition createUser (this : MemStorage) (insertUser : InsertUser.t)
  : MemStorage * User.t :=
  let id := currentUserId this in
  let this := set_currentUserId this (id + 1) in
  let user := {| User.username := InsertUser.username insertUser;
                 User.password := InsertUser.password insertUser;
                 User.id := id |} in
  let this := set_users this (Map_set (users this) id user) in
  (this, user).

(* Project operations *)

Definition getProject (this : MemStorage) (id : intOrNaN) : option Project.t :=
  Map_get (projects this) id.

Definition getProjects (this : MemStorage) : list Project.t :=
  Map_values (projects this).

Definition createProject (this : MemStorage) (insertProject : InsertProject.t)
    (now : jsString) : MemStorage * Project.t :=
  let id := currentProjectId this in
  let this := set_currentProjectId this (id + 1) in
  let project := {| Project.name := InsertProject.name insertProject;
                    Project.description := InsertProject.description insertProject;
                    Project.userId := InsertProject.userId insertProject;
                    Project.status := InsertProject.status insertProject;
                    Project.id := id;
                    Project.createdAt := now;
                    Project.updatedAt := now |} in
  let this := set_projects this (Map_set (projects this) id project) in
  (this, project).

(* Model operations *)

Definition getModel (this : MemStorage) (id : intOrNaN) : option Model.t :=
  Map_get (models this) id.

Definition getModelsByProject (this : MemStorage) (projectId : intOrNaN)
  : list Model.t :=
  filter (fun model => nullable_eqb (Model.projectId model) projectId)
         (Map_values (models this)).

Definition createModel (this : MemStorage) (insertModel : InsertModel.t)
  : MemStorage * Model.t :=
  let id := currentModelId this in
  let this := set_currentModelId this (id + 1) in
  let model := {| Model.projectId := InsertModel.projectId insertModel;
                  Model.name := InsertModel.name insertModel;
                  Model.stlPath := InsertModel.stlPath insertModel;
                  Model.vertexCount := InsertModel.vertexCount insertModel;
                  Model.faceCount := InsertModel.faceCount insertModel;
                  Model.isOptimized := InsertModel.isOptimized insertModel;
                  Model.originalModelId := InsertModel.originalModelId insertModel;
                  Model.id := id |} in
  let this := set_models this (Map_set (models this) id model) in
  (this, model).

(* Simulation Settings operations *)

Definition getSimulationSettings (this : MemStorage) (id : intOrNaN)
  : option SimulationSettings.t :=
  Map_get (simulationSettings this) id.

Definition getSimulationSettingsByProject (this : MemStorage)
    (projectId : intOrNaN) : option SimulationSettings.t :=
  find (fun settings =>
          nullable_eqb (SimulationSettings.projectId settings) projectId)
       (Map_values (simulationSettings this)).

Definition createSimulationSettings (this : MemStorage)
    (insertSettings : InsertSimulationSettings.t)
  : MemStorage * SimulationSettings.t :=
  let id := currentSimulationSettingsId this in
  let this := set_currentSimulationSettingsId this (id + 1) in
  let settings :=
    {| SimulationSettings.projectId :=
         InsertSimulationSettings.projectId insertSettings;
       SimulationSettings.fluidMedium :=
         InsertSimulationSettings.fluidMedium insertSettings;
       SimulationSettings.flowVelocity :=
         InsertSimulationSettings.flowVelocity insertSettings;
       SimulationSettings.reynoldsNumber :=
         InsertSimulationSettings.reynoldsNumber insertSettings;
       SimulationSettings.meshDensity :=
         InsertSimulationSettings.meshDensity insertSettings;
       SimulationSettings.advancedSettings :=
         InsertSimulationSettings.advancedSettings insertSettings;
       SimulationSettings.id := id |} in
  let this :=
    set_simulationSettings this (Map_set (simulationSettings this) id settings) in
  (this, settings).

(* Analysis Options operations *)

Definition getAnalysisOptions (this : MemStorage) (id : intOrNaN)
  : option AnalysisOptions.t :=
  Map_get (analysisOptions this) id.

Definition getAnalysisOptionsByProject (this : MemStorage)
    (projectId : intOrNaN) : option AnalysisOptions.t :=
  find (fun options =>
          nullable_eqb (AnalysisOptions.projectId options) projectId)
       (Map_values (analysisOptions this)).

Definition createAnalysisOptions (this : MemStorage)
    (insertOptions : InsertAnalysisOptions.t)
  : MemStorage * AnalysisOptions.t :=
  let id := currentAnalysisOptionsId this in
  let this := set_currentAnalysisOptionsId this (id + 1) in
  let options :=
    {| AnalysisOptions.projectId :=
         InsertAnalysisOptions.projectId insertOptions;
       AnalysisOptions.dragCoefficient :=
         InsertAnalysisOptions.dragCoefficient insertOptions;
       AnalysisOptions.liftCoefficient :=
         InsertAnalysisOptions.liftCoefficient insertOptions;
       AnalysisOptions.pressureDistribution :=
         InsertAnalysisOptions.pressureDistribution insertOptions;
       AnalysisOptions.vorticityAnalysis :=
         InsertAnalysisOptions.vorticityAnalysis insertOptions;
       AnalysisOptions.surfaceStreamlines :=
         InsertAnalysisOptions.surfaceStreamlines insertOptions;
       AnalysisOptions.id := id |} in
  let this :=
    set_analysisOptions this (Map_set (analysisOptions this) id options) in
  (this, options).

(* AI Optimization Options operations *)

Definition getAiOptimizationOptions (this : MemStorage) (id : intOrNaN)
  : option AiOptimizationOptions.t :=
  Map_get (aiOptimizationOptions this) id.

Definition getAiOptimizationOptionsByProject (this : MemStorage)
    (projectId : intOrNaN) : option AiOptimizationOptions.t :=
  find (fun options =>
          nullable_eqb (AiOptimizationOptions.projectId options) projectId)
       (Map_values (aiOptimizationOptions this)).

Definition createAiOptimizationOptions (this : MemStorage)
    (insertOptions : InsertAiOptimizationOptions.t)
  : MemStorage * AiOptimizationOptions.t :=
  let id := currentAiOptimizationOptionsId this in
  let this := set_currentAiOptimizationOptionsId this (id + 1) in
  let options :=
    {| AiOptimizationOptions.projectId :=
         InsertAiOptimizationOptions.projectId insertOptions;
       AiOptimizationOptions.optimizationGoal :=
         InsertAiOptimizationOptions.optimizationGoal insertOptions;
       AiOptimizationOptions.constraintImportance :=
         InsertAiOptimizationOptions.constraintImportance insertOptions;
       AiOptimizationOptions.generateExplanation :=
         InsertAiOptimizationOptions.generateExplanation insertOptions;
       AiOptimizationOptions.id := id |} in
  let this :=
    set_aiOptimizationOptions this
      (Map_set (aiOptimizationOptions this) id options) in
  (this, options).

(* Simulation Results operations *)

Definition getSimulationResult (this : MemStorage) (id : intOrNaN)
  : option SimulationResults.t :=
  Map_get (simulationResults this) id.

Definition getSimulationResultsByProject (this : MemStorage)
    (projectId : intOrNaN) : list SimulationResults.t :=
  filter (fun result => nullable_eqb (SimulationResults.projectId result) projectId)
         (Map_values (simulationResults this)).

Definition createSimulationResults (this : MemStorage)
    (insertResults : InsertSimulationResults.t) (now : jsString)
  : MemStorage * SimulationResults.t :=
  let id := currentSimulationResultsId this in
  let this := set_currentSimulationResultsId this (id + 1) in
  let results :=
    {| SimulationResults.projectId :=
         InsertSimulationResults.projectId insertResults;
       SimulationResults.modelId :=
         InsertSimulationResults.modelId insertResults;
       SimulationResults.dragCoefficient :=
         InsertSimulationResults.dragCoefficient insertResults;
       SimulationResults.liftCoefficient :=
         InsertSimulationResults.liftCoefficient insertResults;
       SimulationResults.liftDragRatio :=
         InsertSimulationResults.liftDragRatio insertResults;
       SimulationResults.pressurePoints :=
         InsertSimulationResults.pressurePoints insertResults;
       SimulationResults.pressureDistribution :=
         InsertSimulationResults.pressureDistribution insertResults;
       SimulationResults.id := id;
       SimulationResults.completedAt := now |} in
  let this :=
    set_simulationResults this (Map_set (simulationResults this) id results) in
  (this, results).

Definition getSimulationResultWithRecommendations (this : MemStorage)
    (id : intOrNaN) : option SimulationResultWithRecommendations :=
  let result := Map_get (simulationResults this) id in
  match result with
  | None => None
  | Some result =>
      let recommendations :=
        filter (fun rec => nullable_eqb (AiRecommendation.simulationResultId rec) id)
               (Map_values (aiRecommendations this)) in
      Some {| result_ := result; recommendations := recommendations |}
  end.

(* AI Recommendations operations *)

Definition getAiRecommendation (this : MemStorage) (id : intOrNaN)
  : option AiRecommendation.t :=
  Map_get (aiRecommendations this) id.

Definition getAiRecommendationsBySimulationResult (this : MemStorage)
    (simulationResultId : intOrNaN) : list AiRecommendation.t :=
  filter (fun rec =>
            nullable_eqb (AiRecommendation.simulationResultId rec)
                         simulationResultId)
         (Map_values (aiRecommendations this)).

Definition createAiRecommendation (this : MemStorage)
    (insertRecommendation : InsertAiRecommendation.t)
  : MemStorage * AiRecommendation.t :=
  let id := currentAiRecommendationsId this in
  let this := set_currentAiRecommendationsId this (id + 1) in
  let recommendation :=
    {| AiRecommendation.simulationResultId :=
         InsertAiRecommendation.simulationResultId insertRecommendation;
       AiRecommendation.title :=
         InsertAiRecommendation.title insertRecommendation;
       AiRecommendation.description :=
         InsertAiRecommendation.description insertRecommendation;
       AiRecommendation.improvementPercentage :=
         InsertAiRecommendation.improvementPercentage insertRecommendation;
       AiRecommendation.applied :=
         InsertAiRecommendation.applied insertRecommendation;
       AiRecommendation.id := id |} in
  let this :=
    set_aiRecommendations this
      (Map_set (aiRecommendations this) id recommendation) in
  (this, recommendation).

(** [{ ...recommendation, ...data }]. *)
Definition mergeAiRecommendation (recommendation : AiRecommendation.t)
    (data : PartialAiRecommendation.t) : AiRecommendation.t :=
  {| AiRecommendation.id :=
       spreadOver (PartialAiRecommendation.id data)
                  (AiRecommendation.id recommendation);
     AiRecommendation.simulationResultId :=
       spreadOver (PartialAiRecommendation.simulationResultId data)
                  (AiRecommendation.simulationResultId recommendation);
     AiRecommendation.title :=
       spreadOver (PartialAiRecommendation.title data)
                  (AiRecommendation.title recommendation);
     AiRecommendation.description :=
       spreadOver (PartialAiRecommendation.description data)
                  (AiRecommendation.description recommendation);
     AiRecommendation.improvementPercentage :=
       spreadOver (PartialAiRecommendation.improvementPercentage data)
                  (AiRecommendation.improvementPercentage recommendation);
     AiRecommendation.applied :=
       spreadOver (PartialAiRecommendation.applied data)
                  (AiRecommendation.applied recommendation) |}.

(** The key of [this.aiRecommendations.set(id, ...)] is the [id] that
    [get] has just found, an integer. *)
Definition updateAiRecommendation (this : MemStorage) (id : intOrNaN)
    (data : PartialAiRecommendation.t)
  : result (MemStorage * AiRecommendation.t) :=
  let recommendation := Map_get (aiRecommendations this) id in
  match recommendation, id with
  | Some recommendation, Int key =>
      let updatedRecommendation := mergeAiRecommendation recommendation data in
      let this :=
        set_aiRecommendations this
          (Map_set (aiRecommendations this) key updatedRecommendation) in
      Ok (this, updatedRecommendation)
  | _, _ => Throw (Error "Recommendation not found")
  end.

(** [constructor()]. *)
Definition new_MemStorage (now : jsString) : MemStorage :=
  let this :=
    {| users := []; projects := []; models := []; simulationSettings := [];
       analysisOptions := []; aiOptimizationOptions := [];
       simulationResults := []; aiRecommendations := [];
       currentUserId := 1; currentProjectId := 1; currentModelId := 1;
       currentSimulationSettingsId := 1; currentAnalysisOptionsId := 1;
       currentAiOptimizationOptionsId := 1; currentSimulationResultsId := 1;
       currentAiRecommendationsId := 1 |} in
  fst (createProject this
         {| InsertProject.name := str "Rocket Prototype v2.3";
            InsertProject.description :=
              Some (str "Experimental rocket design with improved aerodynamics");
            InsertProject.userId := None;
            InsertProject.status := Some (str "draft") |}
         now).

End Storage.

(* ------------------------------------------------------------------ *)
(** * Histories of the store *)

(** A call of one of the methods that write; the methods that read leave
    the store as it is. *)
Inductive call : Type :=
| CreateUser (insertUser : InsertUser.t)
| CreateProject (insertProject : InsertProject.t) (now : jsString)
| CreateModel (insertModel : InsertModel.t)
| CreateSimulationSettings (insertSettings : InsertSimulationSettings.t)
| CreateAnalysisOptions (insertOptions : InsertAnalysisOptions.t)
| CreateAiOptimizationOptions (insertOptions : InsertAiOptimizationOptions.t)
| CreateSimulationResults (insertResults : InsertSimulationResults.t)
    (now : jsString)
| CreateAiRecommendation (insertRecommendation : InsertAiRecommendation.t)
| UpdateAiRecommendation (id : intOrNaN) (data : PartialAiRecommendation.t).

(** The store after a call; an update that throws has written nothing. *)
Definition perform (this : Storage.MemStorage) (c : call) : Storage.MemStorage :=
  match c with
  | CreateUser insertUser => fst (Storage.createUser this insertUser)
  | CreateProject insertProject now =>
      fst (Storage.createProject this insertProject now)
  | CreateModel insertModel => fst (Storage.createModel this insertModel)
  | CreateSimulationSettings insertSettings =>
      fst (Storage.createSimulationSettings this insertSettings)
  | CreateAnalysisOptions insertOptions =>
      fst (Storage.createAnalysisOptions this insertOptions)
  | CreateAiOptimizationOptions insertOptions =>
      fst (Storage.createAiOptimizationOptions this insertOptions)
  | CreateSimulationResults insertResults now =>
      fst (Storage.createSimulationResults this insertResults now)
  | CreateAiRecommendation insertRecommendation =>
      fst (Storage.createAiRecommendation this insertRecommendation)
  | UpdateAiRecommendation id data =>
      match Storage.updateAiRecommendation this id data with
      | Ok (this', _) => this'
      | Throw _ => this
      end
  end.

(** The store that [new MemStorage()] built at time [now], after the
    calls of a history. *)
Definition history (now : jsString) (calls : list call) : Storage.MemStorage :=
  fold_left perform calls (Storage.new_MemStorage now).

(** The integers [1, 2, ..., n]. *)
Definition firstIds (n : nat) : list Z := List.map Z.of_nat (seq 1 n).

(** The keys of a map are [1, ..., current - 1], in this order. *)
Definition numbered {V : Type} (map : JsMap V) (current : Z) : Prop :=
  current = Z.of_nat (length map) + 1 /\ Map_keys map = firstIds (length map).

(** Every record of a map is stored under its own [id]. *)
Definition identified {V : Type} (id : V -> Z) (map : JsMap V) : Prop :=
  Forall (fun entry => id (snd entry) = fst entry) map.

Record consistent (this : Storage.MemStorage) : Prop := {
  users_numbered :
    numbered (Storage.users this) (Storage.currentUserId this);
  projects_numbered :
    numbered (Storage.projects this) (Storage.currentProjectId this);
  models_numbered :
    numbered (Storage.models this) (Storage.currentModelId this);
  simulationSettings_numbered :
    numbered (Storage.simulationSettings this)
             (Storage.currentSimulationSettingsId this);
  analysisOptions_numbered :
    numbered (Storage.analysisOptions this)
             (Storage.currentAnalysisOptionsId this);
  aiOptimizationOptions_numbered :
    numbered (Storage.aiOptimizationOptions this)
             (Storage.currentAiOptimizationOptionsId this);
  simulationResults_numbered :
    numbered (Storage.simulationResults this)
             (Storage.currentSimulationResultsId this);
  aiRecommendations_numbered :
    numbered (Storage.aiRecommendations this)
             (Storage.currentAiRecommendationsId this);
  users_identified : identified User.id (Storage.users this);
  projects_identified : identified Project.id (Storage.projects this);
  models_identified : identified Model.id (Storage.models this);
  simulationSettings_identified :
    identified SimulationSettings.id (Storage.simulationSettings this);
  analysisOptions_identified :
    identified AnalysisOptions.id (Storage.analysisOptions this);
  aiOptimizationOptions_identified :
    identified AiOptimizationOptions.id (Storage.aiOptimizationOptions this);
  simulationResults_identified :
    identified SimulationResults.id (Storage.simulationResults this)
}.

(** [after] holds the entries of [before], in their order, and then
    possibly more. *)
Definition extends {A : Type} (before after : list A) : Prop :=
  exists more, after = before ++ more.

(** What a later store has kept of an earlier one: every table but the
    recommendations has only gained entries at its end; the recommendations
    have kept their keys, and gained keys at the end. *)
Record grown (before after : Storage.MemStorage) : Prop := {
  users_grown : extends (Storage.users before) (Storage.users after);
  projects_grown : extends (Storage.projects before) (Storage.projects after);
  models_grown : extends (Storage.models before) (Storage.models after);
  simulationSettings_grown :
    extends (Storage.simulationSettings before)
            (Storage.simulationSettings after);
  analysisOptions_grown :
    extends (Storage.analysisOptions before) (Storage.analysisOptions after);
  aiOptimizationOptions_grown :
    extends (Storage.aiOptimizationOptions before)
            (Storage.aiOptimizationOptions after);
  simulationResults_grown :
    extends (Storage.simulationResults before)
            (Storage.simulationResults after);
  aiRecommendations_grown :
    extends (Map_keys (Storage.aiRecommendations before))
            (Map_keys (Storage.aiRecommendations after))
}.

(* ------------------------------------------------------------------ *)
(** * The recommendations: [server/lib/openai.ts] *)

Definition recommendationObject (title description : string) (improvementPercentage : float)
  : json :=
  JObject [(str "title", JString (str title));
           (str "description", JString (str description));
           (str "improvementPercentage", JNumber improvementPercentage)].

(** The array that both fallbacks of [generateRecommendations] return. *)
Definition defaultRecommendations : list json :=
  [recommendationObject "Streamline Leading Edges"
     "Reshape the leading edges to reduce drag by improving airflow attachment and reducing turbulence formation."
     8.3;
   recommendationObject "Optimize Surface Curvature"
     "Adjust surface curvature gradients to maintain smoother pressure distribution and reduce boundary layer separation."
     5.7;
   recommendationObject "Refine Trailing Edge Geometry"
     "Sharpen and thin the trailing edges to minimize wake formation and reduce form drag."
     4.2].

(** [generateRecommendations].  [completion] is what the statements of the
    [try] block up to [JSON.parse(...)] came to: the parsed content of the
    answer, or what one of them threw. *)
Definition generateRecommendations (completion : result json) : list json :=
  match
    (result_ <- completion ;;
     recommendations <- getProperty result_ "recommendations" ;;
     match asArray recommendations with
     | Some recommendations => Ok recommendations
     | None =>
         match asArray (Some result_) with
         | Some result_ => Ok result_
         | None => Ok defaultRecommendations
         end
     end)
  with
  | Ok recommendations => recommendations
  | Throw error => defaultRecommendations
  end.

(* ------------------------------------------------------------------ *)
(** * The routes: [server/routes.ts] *)

Module Routes.

(** What [res.json(...)] sends. *)
Inductive Body : Type :=
| Message (message : string)
| ProjectJson (project : Project.t)
| ProjectsJson (projects : list Project.t)
| ModelJson (model : Model.t)
| ModelsJson (models : list Model.t)
| SimulationSettingsJson (settings : option SimulationSettings.t)
| AnalysisOptionsJson (options : option AnalysisOptions.t)
| AiOptimizationOptionsJson (options : option AiOptimizationOptions.t)
| SimulationResultJson
    (result_ : option Storage.SimulationResultWithRecommendations)
| Applied (message : string) (optimizedModel : Model.t).

Record Response : Type := {
  status : Z;
  body : Body
}.

(** [res.status(code).json(body)]; [res.json(body)] is [respond 200 body]. *)
Definition respond (code : Z) (body : Body) : Response :=
  {| status := code; body := body |}.

(** An [async] body over the store: the store when it settles, with the
    value it resolved to or the error it threw. *)
Definition Async (A : Type) : Type :=
  Storage.MemStorage -> Storage.MemStorage * result A.

Definition resolve {A : Type} (a : A) : Async A :=
  fun storage => (storage, Ok a).

Definition await {A B : Type} (m : Async A) (k : A -> Async B) : Async B :=
  fun storage =>
    match m storage with
    | (storage', Ok a) => k a storage'
    | (storage', Throw error) => (storage', Throw error)
    end.

Notation "x <~ m ;; k" := (await m (fun x => k))
  (at level 61, m at next level, right associativity).

(** A method of the store that reads, one that writes, one that may
    throw; and a computation that touches no store. *)
Definition reading {A : Type} (method : Storage.MemStorage -> A) : Async A :=
  fun storage => (storage, Ok (method storage)).

Definition writing {A : Type}
    (method : Storage.MemStorage -> Storage.MemStorage * A) : Async A :=
  fun storage => let (storage', a) := method storage in (storage', Ok a).

Definition writingOrThrowing {A : Type}
    (method : Storage.MemStorage -> result (Storage.MemStorage * A)) : Async A :=
  fun storage =>
    match method storage with
    | Ok (storage', a) => (storage', Ok a)
    | Throw error => (storage, Throw error)
    end.

Definition settled {A : Type} (r : result A) : Async A :=
  fun storage => (storage, r).

(** [for (const item of items) { ... }]. *)
Fixpoint forEach {A : Type} (items : list A) (body : A -> Async unit)
  : Async unit :=
  match items with
  | [] => resolve tt
  | item :: rest => _ <~ body item ;; forEach rest body
  end.

(** [try { ... } catch (error) { res.status(code).json({ message:
    error.message }) }]. *)
Definition tryCatch (block : Async Response) (code : Z)
  : Storage.MemStorage -> Storage.MemStorage * Response :=
  fun storage =>
    match block storage with
    | (storage', Ok response) => (storage', response)
    | (storage', Throw error) =>
        (storage', respond code (Message (exn_message error)))
    end.

(** A call of a [get] method with a value that may be [null]: no key is
    [null]. *)
Definition nullable {V : Type} (get : intOrNaN -> option V)
    (key : option intOrNaN) : option V :=
  match key with
  | None => None
  | Some k => get k
  end.

(** [req.file] as multer left it: the name the client gave, the path of
    the copy on disk, and the bytes of that copy. *)
Record UploadedFile : Type := {
  originalname : jsString;
  path : jsString;
  content : Buffer
}.

(** The text fields of the upload form that the handler reads. *)
Record UploadFields : Type := {
  projectId : option jsString;
  name : option jsString
}.

(** What [runSimulation] resolves to. *)
Record SimulationResult : Type := {
  dragCoefficient : float;
  liftCoefficient : float;
  liftDragRatio : float;
  pressurePoints : float;
  pressureDistribution : json
}.

(** [!value] is false. *)
Definition truthy (value : option json) : bool :=
  match value with
  | None => false
  | Some JNull => false
  | Some (JBool b) => b
  | Some (JNumber x) => negb (is_nan x || (x =? 0)%float)
  | Some (JString s) => negb (jsString_eqb s [])
  | Some (JArray _) => true
  | Some (JObject _) => true
  end.

Section Handlers.
Variable unicodeLower : Z -> jsString.
(** [path.basename(path, suffix)] of Node. *)
Variable basename : jsString -> jsString -> jsString.
(** The string of a number ([Number::toString]). *)
Variable numberToString : float -> jsString.

(** The string that [parseInt] makes of its argument first. *)
Fixpoint toString (value : json) : jsString :=
  match value with
  | JNull => str "null"
  | JBool true => str "true"
  | JBool false => str "false"
  | JNumber x => numberToString x
  | JString s => s
  | JArray items =>
      (fix join (items : list json) : jsString :=
         match items with
         | [] => []
         | item :: rest =>
             let element :=
               match item with
               | JNull => []
               | _ => toString item
               end in
             match rest with
             | [] => element
             | _ :: _ => element ++ str "," ++ join rest
             end
         end) items
  | JObject _ => str "[object Object]"
  end.

Definition parseInt_json (value : option json) : intOrNaN :=
  match value with
  | None => NaN
  | Some v => parseInt (toString v)
  end.

(** [app.post("/api/projects", ...)]; [parsed] is what
    [insertProjectSchema.parse(req.body)] came to. *)
Definition post_api_projects (parsed : result InsertProject.t) (now : jsString)
  : Storage.MemStorage -> Storage.MemStorage * Response :=
  tryCatch
    (projectData <~ settled parsed ;;
     project <~ writing (fun storage =>
                           Storage.createProject storage projectData now) ;;
     resolve (respond 201 (ProjectJson project)))
    400.

(** [app.get("/api/projects", ...)]. *)
Definition get_api_projects
  : Storage.MemStorage -> Storage.MemStorage * Response :=
  tryCatch
    (projects <~ reading Storage.getProjects ;;
     resolve (respond 200 (ProjectsJson projects)))
    500.

(** [app.get("/api/projects/:id", ...)]. *)
Definition get_api_projects_id (id : jsString)
  : Storage.MemStorage -> Storage.MemStorage * Response :=
  tryCatch
    (let id := parseInt id in
     project <~ reading (fun storage => Storage.getProject storage id) ;;
     match project with
     | None => resolve (respond 404 (Message "Project not found"))
     | Some project => resolve (respond 200 (ProjectJson project))
     end)
    500.

(** [app.post("/api/models/upload", upload.single("stlFile"), ...)]. *)
Definition post_api_models_upload (file : option UploadedFile)
    (fields : UploadFields)
  : Storage.MemStorage -> Storage.MemStorage * Response :=
  tryCatch
    (match file with
     | None => resolve (respond 400 (Message "No file uploaded"))
     | Some file =>
         stlInfo <~ settled (Server.analyzeSTL unicodeLower (content file)) ;;
         let modelData :=
           {| InsertModel.projectId := Some (parseInt_opt (projectId fields));
              InsertModel.name :=
                match name fields with
                | Some (c :: s) => c :: s
                | _ => basename (originalname file) (str ".stl")
                end;
              InsertModel.stlPath := path file;
              InsertModel.vertexCount := Some (vertexCount stlInfo);
              InsertModel.faceCount := Some (faceCount stlInfo);
              InsertModel.isOptimized := Some false;
              InsertModel.originalModelId := None |} in
         model <~ writing (fun storage =>
                             Storage.createModel storage modelData) ;;
         resolve (respond 201 (ModelJson model))
     end)
    400.

(** [app.get("/api/models/:id", ...)]. *)
Definition get_api_models_id (id : jsString)
  : Storage.MemStorage -> Storage.MemStorage * Response :=
  tryCatch
    (let id := parseInt id in
     model <~ reading (fun storage => Storage.getModel storage id) ;;
     match model with
     | None => resolve (respond 404 (Message "Model not found"))
     | Some model => resolve (respond 200 (ModelJson model))
     end)
    500.

(** [app.get("/api/projects/:projectId/models", ...)]. *)
Definition get_api_projects_projectId_models (projectId : jsString)
  : Storage.MemStorage -> Storage.MemStorage * Response :=
  tryCatch
    (let projectId := parseInt projectId in
     models <~ reading (fun storage =>
                          Storage.getModelsByProject storage projectId) ;;
     resolve (respond 200 (ModelsJson models)))
    500.

(** [app.post("/api/simulation-settings", ...)]; [parsed] is what
    [insertSimulationSettingsSchema.parse(req.body)] came to. *)
Definition post_api_simulation_settings
    (parsed : result InsertSimulationSettings.t)
  : Storage.MemStorage -> Storage.MemStorage * Response :=
  tryCatch
    (settingsData <~ settled parsed ;;
     settings <~ writing (fun storage =>
                            Storage.createSimulationSettings storage settingsData) ;;
     resolve (respond 201 (SimulationSettingsJson (Some settings))))
    400.

(** [app.get("/api/projects/:projectId/simulation-settings", ...)]. *)
Definition get_api_projects_projectId_simulation_settings (projectId : jsString)
  : Storage.MemStorage -> Storage.MemStorage * Response :=
  tryCatch
    (let projectId := parseInt projectId in
     settings <~ reading (fun storage =>
                            Storage.getSimulationSettingsByProject storage projectId) ;;
     resolve (respond 200 (SimulationSettingsJson settings)))
    500.

(** [app.post("/api/analysis-options", ...)]. *)
Definition post_api_analysis_options (parsed : result InsertAnalysisOptions.t)
  : Storage.MemStorage -> Storage.MemStorage * Response :=
  tryCatch
    (optionsData <~ settled parsed ;;
     options <~ writing (fun storage =>
                           Storage.createAnalysisOptions storage optionsData) ;;
     resolve (respond 201 (AnalysisOptionsJson (Some options))))
    400.

(** [app.get("/api/projects/:projectId/analysis-options", ...)]. *)
Definition get_api_projects_projectId_analysis_options (projectId : jsString)
  : Storage.MemStorage -> Storage.MemStorage * Response :=
  tryCatch
    (let projectId := parseInt projectId in
     options <~ reading (fun storage =>
                           Storage.getAnalysisOptionsByProject storage projectId) ;;
     resolve (respond 200 (AnalysisOptionsJson options)))
    500.

(** [app.post("/api/ai-optimization-options", ...)]. *)
Definition post_api_ai_optimization_options
    (parsed : result InsertAiOptimizationOptions.t)
  : Storage.MemStorage -> Storage.MemStorage * Response :=
  tryCatch
    (optionsData <~ settled parsed ;;
     options <~ writing (fun storage =>
                           Storage.createAiOptimizationOptions storage optionsData) ;;
     resolve (respond 201 (AiOptimizationOptionsJson (Some options))))
    400.

(** [app.get("/api/projects/:projectId/ai-optimization-options", ...)]. *)
Definition get_api_projects_projectId_ai_optimization_options
    (projectId : jsString)
  : Storage.MemStorage -> Storage.MemStorage * Response :=
  tryCatch
    (let projectId := parseInt projectId in
     options <~ reading (fun storage =>
                           Storage.getAiOptimizationOptionsByProject storage
                                                                     projectId) ;;
     resolve (respond 200 (AiOptimizationOptionsJson options)))
    500.

(** One turn of the loop that saves the recommendations. *)
Definition saveRecommendation (result_ : SimulationResults.t) (rec : json)
  : Async unit :=
  title <~ settled (getProperty rec "title") ;;
  description <~ settled (getProperty rec "description") ;;
  improvementPercentage <~ settled (getProperty rec "improvementPercentage") ;;
  _ <~ writing (fun storage =>
                  Storage.createAiRecommendation storage
                    {| InsertAiRecommendation.simulationResultId :=
                         Some (Int (SimulationResults.id result_));
                       InsertAiRecommendation.title := title;
                       InsertAiRecommendation.description := description;
                       InsertAiRecommendation.improvementPercentage :=
                         improvementPercentage;
                       InsertAiRecommendation.applied := Some false |}) ;;
  resolve tt.

(** [app.post("/api/simulate", ...)].  [projectId] and [modelId] are the
    two properties of [req.body]; [simulation] is what [runSimulation]
    settles to, [completion] what the request to the recommendation
    service comes to, [now] the time of saving. *)
Definition post_api_simulate (projectId modelId : option json)
    (simulation : result SimulationResult) (completion : result json)
    (now : jsString)
  : Storage.MemStorage -> Storage.MemStorage * Response :=
  tryCatch
    (if negb (truthy projectId) || negb (truthy modelId) then
       resolve (respond 400 (Message "Project ID and Model ID are required"))
     else
       project <~ reading (fun storage =>
                    Storage.getProject storage (parseInt_json projectId)) ;;
       model <~ reading (fun storage =>
                  Storage.getModel storage (parseInt_json modelId)) ;;
       settings <~ reading (fun storage =>
                     Storage.getSimulationSettingsByProject storage
                       (parseInt_json projectId)) ;;
       analysisOptions <~ reading (fun storage =>
                            Storage.getAnalysisOptionsByProject storage
                              (parseInt_json projectId)) ;;
       match project, model, settings, analysisOptions with
       | Some project, Some model, Some settings, Some analysisOptions =>
           simulationResult <~ settled simulation ;;
           result_ <~ writing (fun storage =>
                        Storage.createSimulationResults storage
                          {| InsertSimulationResults.projectId :=
                               Some (parseInt_json projectId);
                             InsertSimulationResults.modelId :=
                               Some (parseInt_json modelId);
                             InsertSimulationResults.dragCoefficient :=
                               Some (dragCoefficient simulationResult);
                             InsertSimulationResults.liftCoefficient :=
                               Some (liftCoefficient simulationResult);
                             InsertSimulationResults.liftDragRatio :=
                               Some (liftDragRatio simulationResult);
                             InsertSimulationResults.pressurePoints :=
                               Some (pressurePoints simulationResult);
                             InsertSimulationResults.pressureDistribution :=
                               Some (pressureDistribution simulationResult) |}
                          now) ;;
           aiOptions <~ reading (fun storage =>
                          Storage.getAiOptimizationOptionsByProject storage
                            (parseInt_json projectId)) ;;
           _ <~ match aiOptions with
                | Some aiOptions =>
                    let recommendations := generateRecommendations completion in
                    forEach recommendations (saveRecommendation result_)
                | None => resolve tt
                end ;;
           completeResult <~ reading (fun storage =>
                               Storage.getSimulationResultWithRecommendations
                                 storage (Int (SimulationResults.id result_))) ;;
           resolve (respond 200 (SimulationResultJson completeResult))
       | _, _, _, _ =>
           resolve (respond 404 (Message "Required data not found"))
       end)
    500.

(** [app.get("/api/simulation-results/:id", ...)]. *)
Definition get_api_simulation_results_id (id : jsString)
  : Storage.MemStorage -> Storage.MemStorage * Response :=
  tryCatch
    (let id := parseInt id in
     result_ <~ reading (fun storage =>
                  Storage.getSimulationResultWithRecommendations storage id) ;;
     match result_ with
     | None => resolve (respond 404 (Message "Simulation result not found"))
     | Some result_ => resolve (respond 200 (SimulationResultJson (Some result_)))
     end)
    500.

(** The [{ applied: true }] of the route below. *)
Definition appliedTrue : PartialAiRecommendation.t :=
  {| PartialAiRecommendation.id := None;
     PartialAiRecommendation.simulationResultId := None;
     PartialAiRecommendation.title := None;
     PartialAiRecommendation.description := None;
     PartialAiRecommendation.improvementPercentage := None;
     PartialAiRecommendation.applied := Some (Some true) |}.

(** [app.post("/api/recommendations/:id/apply", ...)]. *)
Definition post_api_recommendations_id_apply (id : jsString)
  : Storage.MemStorage -> Storage.MemStorage * Response :=
  tryCatch
    (let id := parseInt id in
     recommendation <~ reading (fun storage =>
                         Storage.getAiRecommendation storage id) ;;
     match recommendation with
     | None => resolve (respond 404 (Message "Recommendation not found"))
     | Some recommendation =>
         simulationResult <~ reading (fun storage =>
           nullable (Storage.getSimulationResult storage)
                    (AiRecommendation.simulationResultId recommendation)) ;;
         match simulationResult with
         | None => resolve (respond 404 (Message "Simulation result not found"))
         | Some simulationResult =>
             model <~ reading (fun storage =>
               nullable (Storage.getModel storage)
                        (SimulationResults.modelId simulationResult)) ;;
             match model with
             | None => resolve (respond 404 (Message "Model not found"))
             | Some model =>
                 optimizedModel <~ writing (fun storage =>
                   Storage.createModel storage
                     {| InsertModel.projectId :=
                          SimulationResults.projectId simulationResult;
                        InsertModel.name := Model.name model ++ str "_optimized";
                        InsertModel.stlPath := Model.stlPath model;
                        InsertModel.vertexCount := Model.vertexCount model;
                        InsertModel.faceCount := Model.faceCount model;
                        InsertModel.isOptimized := Some true;
                        InsertModel.originalModelId :=
                          Some (Int (Model.id model)) |}) ;;
                 _ <~ writingOrThrowing (fun storage =>
                        Storage.updateAiRecommendation storage id appliedTrue) ;;
                 resolve (respond 200
                            (Applied "Recommendation applied" optimizedModel))
             end
         end
     end)
    500.

End Handlers.

End Routes.

(* ------------------------------------------------------------------ *)
(** * The client's upload: [uploadSTLFile] *)

Module ClientUpload.

(** [s.replace(pattern, replacement)] for two strings: the first occurrence
    of [pattern] is replaced ([replacement] holds no [$]). *)
Fixpoint replace (s pattern replacement : jsString) : jsString :=
  if startsWith s pattern then replacement ++ skipn (length pattern) s
  else
    match s with
    | [] => []
    | c :: rest => c :: replace rest pattern replacement
    end.

(** The form that the request carries. *)
Record FormData : Type := {
  stlFile : Client.File;
  projectId : jsString;
  name : jsString
}.

(** What [uploadSTLFile] does before the transfer: it calls [onError], or
    it sends the form to [POST /api/models/upload]. *)
Inductive Outcome : Type :=
| onError (error : exn)
| send (formData : FormData).

Section WithLower.
Variable unicodeLower : Z -> jsString.
Variable numberToString : float -> jsString.

Definition uploadSTLFile (file : Client.File) (projectId : float) : Outcome :=
  let validationResult := Client.validateSTLFile unicodeLower file in
  if negb (Client.isValid validationResult) then
    onError (Error match Client.errorMessage validationResult with
                   | Some message => message
                   | None => EmptyString
                   end)
  else
    send {| stlFile := file;
            projectId := numberToString projectId;
            name := replace (Client.name file) (str ".stl") [] |}.

End WithLower.

End ClientUpload.

(* ------------------------------------------------------------------ *)
(** * The upload component: [components/FileUploader.tsx] *)

Module FileUploader.

(** What the component does with a file that was chosen or dropped: it
    shows a toast, or it hands the form to the upload mutation, which
    posts it to [/api/models/upload]. *)
Inductive Outcome : Type :=
| toast (title description : string)
| mutate (formData : ClientUpload.FormData).

(** [!projectId] is false, for a [number | null]. *)
Definition selected (projectId : option float) : bool :=
  match projectId with
  | None => false
  | Some x => negb (is_nan x || (x =? 0)%float)
  end.

Section WithLower.
Variable unicodeLower : Z -> jsString.
Variable numberToString : float -> jsString.

Definition handleUpload (projectId : option float) (selectedFile : Client.File)
  : Outcome :=
  match projectId with
  | Some number =>
      if negb (selected projectId) then
        toast "Missing project" "Please select a project first"
      else
        mutate {| ClientUpload.stlFile := selectedFile;
                  ClientUpload.projectId := numberToString number;
                  ClientUpload.name :=
                    ClientUpload.replace (Client.name selectedFile)
                                         (str ".stl") [] |}
  | None => toast "Missing project" "Please select a project first"
  end.

Definition validateAndSetFile (projectId : option float)
    (selectedFile : Client.File) : Outcome :=
  if negb (endsWith (toLowerCase unicodeLower (Client.name selectedFile))
                    (str ".stl")) then
    toast "Invalid file type" "Please upload an STL file"
  else if Client.size selectedFile >? 100 * 1024 * 1024 then
    toast "File too large" "File size should be less than 100MB"
  else handleUpload projectId selectedFile.

End WithLower.

End FileUploader.

(** A binary file with a text in its header, a normal and an attribute
    word that are not zero. *)
Definition labelled_buffer : Buffer :=
  firstn 80 (bytes_of_string "exported by a modelling tool" ++ repeat x00 80)
  ++ le32_bytes 1
  ++ le32_bytes f32_1 ++ repeat x00 8
  ++ flat_map le32_bytes
       [f32_0; f32_0; f32_0; f32_1; f32_0; f32_0; f32_0; f32_1; f32_0]
  ++ map byte_of_Z [7; 0].

(** A textual file that holds no vertex. *)
Definition empty_solid_buffer : Buffer :=
  bytes_of_string "solid nothing
endsolid nothing
".

(* ------------------------------------------------------------------ *)
(** * The simulation: [server/lib/openFoam.ts] *)

Module OpenFoam.







End OpenFoam.


(* ------------------------------------------------------------------ *)
(** * Histories of the server *)

(** A request to one of the routes above, with what the handler reads. *)
Inductive request : Type :=
| POST_projects (parsed : result InsertProject.t) (now : jsString)
| GET_projects
| GET_projects_id (id : jsString)
| POST_models_upload (file : option Routes.UploadedFile)
    (fields : Routes.UploadFields)
| GET_models_id (id : jsString)
| GET_projects_projectId_models (projectId : jsString)
| POST_simulation_settings (parsed : result InsertSimulationSettings.t)
| GET_projects_projectId_simulation_settings (projectId : jsString)
| POST_analysis_options (parsed : result InsertAnalysisOptions.t)
| GET_projects_projectId_analysis_options (projectId : jsString)
| POST_ai_optimization_options (parsed : result InsertAiOptimizationOptions.t)
| GET_projects_projectId_ai_optimization_options (projectId : jsString)
| POST_simulate (projectId modelId : option json)
    (simulation : result Routes.SimulationResult) (completion : result json)
    (now : jsString)
| GET_simulation_results_id (id : jsString)
| POST_recommendations_id_apply (id : jsString).

Section Server.
Variable unicodeLower : Z -> jsString.
Variable basename : jsString -> jsString -> jsString.
Variable numberToString : float -> jsString.

Definition serve (storage : Storage.MemStorage) (r : request)
  : Storage.MemStorage * Routes.Response :=
  match r with
  | POST_projects parsed now => Routes.post_api_projects parsed now storage
  | GET_projects => Routes.get_api_projects storage
  | GET_projects_id id => Routes.get_api_projects_id id storage
  | POST_models_upload file fields =>
      Routes.post_api_models_upload unicodeLower basename file fields storage
  | GET_models_id id => Routes.get_api_models_id id storage
  | GET_projects_projectId_models projectId =>
      Routes.get_api_projects_projectId_models projectId storage
  | POST_simulation_settings parsed =>
      Routes.post_api_simulation_settings parsed storage
  | GET_projects_projectId_simulation_settings projectId =>
      Routes.get_api_projects_projectId_simulation_settings projectId storage
  | POST_analysis_options parsed =>
      Routes.post_api_analysis_options parsed storage
  | GET_projects_projectId_analysis_options projectId =>
      Routes.get_api_projects_projectId_analysis_options projectId storage
  | POST_ai_optimization_options parsed =>
      Routes.post_api_ai_optimization_options parsed storage
  | GET_projects_projectId_ai_optimization_options projectId =>
      Routes.get_api_projects_projectId_ai_optimization_options projectId
        storage
  | POST_simulate projectId modelId simulation completion now =>
      Routes.post_api_simulate numberToString projectId modelId simulation
        completion now storage
  | GET_simulation_results_id id =>
      Routes.get_api_simulation_results_id id storage
  | POST_recommendations_id_apply id =>
      Routes.post_api_recommendations_id_apply id storage
  end.

(** The store of a server started at time [now], after it has answered
    the requests. *)
Definition served (now : jsString) (requests : list request)
  : Storage.MemStorage :=
  fold_left (fun storage r => fst (serve storage r)) requests
            (Storage.new_MemStorage now).

End Server.

(** [rec.key] for a recommendation that is not [null]. *)
Definition field (rec : json) (key : string) : option json :=
  match rec with
  | JObject fields => lookupField fields (str key)
  | _ => None
  end.

(** The recommendation that the simulation route saves for [rec]. *)
Definition insertOf (simulationResultId : Z) (rec : json)
  : InsertAiRecommendation.t :=
  {| InsertAiRecommendation.simulationResultId := Some (Int simulationResultId);
     InsertAiRecommendation.title := field rec "title";
     InsertAiRecommendation.description := field rec "description";
     InsertAiRecommendation.improvementPercentage :=
       field rec "improvementPercentage";
     InsertAiRecommendation.applied := Some false |}.

Definition isNull (value : json) : bool :=
  match value with
  | JNull => true
  | _ => false
  end.

(** The references that the records of a store hold: a simulation result
    names a project and a model that have been created, a recommendation a
    simulation result that has been created, an optimized model an earlier
    model; a model that is not optimized names none. *)
Record linked (this : Storage.MemStorage) : Prop := {
  simulationResults_linked :
    Forall (fun results =>
              exists p m,
                SimulationResults.projectId results = Some (Int p) /\
                1 <= p < Storage.currentProjectId this /\
                SimulationResults.modelId results = Some (Int m) /\
                1 <= m < Storage.currentModelId this)
           (Map_values (Storage.simulationResults this));
  aiRecommendations_linked :
    Forall (fun rec =>
              exists k,
                AiRecommendation.simulationResultId rec = Some (Int k) /\
                1 <= k < Storage.currentSimulationResultsId this)
           (Map_values (Storage.aiRecommendations this));
  models_linked :
    Forall (fun model =>
              match Model.isOptimized model with
              | Some true =>
                  exists k,
                    Model.originalModelId model = Some (Int k) /\
                    1 <= k < Model.id model
              | _ => Model.originalModelId model = None
              end)
           (Map_values (Storage.models this))
}.

(** The [modelData] of the upload route. *)
Definition uploadedModel (basename : jsString -> jsString -> jsString)
    (file : Routes.UploadedFile) (fields : Routes.UploadFields) (stlInfo : STLInfo)
  : InsertModel.t :=
  {| InsertModel.projectId := Some (parseInt_opt (Routes.projectId fields));
     InsertModel.name :=
       match Routes.name fields with
       | Some (c :: s) => c :: s
       | _ => basename (Routes.originalname file) (str ".stl")
       end;
     InsertModel.stlPath := Routes.path file;
     InsertModel.vertexCount := Some (vertexCount stlInfo);
     InsertModel.faceCount := Some (faceCount stlInfo);
     InsertModel.isOptimized := Some false;
     InsertModel.originalModelId := None |}.

(** The model that the route of a recommendation creates from [model],
    for the project of [simulationResult]. *)
Definition optimizedCopy (simulationResult : SimulationResults.t)
    (model : Model.t) : InsertModel.t :=
  {| InsertModel.projectId := SimulationResults.projectId simulationResult;
     InsertModel.name := Model.name model ++ str "_optimized";
     InsertModel.stlPath := Model.stlPath model;
     InsertModel.vertexCount := Model.vertexCount model;
     InsertModel.faceCount := Model.faceCount model;
     InsertModel.isOptimized := Some true;
     InsertModel.originalModelId := Some (Int (Model.id model)) |}.

(** The results that the simulation route saves. *)
Definition simulationInsert (projectId modelId : intOrNaN)
    (simulationResult : Routes.SimulationResult) : InsertSimulationResults.t :=
  {| InsertSimulationResults.projectId := Some projectId;
     InsertSimulationResults.modelId := Some modelId;
     InsertSimulationResults.dragCoefficient :=
       Some (Routes.dragCoefficient simulationResult);
     InsertSimulationResults.liftCoefficient :=
       Some (Routes.liftCoefficient simulationResult);
     InsertSimulationResults.liftDragRatio :=
       Some (Routes.liftDragRatio simulationResult);
     InsertSimulationResults.pressurePoints :=
       Some (Routes.pressurePoints simulationResult);
     InsertSimulationResults.pressureDistribution :=
       Some (Routes.pressureDistribution simulationResult) |}.

(** The recommendations in front of the first [null]. *)
Definition beforeNull (recommendations : list json) : list json :=
  takeWhile (fun rec => negb (isNull rec)) recommendations.

Definition saveCalls (simulationResultId : Z) (recommendations : list json)
  : list call :=
  List.map (fun rec => CreateAiRecommendation (insertOf simulationResultId rec))
           (beforeNull recommendations).

(** What a call must name for the references to stay resolved. *)
Definition call_linked (this : Storage.MemStorage) (c : call) : Prop :=
  match c with
  | CreateModel insertModel =>
      match InsertModel.isOptimized insertModel with
      | Some true =>
          exists k,
            InsertModel.originalModelId insertModel = Some (Int k) /\
            1 <= k < Storage.currentModelId this
      | _ => InsertModel.originalModelId insertModel = None
      end
  | CreateSimulationResults insertResults _ =>
      exists p m,
        InsertSimulationResults.projectId insertResults = Some (Int p) /\
        1 <= p < Storage.currentProjectId this /\
        InsertSimulationResults.modelId insertResults = Some (Int m) /\
        1 <= m < Storage.currentModelId this
  | CreateAiRecommendation insertRecommendation =>
      exists k,
        InsertAiRecommendation.simulationResultId insertRecommendation
        = Some (Int k) /\
        1 <= k < Storage.currentSimulationResultsId this
  | UpdateAiRecommendation _ data =>
      PartialAiRecommendation.simulationResultId data = None
  | _ => True
  end.

Fixpoint calls_linked (this : Storage.MemStorage) (calls : list call) : Prop :=
  match calls with
  | [] => True
  | c :: rest => call_linked this c /\ calls_linked (perform this c) rest
  end.

(** The record that [createAiRecommendation] makes under [id]. *)
Definition recommendationOf (id : Z) (insertRecommendation : InsertAiRecommendation.t)
  : AiRecommendation.t :=
  {| AiRecommendation.id := id;
     AiRecommendation.simulationResultId :=
       InsertAiRecommendation.simulationResultId insertRecommendation;
     AiRecommendation.title := InsertAiRecommendation.title insertRecommendation;
     AiRecommendation.description :=
       InsertAiRecommendation.description insertRecommendation;
     AiRecommendation.improvementPercentage :=
       InsertAiRecommendation.improvementPercentage insertRecommendation;
     AiRecommendation.applied :=
       InsertAiRecommendation.applied insertRecommendation |}.

(** The records made one after the other, the first under [id]. *)
Fixpoint numberedFrom (id : Z) (inserts : list InsertAiRecommendation.t)
  : list AiRecommendation.t :=
  match inserts with
  | [] => []
  | insertRecommendation :: rest =>
      recommendationOf id insertRecommendation :: numberedFrom (id + 1) rest
  end.

(** The record that [createSimulationResults] makes under [id]. *)
Definition resultsOf (id : Z) (insertResults : InsertSimulationResults.t)
    (now : jsString) : SimulationResults.t :=
  {| SimulationResults.id := id;
     SimulationResults.projectId :=
       InsertSimulationResults.projectId insertResults;
     SimulationResults.modelId := InsertSimulationResults.modelId insertResults;
     SimulationResults.dragCoefficient :=
       InsertSimulationResults.dragCoefficient insertResults;
     SimulationResults.liftCoefficient :=
       InsertSimulationResults.liftCoefficient insertResults;
     SimulationResults.liftDragRatio :=
       InsertSimulationResults.liftDragRatio insertResults;
     SimulationResults.pressurePoints :=
       InsertSimulationResults.pressurePoints insertResults;
     SimulationResults.pressureDistribution :=
       InsertSimulationResults.pressureDistribution insertResults;
     SimulationResults.completedAt := now |}.

(** The project that the constructor of the store creates at time [now]. *)
Definition sampleProject (now : jsString) : Project.t :=
  {| Project.id := 1;
     Project.name := str "Rocket Prototype v2.3";
     Project.description :=
       Some (str "Experimental rocket design with improved aerodynamics");
     Project.userId := None;
     Project.createdAt := now;
     Project.updatedAt := now;
     Project.status := Some (str "draft") |}.

(* ------------------------------------------------------------------ *)
(** * A sample history of the server *)

Definition sample_basename (path suffix : jsString) : jsString := path.

Definition sample_numberToString (x : float) : jsString := str "1".

(** An upload of the two-facet file, then settings, analysis options and
    optimization options for project 1. *)
Definition sample_requests : list request :=
  [POST_models_upload
     (Some {| Routes.originalname := str "wing.stl";
              Routes.path := str "uploads/1-1.stl";
              Routes.content := scenario_buffer |})
     {| Routes.projectId := Some (str "1"); Routes.name := Some (str "wing") |};
   POST_simulation_settings
     (Ok {| InsertSimulationSettings.projectId := Some (Int 1);
            InsertSimulationSettings.fluidMedium := Some (str "air");
            InsertSimulationSettings.flowVelocity := Some 120%float;
            InsertSimulationSettings.reynoldsNumber := Some 500000%float;
            InsertSimulationSettings.meshDensity := Some (str "medium");
            InsertSimulationSettings.advancedSettings := None |});
   POST_analysis_options
     (Ok {| InsertAnalysisOptions.projectId := Some (Int 1);
            InsertAnalysisOptions.dragCoefficient := Some true;
            InsertAnalysisOptions.liftCoefficient := Some true;
            InsertAnalysisOptions.pressureDistribution := Some true;
            InsertAnalysisOptions.vorticityAnalysis := Some false;
            InsertAnalysisOptions.surfaceStreamlines := Some true |});
   POST_ai_optimization_options
     (Ok {| InsertAiOptimizationOptions.projectId := Some (Int 1);
            InsertAiOptimizationOptions.optimizationGoal :=
              Some (str "Minimize Drag");
            InsertAiOptimizationOptions.constraintImportance := Some 50%float;
            InsertAiOptimizationOptions.generateExplanation := Some true |})].

Definition sample_simulation : Routes.SimulationResult :=
  {| Routes.dragCoefficient := 0.3;
     Routes.liftCoefficient := 0.8;
     Routes.liftDragRatio := (0.8 / 0.3)%float;
     Routes.pressurePoints := 3;
     Routes.pressureDistribution := JObject [(str "points", JArray [])] |}.

Definition sample_storage : Storage.MemStorage :=
  served keepCodePoint sample_basename sample_numberToString
         (str "2024-01-01T00:00:00.000Z") sample_requests.

(* ------------------------------------------------------------------ *)
(** * Sanity checks of the embedding *)

(** [float32_of_bits] on 1, -0.5, the least denormal, -0, a NaN and the
    binary32 nearest to pi. *)
Example float32_of_bits_samples :
  map float32_of_bits
    [0x3F800000; 0xBF000000; 1; 0x80000000; 0x7FC00000; 0x40490FDB]
  = [1; -0.5; 0x1p-149; neg_zero; nan; 0x1.921fb6p+1]%float.
Proof. vm_compute. reflexivity. Qed.

Example Math_min_max_signed_zero :
  Math_min zero neg_zero = neg_zero /\ Math_min neg_zero zero = neg_zero /\
  Math_max zero neg_zero = zero /\ Math_max neg_zero zero = zero /\
  Math_min infinity nan = nan /\
  Math_min 1 2 = 1%float /\ Math_max 1 2 = 2%float.
Proof. repeat split; reflexivity. Qed.

(** [parseFloat] rounds to nearest (overflow, denormals, ties), keeps the
    sign of zero, and reads the longest numeric prefix. *)
Example parseFloat_samples :
  map (fun s => parseFloat (str s))
    ["0.1"; "0.3"; "-0"; "1e-5"; "5e-324"; "1.7976931348623157e308"; "2e308";
     "12abc"; ".5"; "1.e2"; "abc"; "."; "-Infinityx"; "3.14159"; "2.5e-324";
     "2.47e-324"; "1e23"; "9007199254740993"; "0.000001";
     "123456789012345678901234567890"]%string
  = [0.1; 0.3; neg_zero; 1e-5; 5e-324; 1.7976931348623157e308; infinity;
     12; 0.5; 100; nan; nan; neg_infinity; 3.14159; 5e-324;
     0; 1e23; 9007199254740992; 0.000001;
     123456789012345678901234567890]%float.
Proof. vm_compute. reflexivity. Qed.

(** [parseInt] rounds as the conversion of integers to floats does: the
    digits of [2^53 + 1] give [2^53], a tie goes to the even neighbour, the
    19 digits that [toString] prints for [2^60] give [2^60] back, and 310
    digits give Infinity. *)
Example parseInt_samples :
  parseInt (str "42") = Int 42 /\
  parseInt (str "  -12px") = Int (-12) /\
  parseInt (str "0x1F") = Int 31 /\
  parseInt (str "1.9") = Int 1 /\
  parseInt (str "abc") = NaN /\
  parseInt [] = NaN /\
  parseInt (str "9007199254740993") = Int 9007199254740992 /\
  parseInt (str "9007199254740995") = Int 9007199254740996 /\
  parseInt (str "1152921504606847000") = Int (2 ^ 60) /\
  parseInt (str "1" ++ repeat 48 309) = Int (2 ^ 1024) /\
  Z2F (numberValue 9007199254740993) = Z2F 9007199254740993 /\
  Z2F (numberValue 9007199254740995) = Z2F 9007199254740995 /\
  Z2F (numberValue 1152921504606847000) = Z2F 1152921504606847000 /\
  Z2F (numberValue 4611686018427387903) = Z2F 4611686018427387903.
Proof. repeat split; vm_compute; reflexivity. Qed.

(** Sequences of one to four bytes, then a stray byte, a lead byte followed
    by an ASCII byte, and a sequence cut by the end of the input. *)
Example utf8_decode_samples :
  utf8_decode_from None
    [0x73; 0xC3; 0xA9; 0xE2; 0x82; 0xAC; 0xF0; 0x9F; 0x98; 0x80;
     0xFF; 0xC3; 0x41; 0xE2; 0x82]
  = [0x73; 0xE9; 0x20AC; 0x1F600; 0xFFFD; 0xFFFD; 0x41; 0xFFFD].
Proof. reflexivity. Qed.

Example split_trim_samples :
  splitWhiteSpace (str "vertex  1 2   3") = map str ["vertex"; "1"; "2"; "3"]%string /\
  splitWhiteSpace (str " a ") = map str [""; "a"; ""]%string /\
  splitLines (str "ab
c
") = map str ["ab"; "c"; ""]%string /\
  trim (str "  solid ") = str "solid" /\
  endsWith (str "a.stl") (str ".stl") = true.
Proof. repeat split; reflexivity. Qed.

Example scenario_validated :
  Client.validateSTLFile keepCodePoint
    {| Client.name := str "A.STL"; Client.content := scenario_buffer |}
  = {| Client.vertexCount := 6; Client.faceCount := 2;
       Client.isValid := true; Client.errorMessage := None |}.
Proof. vm_compute. reflexivity. Qed.

(** Four vertex lines, one with a token that is no number. *)
Example textual_analyzed :
  Server.analyzeSTL keepCodePoint (bytes_of_string "solid x
 facet
  vertex 1 2 3
  vertex -1 2.5 1e1
  vertex 0 0 0
  vertex 7 x 1
")
  = Ok {| vertexCount := 4; faceCount := 4 / 3;
          boundingBox := {| min := (-1, nan, 0)%float; max := (7, nan, 10)%float |};
          surfaceArea := 4 / 3 * 0.01; volume := nan |}.
Proof. vm_compute. reflexivity. Qed.

Example short_buffer_rejected :
  Client.validateSTLFile keepCodePoint
    {| Client.name := str "a.stl"; Client.content := bytes_of_string "solid" |}
  = Client.rejected "Failed to parse STL file: Invalid typed array length".
Proof. vm_compute. reflexivity. Qed.

(* ------------------------------------------------------------------ *)
(** * Numbers: facts about binary64 *)

Section FloatFacts.

Lemma SFmul_comm (x y : spec_float) : SFmul prec emax x y = SFmul prec emax y x.
Proof.
  destruct x as [sx|sx| |sx mx ex], y as [sy|sy| |sy my ey]; simpl;
    try reflexivity; try (rewrite xorb_comm; reflexivity).
  rewrite xorb_comm, Pos.mul_comm, Z.add_comm. reflexivity.
Qed.

Lemma float_mul_comm (x y : float) : (x * y = y * x)%float.
Proof. apply Prim2SF_inj. rewrite !mul_spec. apply SFmul_comm. Qed.

Lemma is_nan_Prim2SF (x : float) : is_nan x = true -> Prim2SF x = S754_nan.
Proof. intros H. unfold Prim2SF. rewrite H. reflexivity. Qed.

Lemma is_nan_eq (x : float) : is_nan x = true -> x = nan.
Proof.
  intros H. apply Prim2SF_inj. rewrite (is_nan_Prim2SF x H). reflexivity.
Qed.

Lemma not_nan_Prim2SF (x : float) : is_nan x = false -> Prim2SF x <> S754_nan.
Proof.
  intros H E. unfold is_nan in H. rewrite eqb_spec, E in H. discriminate.
Qed.

(** Case analysis on the comparisons of exponents and mantissas that
    [SFcompare] makes. *)
Ltac cmp_cases :=
  repeat match goal with
  | H : context [Pos.compare_cont Eq ?a ?b] |- _ =>
      change (Pos.compare_cont Eq a b) with (Pos.compare a b) in H
  | |- context [Pos.compare_cont Eq ?a ?b] =>
      change (Pos.compare_cont Eq a b) with (Pos.compare a b)
  end;
  repeat match goal with
  | H : context [Z.compare ?a ?b] |- _ => destruct (Z.compare_spec a b)
  | |- context [Z.compare ?a ?b] => destruct (Z.compare_spec a b)
  end;
  repeat match goal with
  | H : context [Pos.compare ?a ?b] |- _ => destruct (Pos.compare_spec a b)
  | |- context [Pos.compare ?a ?b] => destruct (Pos.compare_spec a b)
  end;
  simpl in *; subst; try reflexivity; try discriminate; try lia.

Lemma SFleb_trans (x y z : spec_float) :
  SFleb x y = true -> SFleb y z = true -> SFleb x z = true.
Proof.
  unfold SFleb.
  destruct x as [sx|sx| |sx mx ex], y as [sy|sy| |sy my ey],
           z as [sz|sz| |sz mz ez]; simpl;
    try destruct sx; try destruct sy; try destruct sz; simpl;
    try reflexivity; try discriminate; intros H1 H2; cmp_cases.
Qed.

Lemma SFltb_leb (x y : spec_float) : SFltb x y = true -> SFleb x y = true.
Proof. unfold SFltb, SFleb. destruct (SFcompare x y) as [[| |]|]; easy. Qed.

Lemma SFleb_refl (x : spec_float) : x <> S754_nan -> SFleb x x = true.
Proof.
  unfold SFleb. destruct x as [s|s| |s m e]; try destruct s; simpl;
    try reflexivity; try congruence; intros _; cmp_cases.
Qed.

Lemma SFleb_total (x y : spec_float) :
  x <> S754_nan -> y <> S754_nan -> SFltb x y = false -> SFleb y x = true.
Proof.
  unfold SFltb, SFleb.
  destruct x as [sx|sx| |sx mx ex], y as [sy|sy| |sy my ey]; simpl;
    try destruct sx; try destruct sy; simpl;
    try reflexivity; try discriminate; try congruence; intros _ _ H; cmp_cases.
Qed.

Lemma fle_trans (a b c : float) : fle a b -> fle b c -> fle a c.
Proof. unfold fle. rewrite !leb_spec. apply SFleb_trans. Qed.

Lemma fle_refl (a : float) : is_nan a = false -> fle a a.
Proof.
  intros H. unfold fle. rewrite leb_spec. now apply SFleb_refl, not_nan_Prim2SF.
Qed.

Lemma flt_fle (a b : float) : (a <? b)%float = true -> fle a b.
Proof. unfold fle. rewrite ltb_spec, leb_spec. apply SFltb_leb. Qed.

Lemma not_flt_fle (a b : float) :
  is_nan a = false -> is_nan b = false -> (a <? b)%float = false -> fle b a.
Proof.
  intros Ha Hb. unfold fle. rewrite ltb_spec, leb_spec.
  apply SFleb_total; now apply not_nan_Prim2SF.
Qed.

Lemma fle_not_nan_l (a b : float) : fle a b -> is_nan a = false.
Proof.
  unfold fle. rewrite leb_spec. intros H.
  destruct (is_nan a) eqn:E; [|reflexivity].
  rewrite (is_nan_Prim2SF a E) in H. discriminate.
Qed.

End FloatFacts.

(** [Z2F z] is the binary64 value nearest to [z]: [z] itself below 2^53. *)
Lemma Z2F_spec (z : Z) :
  0 <= z < 2 ^ 63 ->
  Prim2SF (Z2F z) = binary_normalize prec emax z 0 false.
Proof.
  intros H. unfold Z2F. rewrite of_uint63_spec, Uint63.of_Z_spec.
  rewrite Z.mod_small; [reflexivity|]. exact H.
Qed.

(** ** No NaN among the counts *)

Lemma shr_1_nonneg (mrs : shr_record) :
  0 <= shr_m mrs -> 0 <= shr_m (shr_1 mrs).
Proof.
  destruct mrs as [m r s]. cbn [shr_m shr_1].
  destruct m as [|[p|p|]|[p|p|]]; cbn [shr_m]; lia.
Qed.

Lemma iter_shr_1_nonneg (p : positive) :
  forall mrs, 0 <= shr_m mrs -> 0 <= shr_m (iter_pos shr_1 p mrs).
Proof.
  induction p as [p IH | p IH |]; intros mrs H; cbn [iter_pos].
  - apply IH, IH, shr_1_nonneg, H.
  - apply IH, IH, H.
  - apply shr_1_nonneg, H.
Qed.

Lemma shr_fexp_nonneg (m e : Z) (l : location) :
  0 <= m -> 0 <= shr_m (fst (shr_fexp prec emax m e l)).
Proof.
  intros H. unfold shr_fexp, shr.
  assert (H0 : 0 <= shr_m (shr_record_of_loc m l))
    by (destruct l as [|[| |]]; exact H).
  destruct (fexp prec emax (Zdigits2 m + e) - e); cbn [fst];
    [assumption | now apply iter_shr_1_nonneg | assumption].
Qed.

Lemma round_nearest_even_nonneg (m : Z) (l : location) :
  0 <= m -> 0 <= round_nearest_even m l.
Proof.
  intros H. destruct l as [|[| |]]; cbn [round_nearest_even]; try lia.
  destruct (Z.even m); lia.
Qed.

(** Rounding a mantissa that is not negative never gives NaN. *)
Lemma binary_round_aux_not_nan (sx : bool) (mx ex : Z) (lx : location) :
  0 <= mx -> binary_round_aux prec emax sx mx ex lx <> S754_nan.
Proof.
  intros H. unfold binary_round_aux.
  pose proof (shr_fexp_nonneg mx ex lx H) as H1.
  destruct (shr_fexp prec emax mx ex lx) as [mrs' e']. cbn [fst] in H1.
  pose proof (shr_fexp_nonneg _ e' loc_Exact
                (round_nearest_even_nonneg _ (loc_of_shr_record mrs') H1)) as H2.
  destruct (shr_fexp prec emax _ e' loc_Exact) as [mrs'' e'']. cbn [fst] in H2.
  destruct (shr_m mrs'') as [|m|m]; [discriminate | | lia].
  destruct (e'' <=? emax - prec); discriminate.
Qed.

Lemma binary_normalize_not_nan (m e : Z) (szero : bool) :
  binary_normalize prec emax m e szero <> S754_nan.
Proof.
  unfold binary_normalize, binary_round.
  destruct m as [|p|p]; [discriminate | |];
    destruct (shl_align _ _ _) as [mz ez]; apply binary_round_aux_not_nan; lia.
Qed.

Lemma is_nan_false_iff (x : float) : is_nan x = false <-> Prim2SF x <> S754_nan.
Proof.
  split; [apply not_nan_Prim2SF|]. intros H.
  destruct (is_nan x) eqn:E; [|reflexivity].
  now apply is_nan_Prim2SF in E.
Qed.

Lemma Z2F_not_nan (z : Z) : is_nan (Z2F z) = false.
Proof.
  apply is_nan_false_iff. unfold Z2F. rewrite of_uint63_spec.
  apply binary_normalize_not_nan.
Qed.

Lemma Prim2SF_three : exists m e, Prim2SF 3 = S754_finite false m e.
Proof. eexists. eexists. vm_compute. reflexivity. Qed.

(** Multiplying or dividing a number by 3 does not give NaN. *)
Lemma mul_three_not_nan (x : float) : is_nan x = false -> is_nan (x * 3) = false.
Proof.
  rewrite !is_nan_false_iff, mul_spec. intros H.
  destruct Prim2SF_three as [m [e ->]]. unfold SF64mul.
  destruct (Prim2SF x) as [s|s| |s mx ex]; cbn [SFmul]; try discriminate;
    [congruence|]. apply binary_round_aux_not_nan. lia.
Qed.

Lemma div_three_not_nan (x : float) : is_nan x = false -> is_nan (x / 3) = false.
Proof.
  rewrite !is_nan_false_iff, div_spec. intros H.
  destruct Prim2SF_three as [m [e ->]]. unfold SF64div.
  destruct (Prim2SF x) as [s|s| |s mx ex]; cbn [SFdiv]; try discriminate;
    [congruence|].
  unfold SFdiv_core_binary.
  set (m' := match _ - _ - _ with Z0 => Z.pos mx | Z.pos _ => Z.shiftl (Z.pos mx) _ | Z.neg _ => 0 end).
  assert (Hm' : 0 <= m').
  { subst m'. destruct (_ - _ - _); [lia | apply Z.shiftl_nonneg; lia | lia]. }
  pose proof (Z_div_mod m' (Z.pos m) eq_refl) as Hdiv.
  destruct (Z.div_eucl m' (Z.pos m)) as [q r].
  apply binary_round_aux_not_nan. destruct Hdiv as [Hq Hr]. nia.
Qed.

Lemma float_eqb_refl (x : float) : is_nan x = false -> (x =? x)%float = true.
Proof.
  intros H. unfold is_nan in H. now destruct (x =? x)%float.
Qed.

(** ** [Math.min] and [Math.max] *)

Lemma Math_min_nan_l (x : float) : Math_min nan x = nan.
Proof. reflexivity. Qed.

Lemma Math_min_nan_r (x : float) : Math_min x nan = nan.
Proof. unfold Math_min. change (is_nan nan) with true. now rewrite orb_true_r. Qed.

Lemma Math_max_nan_l (x : float) : Math_max nan x = nan.
Proof. reflexivity. Qed.

Lemma Math_max_nan_r (x : float) : Math_max x nan = nan.
Proof. unfold Math_max. change (is_nan nan) with true. now rewrite orb_true_r. Qed.

(** The seeds of [calculateBoundingBox] are neutral. *)
Lemma Math_min_infinity_l (x : float) : Math_min infinity x = x.
Proof.
  unfold Math_min. change (is_nan infinity) with false. simpl orb.
  destruct (is_nan x) eqn:Hn; [symmetry; now apply is_nan_eq|].
  destruct (x <? infinity)%float eqn:Hlt; [reflexivity|].
  assert (Hx : x = infinity).
  { apply Prim2SF_inj. pose proof (not_nan_Prim2SF x Hn) as Hnn.
    rewrite ltb_spec in Hlt.
    change (Prim2SF infinity) with (S754_infinity false) in *.
    destruct (Prim2SF x) as [s|s| |s m e]; try congruence;
      try destruct s; try discriminate; try reflexivity. }
  subst x. reflexivity.
Qed.

Lemma Math_max_neg_infinity_l (x : float) : Math_max neg_infinity x = x.
Proof.
  unfold Math_max. change (is_nan neg_infinity) with false. simpl orb.
  destruct (is_nan x) eqn:Hn; [symmetry; now apply is_nan_eq|].
  destruct (neg_infinity <? x)%float eqn:Hlt; [reflexivity|].
  assert (Hx : x = neg_infinity).
  { apply Prim2SF_inj. pose proof (not_nan_Prim2SF x Hn) as Hnn.
    rewrite ltb_spec in Hlt.
    change (Prim2SF neg_infinity) with (S754_infinity true) in *.
    destruct (Prim2SF x) as [s|s| |s m e]; try congruence;
      try destruct s; try discriminate; try reflexivity. }
  subst x. reflexivity.
Qed.

Lemma Math_min_cases (a b : float) :
  is_nan a = false -> is_nan b = false ->
  (Math_min a b = a \/ Math_min a b = b) /\
  fle (Math_min a b) a /\ fle (Math_min a b) b.
Proof.
  intros Ha Hb. unfold Math_min. rewrite Ha, Hb. simpl.
  destruct (b <? a)%float eqn:Hba.
  - repeat split; [now right | now apply flt_fle | now apply fle_refl].
  - destruct (a <? b)%float eqn:Hab.
    + repeat split; [now left | now apply fle_refl | now apply flt_fle].
    + destruct (get_sign b); repeat split; auto using fle_refl, not_flt_fle.
Qed.

Lemma Math_max_cases (a b : float) :
  is_nan a = false -> is_nan b = false ->
  (Math_max a b = a \/ Math_max a b = b) /\
  fle a (Math_max a b) /\ fle b (Math_max a b).
Proof.
  intros Ha Hb. unfold Math_max. rewrite Ha, Hb. simpl.
  destruct (a <? b)%float eqn:Hab.
  - repeat split; [now right | now apply flt_fle | now apply fle_refl].
  - destruct (b <? a)%float eqn:Hba.
    + repeat split; [now left | now apply fle_refl | now apply flt_fle].
    + destruct (get_sign b); repeat split; auto using fle_refl, not_flt_fle.
Qed.

(* ------------------------------------------------------------------ *)
(** * The bounding box *)

Lemma fold_boundingBox_step (vs : list vertex) :
  forall a0 a1 a2 b0 b1 b2,
    fold_left boundingBox_step vs {| min := (a0, a1, a2); max := (b0, b1, b2) |} =
    {| min := (fold_left Math_min (map coordX vs) a0,
               fold_left Math_min (map coordY vs) a1,
               fold_left Math_min (map coordZ vs) a2);
       max := (fold_left Math_max (map coordX vs) b0,
               fold_left Math_max (map coordY vs) b1,
               fold_left Math_max (map coordZ vs) b2) |}.
Proof.
  induction vs as [|[[x y] z] vs IH]; intros; simpl; [reflexivity|].
  apply IH.
Qed.

(** The loop of [calculateBoundingBox], seeded with the infinities, computes
    the componentwise minimum and maximum. *)
Lemma calculateBoundingBox_componentwise (vs : list vertex) :
  calculateBoundingBox vs = componentwiseBox vs.
Proof.
  destruct vs as [|[[x y] z] vs]; [reflexivity|].
  unfold calculateBoundingBox. rewrite fold_boundingBox_step.
  unfold componentwiseBox. simpl.
  now rewrite !Math_min_infinity_l, !Math_max_neg_infinity_l.
Qed.

Lemma calculateBoundingBox_nil : calculateBoundingBox [] = zeroBox.
Proof. reflexivity. Qed.

Lemma fold_min_least (r : list float) :
  forall x, notNaN x -> Forall notNaN r ->
    In (fold_left Math_min r x) (x :: r) /\
    notNaN (fold_left Math_min r x) /\
    Forall (fle (fold_left Math_min r x)) (x :: r).
Proof.
  induction r as [|y r IH]; intros x Hx Hr; simpl fold_left.
  - repeat split; [now left | assumption |].
    constructor; [now apply fle_refl | constructor].
  - inversion Hr as [|? ? Hy Hr']; subst.
    destruct (Math_min_cases x y Hx Hy) as [Hc [Hlx Hly]].
    assert (Hm : notNaN (Math_min x y)) by (destruct Hc as [-> | ->]; assumption).
    destruct (IH _ Hm Hr') as [Hin [Hnn Hall]].
    inversion Hall as [|? ? Hm0 Hall']; subst.
    repeat split; [| assumption |].
    + destruct Hin as [Hin | Hin].
      * rewrite <- Hin. destruct Hc as [-> | ->]; [now left | right; now left].
      * right; now right.
    + constructor; [eapply fle_trans; eassumption|].
      constructor; [eapply fle_trans; eassumption | assumption].
Qed.

Lemma fold_max_greatest (r : list float) :
  forall x, notNaN x -> Forall notNaN r ->
    In (fold_left Math_max r x) (x :: r) /\
    notNaN (fold_left Math_max r x) /\
    Forall (fun y => fle y (fold_left Math_max r x)) (x :: r).
Proof.
  induction r as [|y r IH]; intros x Hx Hr; simpl fold_left.
  - repeat split; [now left | assumption |].
    constructor; [now apply fle_refl | constructor].
  - inversion Hr as [|? ? Hy Hr']; subst.
    destruct (Math_max_cases x y Hx Hy) as [Hc [Hlx Hly]].
    assert (Hm : notNaN (Math_max x y)) by (destruct Hc as [-> | ->]; assumption).
    destruct (IH _ Hm Hr') as [Hin [Hnn Hall]].
    inversion Hall as [|? ? Hm0 Hall']; subst.
    repeat split; [| assumption |].
    + destruct Hin as [Hin | Hin].
      * rewrite <- Hin. destruct Hc as [-> | ->]; [now left | right; now left].
      * right; now right.
    + constructor; [eapply fle_trans; eassumption|].
      constructor; [eapply fle_trans; eassumption | assumption].
Qed.

(** [minimum] is the least element of a non-empty list without NaN, and
    [maximum] the greatest. *)
Lemma minimum_least (xs : list float) :
  xs <> [] -> Forall notNaN xs ->
  In (minimum xs) xs /\ Forall (fle (minimum xs)) xs.
Proof.
  destruct xs as [|x r]; [congruence|]. intros _ H.
  inversion H; subst. destruct (fold_min_least r x) as [? [? ?]]; auto.
Qed.

Lemma maximum_greatest (xs : list float) :
  xs <> [] -> Forall notNaN xs ->
  In (maximum xs) xs /\ Forall (fun y => fle y (maximum xs)) xs.
Proof.
  destruct xs as [|x r]; [congruence|]. intros _ H.
  inversion H; subst. destruct (fold_max_greatest r x) as [? [? ?]]; auto.
Qed.

(** A NaN among the numbers makes the running minimum and maximum NaN,
    whatever came before and whatever follows. *)
Lemma fold_min_nan (xs : list float) :
  forall a, In nan xs -> fold_left Math_min xs a = nan.
Proof.
  assert (Hn : forall r, fold_left Math_min r nan = nan)
    by (induction r; simpl; auto).
  induction xs as [|y r IH]; intros a Hin; [destruct Hin|].
  destruct Hin as [Hy | Hin]; simpl.
  - subst y. rewrite Math_min_nan_r. apply Hn.
  - now apply IH.
Qed.

Lemma fold_max_nan (xs : list float) :
  forall a, In nan xs -> fold_left Math_max xs a = nan.
Proof.
  assert (Hn : forall r, fold_left Math_max r nan = nan)
    by (induction r; simpl; auto).
  induction xs as [|y r IH]; intros a Hin; [destruct Hin|].
  destruct Hin as [Hy | Hin]; simpl.
  - subst y. rewrite Math_max_nan_r. apply Hn.
  - now apply IH.
Qed.

(* ------------------------------------------------------------------ *)
(** * The binary reader *)

Lemma byteZ_range (b : byte) : 0 <= byteZ b < 256.
Proof.
  unfold byteZ. pose proof (Byte.to_N_bounded b) as H.
  lia.
Qed.

Lemma le32_range (buffer : Buffer) (offset : Z) : 0 <= le32 buffer offset < 2 ^ 32.
Proof.
  unfold le32, byteAt.
  pose proof (byteZ_range (nth (Z.to_nat offset) buffer x00)).
  pose proof (byteZ_range (nth (Z.to_nat (offset + 1)) buffer x00)).
  pose proof (byteZ_range (nth (Z.to_nat (offset + 2)) buffer x00)).
  pose proof (byteZ_range (nth (Z.to_nat (offset + 3)) buffer x00)).
  lia.
Qed.

Lemma readFloatLE_in (buffer : Buffer) (offset : Z) :
  0 <= offset -> offset + 4 <= byteLength buffer ->
  readFloatLE buffer offset = Ok (float32_of_bits (le32 buffer offset)).
Proof.
  intros H0 H1. unfold readFloatLE, inBounds.
  destruct (0 <=? offset) eqn:E0; [|lia].
  destruct (offset + 4 <=? byteLength buffer) eqn:E1; [reflexivity|lia].
Qed.

Lemma readFloatLE_out (buffer : Buffer) (offset : Z) :
  byteLength buffer < offset + 4 ->
  exists e, readFloatLE buffer offset = Throw e.
Proof.
  intros H. unfold readFloatLE, inBounds.
  destruct (offset + 4 <=? byteLength buffer) eqn:E1; [lia|].
  rewrite andb_false_r. eauto.
Qed.

(** The inner loop reads the three vertices of record [i] when the 48 bytes
    of its normal and vertices are there, and throws otherwise. *)
Lemma readVertex_in (buffer : Buffer) (i : Z) (vertices : list vertex) :
  0 <= i -> 84 + i * 50 + 48 <= byteLength buffer ->
  fold_left (Server.readVertex buffer (84 + i * 50 + 12)) [0; 1; 2] (Ok vertices)
  = Ok (vertices ++ facetVertices buffer i).
Proof.
  intros Hi Hlen. cbn [fold_left]. unfold Server.readVertex. cbn [bind].
  repeat (rewrite readFloatLE_in by lia; cbn [bind]).
  rewrite <- !app_assoc. cbn [app]. unfold facetVertices, vertexAt.
  replace (84 + i * 50 + 12 + 0 * 12) with (84 + i * 50 + 12) by lia.
  replace (84 + i * 50 + 12 + 1 * 12) with (84 + i * 50 + 24) by lia.
  replace (84 + i * 50 + 12 + 2 * 12) with (84 + i * 50 + 36) by lia.
  reflexivity.
Qed.

Lemma readVertex_out (buffer : Buffer) (i : Z) (vertices : list vertex) :
  0 <= i -> byteLength buffer < 84 + i * 50 + 48 ->
  exists e,
    fold_left (Server.readVertex buffer (84 + i * 50 + 12)) [0; 1; 2] (Ok vertices)
    = Throw e.
Proof.
  intros Hi Hlen. cbn [fold_left]. unfold Server.readVertex. cbn [bind].
  repeat match goal with
  | |- context [readFloatLE buffer ?o] =>
      let E := fresh "E" in
      destruct (Z_le_gt_dec (o + 4) (byteLength buffer)) as [E | E];
      [ rewrite (readFloatLE_in buffer o) by lia; cbn [bind]
      | destruct (readFloatLE_out buffer o) as [e He]; [lia|];
        rewrite He; cbn [bind]; eauto ]
  end.
  exfalso. lia.
Qed.

(** The outer loop: [n] records from record [i] on. *)
Lemma facetLoop_in (buffer : Buffer) (n : nat) :
  forall (i : nat) (vertices : list vertex),
    n = 0%nat \/ 84 + (Z.of_nat i + Z.of_nat n) * 50 - 2 <= byteLength buffer ->
    Server.facetLoop buffer n (Z.of_nat i) vertices
    = Ok (vertices ++ recordVertices buffer i n).
Proof.
  induction n as [|n IH]; intros i vertices H.
  - simpl. unfold recordVertices. simpl. now rewrite app_nil_r.
  - destruct H as [H | H]; [discriminate|].
    cbn [Server.facetLoop].
    rewrite readVertex_in by lia. cbn [bind].
    replace (Z.of_nat i + 1) with (Z.of_nat (S i)) by lia.
    rewrite IH by (right; lia).
    unfold recordVertices. simpl. now rewrite <- app_assoc.
Qed.

Lemma facetLoop_out (buffer : Buffer) (n : nat) :
  forall (i : nat) (vertices : list vertex),
    n <> 0%nat ->
    byteLength buffer < 84 + (Z.of_nat i + Z.of_nat n) * 50 - 2 ->
    exists e, Server.facetLoop buffer n (Z.of_nat i) vertices = Throw e.
Proof.
  induction n as [|n IH]; intros i vertices Hn H; [congruence|].
  cbn [Server.facetLoop].
  destruct (Z_le_gt_dec (84 + Z.of_nat i * 50 + 48) (byteLength buffer)) as [E | E].
  - rewrite readVertex_in by lia. cbn [bind].
    replace (Z.of_nat i + 1) with (Z.of_nat (S i)) by lia.
    apply IH; [intros ->; lia | lia].
  - destruct (readVertex_out buffer (Z.of_nat i) vertices) as [e He]; [lia|lia|].
    rewrite He. simpl. eauto.
Qed.

(** [parseBinarySTL] returns exactly when the count is readable and every
    vertex of every declared record lies inside the buffer: the two
    attribute bytes of the last record are never read. *)
Lemma parseBinarySTL_in (buffer : Buffer) :
  84 <= byteLength buffer ->
  le32 buffer 80 = 0 \/ 84 + le32 buffer 80 * 50 - 2 <= byteLength buffer ->
  Server.parseBinarySTL buffer =
  Ok {| vertexCount := (Z2F (le32 buffer 80) * 3)%float;
        faceCount := Z2F (le32 buffer 80);
        boundingBox := calculateBoundingBox (declaredVertices buffer (le32 buffer 80));
        surfaceArea := estimateSurfaceArea (Z2F (le32 buffer 80));
        volume := estimateVolume
                    (calculateBoundingBox (declaredVertices buffer (le32 buffer 80))) |}.
Proof.
  intros H84 HN. pose proof (le32_range buffer 80) as HR.
  unfold Server.parseBinarySTL, readUInt32LE, inBounds.
  destruct (80 + 4 <=? byteLength buffer) eqn:E; [|lia].
  simpl. unfold Server.binaryVertices.
  change 0 with (Z.of_nat 0).
  rewrite facetLoop_in; [reflexivity|].
  destruct HN as [HN | HN]; [left; rewrite HN; reflexivity | right; lia].
Qed.

Lemma parseBinarySTL_out (buffer : Buffer) :
  byteLength buffer < 84 \/
  (le32 buffer 80 <> 0 /\ byteLength buffer < 84 + le32 buffer 80 * 50 - 2) ->
  exists e, Server.parseBinarySTL buffer = Throw e.
Proof.
  intros H. pose proof (le32_range buffer 80) as HR.
  unfold Server.parseBinarySTL, readUInt32LE, inBounds.
  destruct (80 + 4 <=? byteLength buffer) eqn:E.
  - destruct H as [H | [HN H]]; [lia|]. simpl.
    unfold Server.binaryVertices. change 0 with (Z.of_nat 0).
    destruct (facetLoop_out buffer (Z.to_nat (le32 buffer 80)) 0 []) as [e He];
      [lia | lia |].
    rewrite He. simpl. eauto.
  - simpl. eauto.
Qed.


(* ------------------------------------------------------------------ *)
(** * The sniffers *)

Lemma isWhiteSpace_BOM : isWhiteSpace 0xFEFF = true.
Proof. reflexivity. Qed.

(** Dropping the byte order mark does not change the trimmed text. *)
Lemma trim_TextDecoder_decode (bytes : Buffer) :
  trim (TextDecoder_decode bytes) = trim (utf8_decode bytes).
Proof.
  unfold TextDecoder_decode. destruct (utf8_decode bytes) as [|c s]; [reflexivity|].
  destruct (c =? 0xFEFF) eqn:E; [|reflexivity].
  apply Z.eqb_eq in E. subst c. unfold trim, trimStart.
  cbn [dropWhile]. now rewrite isWhiteSpace_BOM.
Qed.

Lemma sniffedTextual_server (unicodeLower : Z -> jsString) (buffer : Buffer) :
  sniffedTextual unicodeLower buffer = Server.isAsciiSTL unicodeLower buffer.
Proof.
  unfold sniffedTextual, Server.isAsciiSTL. now rewrite trim_TextDecoder_decode.
Qed.

(** The server's sniffer looks at the first six bytes only. *)
Lemma server_isAsciiSTL_prefix (unicodeLower : Z -> jsString) (buffer : Buffer) :
  Server.isAsciiSTL unicodeLower buffer
  = Server.isAsciiSTL unicodeLower (firstn 6 buffer).
Proof. unfold Server.isAsciiSTL. now rewrite firstn_firstn. Qed.

(** The client's sniffer throws on a buffer shorter than six bytes and
    agrees with the server's on every other buffer. *)
Lemma client_isAsciiSTL_short (unicodeLower : Z -> jsString) (buffer : Buffer) :
  byteLength buffer < 6 ->
  Client.isAsciiSTL unicodeLower buffer
  = Throw (RangeError "Invalid typed array length").
Proof.
  intros H. unfold Client.isAsciiSTL, Client.Uint8Array.
  destruct (0 + 6 <=? byteLength buffer) eqn:E; [lia|reflexivity].
Qed.

Lemma client_isAsciiSTL_long (unicodeLower : Z -> jsString) (buffer : Buffer) :
  6 <= byteLength buffer ->
  Client.isAsciiSTL unicodeLower buffer = Ok (sniffedTextual unicodeLower buffer).
Proof.
  intros H. unfold Client.isAsciiSTL, Client.Uint8Array.
  destruct (0 + 6 <=? byteLength buffer) eqn:E; [reflexivity|lia].
Qed.

Lemma firstn_min_1000 (buffer : Buffer) :
  firstn (Z.to_nat (Z.min 1000 (byteLength buffer))) buffer = firstn 1000 buffer.
Proof.
  unfold byteLength.
  destruct (Z_le_gt_dec 1000 (Z.of_nat (length buffer))) as [H | H].
  - now rewrite Z.min_l by assumption.
  - rewrite Z.min_r by lia. rewrite Nat2Z.id.
    rewrite firstn_all. symmetry. apply firstn_all2. lia.
Qed.

(** [validateSTLFile] is the gate: its [catch] clause is reached exactly on
    the short buffers. *)
Lemma validateSTLFile_gate (unicodeLower : Z -> jsString) (file : Client.File) :
  Client.validateSTLFile unicodeLower file = validationGate unicodeLower file.
Proof.
  unfold Client.validateSTLFile, validationGate.
  destruct (negb _); [reflexivity|].
  change (100 * 1024 * 1024) with 104857600.
  destruct (Client.size file >? 104857600); [reflexivity|].
  unfold Client.validateSTLFile_try, Client.size.
  destruct (byteLength (Client.content file) <? 6) eqn:E6.
  - rewrite client_isAsciiSTL_short by lia. reflexivity.
  - rewrite client_isAsciiSTL_long by lia. cbn [bind].
    destruct (sniffedTextual unicodeLower (Client.content file)).
    + unfold Client.Uint8Array.
      destruct (0 + Z.min 1000 (byteLength (Client.content file))
                <=? byteLength (Client.content file)) eqn:Em; [|lia].
      cbn [bind]. change (Z.to_nat 0) with 0%nat. cbn [skipn].
      rewrite firstn_min_1000.
      destruct (Client.match_solid _); reflexivity.
    + unfold getUint32, inBounds.
      destruct (byteLength (Client.content file) <? 84) eqn:E84.
      * destruct (80 + 4 <=? byteLength (Client.content file)) eqn:E; [lia|].
        reflexivity.
      * destruct (80 + 4 <=? byteLength (Client.content file)) eqn:E; [|lia].
        cbn [andb Z.leb Z.compare bind].
        destruct (byteLength (Client.content file)
                  <? 84 + le32 (Client.content file) 80 * 50); reflexivity.
Qed.

(* ------------------------------------------------------------------ *)
(** * The sniff, byte by byte *)

Lemma continuation_value (cp b : Z) :
  0 <= cp -> 0x80 <= b <= 0xBF ->
  Z.lor (Z.shiftl cp 6) (Z.land b 0x3F) = cp * 64 + (b - 128).
Proof.
  intros Hcp Hb.
  change 0x3F with (Z.ones 6).
  assert (Hland : Z.land (Z.shiftl cp 6) (Z.land b (Z.ones 6)) = 0).
  { rewrite (Z.land_comm b), Z.land_assoc, (Z.land_ones (Z.shiftl cp 6)) by lia.
    rewrite Z.shiftl_mul_pow2 by lia. rewrite Z.mod_mul by lia. reflexivity. }
  pose proof (Z.add_lor_land (Z.shiftl cp 6) (Z.land b (Z.ones 6))) as H.
  rewrite Hland in H. rewrite Z.add_0_r in H. rewrite H.
  rewrite Z.shiftl_mul_pow2 by lia. rewrite Z.land_ones by lia.
  change (2 ^ 6) with 64. 
  assert (b mod 64 = b - 128) by (symmetry; apply Z.mod_unique with (q := 2); lia).
  lia.
Qed.

Ltac bools :=
  repeat match goal with
  | H : (_ && _) = true |- _ => apply andb_prop in H; destruct H
  | H : (_ && _) = false |- _ => apply andb_false_iff in H; destruct H
  | H : (_ || _) = false |- _ => apply orb_false_iff in H; destruct H
  | H : (_ || _) = true |- _ => apply orb_prop in H; destruct H
  | H : (_ <=? _) = true |- _ => apply Z.leb_le in H
  | H : (_ <=? _) = false |- _ => apply Z.leb_gt in H
  | H : (_ <? _) = true |- _ => apply Z.ltb_lt in H
  | H : (_ <? _) = false |- _ => apply Z.ltb_ge in H
  | H : (_ =? _) = true |- _ => apply Z.eqb_eq in H
  | H : (_ =? _) = false |- _ => apply Z.eqb_neq in H
  end.

Lemma utf8_lead_ascii (b : Z) : b < 128 -> utf8_lead b = ([b], None).
Proof. intros H. unfold utf8_lead. destruct (b <=? 0x7F) eqn:E; [reflexivity|lia]. Qed.

Lemma low_bits (b k q : Z) :
  0 <= k -> q * 2 ^ k <= b < (q + 1) * 2 ^ k ->
  Z.land b (Z.ones k) = b - q * 2 ^ k.
Proof.
  intros Hk Hb. rewrite Z.land_ones by assumption.
  symmetry. apply Z.mod_unique with (q := q); lia.
Qed.

Lemma utf8_lead_nonascii (b : Z) :
  128 <= b ->
  utf8_lead b = ([0xFFFD], None) \/
  exists p, utf8_lead b = ([], Some p) /\ utf8_wf p.
Proof.
  intros H. unfold utf8_lead.
  destruct (b <=? 0x7F) eqn:E; [lia|].
  destruct ((0xC2 <=? b) && (b <=? 0xDF)) eqn:E2.
  { right. eexists. split; [reflexivity|].
    unfold utf8_wf; cbn [code_point lower_boundary upper_boundary bytes_left].
    bools. change 0x1F with (Z.ones 5).
    destruct (Z_lt_le_dec b 224).
    - rewrite (low_bits b 5 6) by lia. lia.
    - rewrite (low_bits b 5 7) by lia. lia. }
  destruct ((0xE0 <=? b) && (b <=? 0xEF)) eqn:E3.
  { right. eexists. split; [reflexivity|].
    unfold utf8_wf; cbn [code_point lower_boundary upper_boundary bytes_left].
    clear E2. bools. change 0xF with (Z.ones 4). rewrite (low_bits b 4 14) by lia.
    destruct (b =? 224) eqn:Ea; destruct (b =? 237) eqn:Eb; bools; lia. }
  destruct ((0xF0 <=? b) && (b <=? 0xF4)) eqn:E4.
  { right. eexists. split; [reflexivity|].
    unfold utf8_wf; cbn [code_point lower_boundary upper_boundary bytes_left].
    clear E2 E3. bools. change 0x7 with (Z.ones 3). rewrite (low_bits b 3 30) by lia.
    destruct (b =? 240) eqn:Ea; destruct (b =? 244) eqn:Eb; bools; lia. }
  now left.
Qed.

Lemma filter_isAscii_high (b : Z) (rest : list Z) :
  128 <= b -> filter isAscii (b :: rest) = filter isAscii rest.
Proof.
  intros H. cbn [filter]. unfold isAscii at 1.
  destruct (b <? 128) eqn:E; [lia | reflexivity].
Qed.

Lemma filter_isAscii_low (b : Z) (rest : list Z) :
  b < 128 -> filter isAscii (b :: rest) = b :: filter isAscii rest.
Proof.
  intros H. cbn [filter]. unfold isAscii at 1.
  destruct (b <? 128) eqn:E; [reflexivity | lia].
Qed.

(** The decoder gives an ASCII code point for each ASCII byte and for no
    other byte. *)
Lemma utf8_decode_ascii_content (bytes : list Z) :
  forall pending,
    utf8_state_wf pending ->
    filter isAscii (utf8_decode_from pending bytes) = filter isAscii bytes.
Proof.
  induction bytes as [|b rest IH]; intros pending Hwf.
  - destruct pending; reflexivity.
  - assert (Hnone : filter isAscii
              (let '(out, p) := utf8_lead b in out ++ utf8_decode_from p rest)
              = filter isAscii (b :: rest)).
    { destruct (Z_lt_le_dec b 128) as [Hb | Hb].
      - rewrite utf8_lead_ascii by assumption. cbn [app].
        rewrite !filter_isAscii_low by assumption. now rewrite (IH None I).
      - rewrite (filter_isAscii_high b) by assumption.
        destruct (utf8_lead_nonascii b Hb) as [-> | [p [-> Hp]]].
        + cbn [app]. rewrite (filter_isAscii_high 0xFFFD) by lia. now apply IH.
        + cbn [app]. now apply IH. }
    destruct pending as [p|]; cbn [utf8_decode_from]; [|exact Hnone].
    destruct ((lower_boundary p <=? b) && (b <=? upper_boundary p)) eqn:Er.
    + destruct Hwf as [Hcp [Hlo [Hup Hleft]]]. bools.
      rewrite (filter_isAscii_high b) by lia.
      rewrite continuation_value by lia.
      revert Hleft. destruct (bytes_left p) as [|[|[|n]]]; intros Hleft.
      * rewrite filter_isAscii_high by lia. now apply IH.
      * rewrite filter_isAscii_high by lia. now apply IH.
      * apply IH. cbn [utf8_state_wf]. unfold utf8_wf.
        cbn [code_point lower_boundary upper_boundary bytes_left]. lia.
      * apply IH. cbn [utf8_state_wf]. unfold utf8_wf.
        cbn [code_point lower_boundary upper_boundary bytes_left]. destruct n; lia.
    + destruct (utf8_lead b) as [out p'].
      rewrite (filter_isAscii_high 0xFFFD) by lia. exact Hnone.
Qed.

Lemma utf8_decode_ascii (bytes : list Z) :
  Forall (fun b => b < 128) bytes -> utf8_decode_from None bytes = bytes.
Proof.
  induction 1 as [|b rest Hb _ IH]; [reflexivity|].
  cbn [utf8_decode_from]. rewrite utf8_lead_ascii by assumption.
  cbn [app]. now rewrite IH.
Qed.

Lemma utf8_decode_ascii_prefix (prefix rest : list Z) :
  Forall (fun b => b < 128) prefix ->
  utf8_decode_from None (prefix ++ rest) = prefix ++ utf8_decode_from None rest.
Proof.
  induction 1 as [|b prefix Hb _ IH]; [reflexivity|].
  cbn [app utf8_decode_from]. rewrite utf8_lead_ascii by assumption.
  cbn [app]. now rewrite IH.
Qed.

(** A lone byte outside ASCII, followed by ASCII bytes only, decodes to the
    replacement character. *)
Lemma utf8_decode_lone_high (b : Z) (rest : list Z) :
  128 <= b -> Forall (fun a => a < 128) rest ->
  utf8_decode_from None (b :: rest) = 0xFFFD :: rest.
Proof.
  intros Hb Hrest. cbn [utf8_decode_from].
  destruct (utf8_lead_nonascii b Hb) as [-> | [p [-> Hp]]]; cbn [app].
  - now rewrite utf8_decode_ascii.
  - destruct Hp as [_ [Hlo _]].
    destruct Hrest as [|a rest Ha Hrest]; [reflexivity|].
    cbn [utf8_decode_from].
    destruct (lower_boundary p <=? a) eqn:E; [bools; lia|]. cbn [andb].
    rewrite utf8_lead_ascii by assumption. cbn [app].
    now rewrite utf8_decode_ascii.
Qed.

Lemma takeWhile_dropWhile {A : Type} (p : A -> bool) (l : list A) :
  takeWhile p l ++ dropWhile p l = l.
Proof.
  induction l as [|x l IH]; [reflexivity|]. cbn.
  destruct (p x); [cbn; now rewrite IH | reflexivity].
Qed.

Lemma takeWhile_Forall {A : Type} (p : A -> bool) (l : list A) :
  Forall (fun x => p x = true) (takeWhile p l).
Proof.
  induction l as [|x l IH]; [constructor|]. cbn.
  destruct (p x) eqn:E; constructor; assumption.
Qed.

(** [trim] removes white space at both ends and nothing else. *)
Lemma trim_decompose (s : jsString) :
  exists w1 w2,
    s = w1 ++ trim s ++ w2 /\
    Forall (fun c => isWhiteSpace c = true) w1 /\
    Forall (fun c => isWhiteSpace c = true) w2.
Proof.
  exists (takeWhile isWhiteSpace s),
         (rev (takeWhile isWhiteSpace (rev (dropWhile isWhiteSpace s)))).
  split; [|split].
  - unfold trim, trimEnd, trimStart. rewrite <- rev_app_distr.
    rewrite takeWhile_dropWhile, rev_involutive.
    symmetry. apply takeWhile_dropWhile.
  - apply takeWhile_Forall.
  - apply Forall_rev, takeWhile_Forall.
Qed.

Lemma jsString_eqb_eq (s t : jsString) : jsString_eqb s t = true <-> s = t.
Proof.
  unfold jsString_eqb. destruct (list_eq_dec Z.eq_dec s t); split; congruence.
Qed.

Lemma asciiLowerCase_inv (c k : Z) :
  97 <= k <= 122 -> asciiLowerCase c = k -> c = k \/ c = k - 32.
Proof.
  unfold asciiLowerCase. intros Hk.
  destruct ((65 <=? c) && (c <=? 90)) eqn:E; bools; lia.
Qed.

Lemma spellsSolid_inv (bs : list Z) :
  spellsSolid bs = true ->
  exists s o l i d,
    bs = [s; o; l; i; d] /\ (s = 115 \/ s = 83) /\ (o = 111 \/ o = 79)
    /\ (l = 108 \/ l = 76) /\ (i = 105 \/ i = 73) /\ (d = 100 \/ d = 68).
Proof.
  unfold spellsSolid. rewrite jsString_eqb_eq.
  change (str "solid") with [115; 111; 108; 105; 100].
  destruct bs as [|s [|o [|l [|i [|d [|x r]]]]]]; try discriminate.
  cbn [map]. intros H. injection H as Hs Ho Hl Hi Hd.
  exists s, o, l, i, d. split; [reflexivity|].
  repeat split; apply asciiLowerCase_inv; assumption || lia.
Qed.

Lemma isAsciiWhiteSpace_inv (w : Z) :
  isAsciiWhiteSpace w = true ->
  w = 9 \/ w = 10 \/ w = 11 \/ w = 12 \/ w = 13 \/ w = 32.
Proof. unfold isAsciiWhiteSpace. intros H. bools; lia. Qed.

Lemma isWhiteSpace_ascii (c : Z) :
  isWhiteSpace c = true -> c < 128 -> isAsciiWhiteSpace c = true.
Proof.
  unfold isWhiteSpace, isAsciiWhiteSpace. intros H Hc.
  lia.
Qed.

Lemma forallb_false_split {A : Type} (f : A -> bool) (l : list A) :
  forallb f l = false ->
  exists pre x post,
    l = pre ++ x :: post /\ Forall (fun y => f y = true) pre /\ f x = false.
Proof.
  induction l as [|y l IH]; [discriminate|]. cbn [forallb].
  destruct (f y) eqn:E.
  - cbn [andb]. intros H. destruct (IH H) as [pre [x [post [-> [Hpre Hx]]]]].
    exists (y :: pre), x, post. repeat split; [constructor|]; assumption.
  - intros _. exists [], y, l. repeat split; [constructor | assumption].
Qed.

Section SnifferBytes.
Variable unicodeLower : Z -> jsString.

(** No code point outside ASCII has a lower-case form made of the letters
    of "solid" only (the nearest misses of Unicode: U+212A gives k, U+0130
    gives i followed by U+0307). *)
Hypothesis unicodeLower_outside :
  forall c, 128 <= c ->
    exists x, In x (unicodeLower c) /\ ~ In x (str "solid").

Lemma lowerCodePoint_ascii (c : Z) :
  c < 128 -> lowerCodePoint unicodeLower c = [asciiLowerCase c].
Proof.
  intros H. unfold lowerCodePoint, asciiLowerCase.
  destruct ((65 <=? c) && (c <=? 90)); [reflexivity|].
  destruct (c <? 128) eqn:E; [reflexivity | lia].
Qed.

Lemma lowerCodePoint_outside (c : Z) :
  128 <= c -> lowerCodePoint unicodeLower c = unicodeLower c.
Proof.
  intros H. unfold lowerCodePoint.
  destruct ((65 <=? c) && (c <=? 90)) eqn:E; [lia|].
  destruct (c <? 128) eqn:E'; [lia | reflexivity].
Qed.

Lemma toLowerCase_solid (t s : jsString) :
  toLowerCase unicodeLower t = s ->
  Forall (fun x => In x (str "solid")) s ->
  Forall (fun c => c < 128) t /\ map asciiLowerCase t = s.
Proof.
  revert s. induction t as [|c t IH]; intros s Hs Hin.
  - cbn in Hs. subst s. split; [constructor | reflexivity].
  - unfold toLowerCase in Hs. cbn [flat_map] in Hs.
    fold (toLowerCase unicodeLower t) in Hs.
    destruct (Z_lt_le_dec c 128) as [Hc | Hc].
    + rewrite lowerCodePoint_ascii in Hs by assumption. subst s.
      inversion Hin; subst.
      destruct (IH _ eq_refl) as [Ht Hm]; [assumption|].
      split; [constructor; assumption|]. cbn [map app]. now rewrite Hm.
    + exfalso. rewrite lowerCodePoint_outside in Hs by assumption.
      destruct (unicodeLower_outside c Hc) as [x [Hx Hnot]].
      apply Hnot. rewrite Forall_forall in Hin. apply Hin.
      subst s. apply in_or_app. now left.
Qed.

Lemma solid_letters : Forall (fun x => In x (str "solid")) (str "solid").
Proof. apply Forall_forall. auto. Qed.

Lemma filter_isAscii_all (l : list Z) :
  Forall (fun c => c < 128) l -> filter isAscii l = l.
Proof.
  induction 1 as [|c l Hc _ IH]; [reflexivity|].
  rewrite filter_isAscii_low by assumption. now rewrite IH.
Qed.

Lemma forallb_isAscii (l : list Z) :
  forallb isAscii l = true -> Forall (fun c => c < 128) l.
Proof.
  intros H. apply Forall_forall. intros c Hc.
  rewrite forallb_forall in H. specialize (H c Hc). unfold isAscii in H. lia.
Qed.

(** A header that spells the word, alone or with one ASCII white-space byte
    before or after it, is sniffed textual. *)
Lemma solidHeader_sniffed (h : list Z) :
  solidHeader h = true ->
  jsString_eqb (toLowerCase unicodeLower (trim (utf8_decode_from None h)))
    (str "solid") = true.
Proof.
  unfold solidHeader. intros H.
  apply orb_prop in H. destruct H as [H | H]; [apply orb_prop in H; destruct H as [H | H]|].
  - destruct (spellsSolid_inv h H) as [s [o [l [i [d [-> [Hs [Ho [Hl [Hi Hd]]]]]]]]]].
    destruct Hs, Ho, Hl, Hi, Hd; subst; vm_compute; reflexivity.
  - destruct h as [|w r]; [discriminate|].
    apply andb_prop in H. destruct H as [Hw H].
    destruct (spellsSolid_inv r H) as [s [o [l [i [d [-> [Hs [Ho [Hl [Hi Hd]]]]]]]]]].
    apply isAsciiWhiteSpace_inv in Hw.
    destruct Hw as [Hw | [Hw | [Hw | [Hw | [Hw | Hw]]]]];
      destruct Hs, Ho, Hl, Hi, Hd; subst; vm_compute; reflexivity.
  - destruct (rev h) as [|w r] eqn:Er; [discriminate|].
    apply andb_prop in H. destruct H as [Hw H].
    assert (Hh : h = rev r ++ [w])
      by (rewrite <- (rev_involutive h), Er; reflexivity).
    destruct (spellsSolid_inv (rev r) H)
      as [s [o [l [i [d [Hr [Hs [Ho [Hl [Hi Hd]]]]]]]]]].
    rewrite Hr in Hh. clear Er Hr H. apply isAsciiWhiteSpace_inv in Hw.
    destruct Hw as [Hw | [Hw | [Hw | [Hw | [Hw | Hw]]]]];
      destruct Hs, Ho, Hl, Hi, Hd; subst; vm_compute; reflexivity.
Qed.

(** Conversely, at most six bytes that are sniffed textual are such a
    header. *)
Lemma sniffed_solidHeader (h : list Z) :
  (length h <= 6)%nat ->
  jsString_eqb (toLowerCase unicodeLower (trim (utf8_decode_from None h)))
    (str "solid") = true ->
  solidHeader h = true.
Proof.
  intros Hlen H. apply jsString_eqb_eq in H.
  destruct (trim_decompose (utf8_decode_from None h)) as [w1 [w2 [Hd [Hw1 Hw2]]]].
  destruct (toLowerCase_solid _ _ H solid_letters) as [Ht Hm].
  remember (trim (utf8_decode_from None h)) as t eqn:Et.
  assert (Hsp : spellsSolid t = true)
    by (unfold spellsSolid; rewrite Hm; now apply jsString_eqb_eq).
  assert (Hlt : length t = 5%nat)
    by (rewrite <- (length_map asciiLowerCase), Hm; reflexivity).
  pose proof (utf8_decode_ascii_content h None I) as HA.
  destruct (forallb isAscii h) eqn:Eall.
  - apply forallb_isAscii in Eall.
    rewrite (utf8_decode_ascii h Eall) in Hd.
    assert (Hl : (length w1 + length w2 <= 1)%nat).
    { rewrite Hd, !length_app in Hlen. lia. }
    unfold solidHeader.
    destruct w1 as [|a w1]; destruct w2 as [|b w2]; cbn [length] in Hl; try lia.
    + cbn [app] in Hd. rewrite app_nil_r in Hd. subst h. now rewrite Hsp.
    + destruct w2; [|cbn [length] in Hl; lia]. cbn [app] in Hd.
      assert (Hb : isAsciiWhiteSpace b = true).
      { apply isWhiteSpace_ascii; [now inversion Hw2|].
        rewrite Forall_forall in Eall. apply Eall. rewrite Hd.
        apply in_or_app. right. now left. }
      rewrite Hd, rev_app_distr. cbn [rev app]. rewrite rev_involutive, Hb, Hsp.
      cbn [andb]. now rewrite !orb_true_r.
    + destruct w1; [|cbn [length] in Hl; lia]. cbn [app] in Hd.
      rewrite app_nil_r in Hd.
      assert (Ha : isAsciiWhiteSpace a = true).
      { apply isWhiteSpace_ascii; [now inversion Hw1|].
        rewrite Forall_forall in Eall. apply Eall. rewrite Hd. now left. }
      rewrite Hd, Ha, Hsp. cbn [andb]. now rewrite orb_true_r.
  - exfalso.
    destruct (forallb_false_split _ _ Eall) as [pre [x [post [Hh [Hpre Hx]]]]].
    assert (Hpre' : Forall (fun c => c < 128) pre).
    { eapply Forall_impl; [|exact Hpre]. unfold isAscii. cbn beta. intros; lia. }
    assert (Hx' : 128 <= x) by (unfold isAscii in Hx; lia).
    assert (Hpost : Forall (fun c => c < 128) post).
    { apply forallb_isAscii, filter_length_forallb.
      pose proof (filter_length_le isAscii post) as Hle.
      assert (Hcount : length (filter isAscii (utf8_decode_from None h))
                       = (length pre + length (filter isAscii post))%nat).
      { rewrite HA, Hh, filter_app, filter_isAscii_high by assumption.
        rewrite (filter_isAscii_all pre Hpre'), length_app. reflexivity. }
      rewrite Hd, !filter_app, (filter_isAscii_all t Ht), !length_app in Hcount.
      rewrite Hh, length_app in Hlen. cbn [length] in Hlen. lia. }
    assert (Hdec : utf8_decode_from None h = pre ++ 0xFFFD :: post).
    { rewrite Hh, utf8_decode_ascii_prefix by assumption.
      now rewrite utf8_decode_lone_high. }
    assert (Hin : In 0xFFFD (w1 ++ t ++ w2)).
    { rewrite <- Hd, Hdec. apply in_or_app. right. now left. }
    apply in_app_or in Hin. destruct Hin as [Hin | Hin];
      [|apply in_app_or in Hin; destruct Hin as [Hin | Hin]].
    + rewrite Forall_forall in Hw1. specialize (Hw1 _ Hin). discriminate.
    + rewrite Forall_forall in Ht. specialize (Ht _ Hin). lia.
    + rewrite Forall_forall in Hw2. specialize (Hw2 _ Hin). discriminate.
Qed.

(** The server's sniffer, byte by byte: a buffer is textual when the word
    is its first five bytes and it has no sixth, or when it is five of its
    first six bytes and the other is one ASCII white-space byte. *)
Lemma server_isAsciiSTL_bytes (buffer : Buffer) :
  Server.isAsciiSTL unicodeLower buffer
  = solidHeader (map byteZ (firstn 6 buffer)).
Proof.
  apply eq_true_iff_eq. unfold Server.isAsciiSTL, utf8_decode. split.
  - apply sniffed_solidHeader. rewrite length_map. apply firstn_le_length.
  - apply solidHeader_sniffed.
Qed.

End SnifferBytes.

(** The mapping of the closed examples meets the hypothesis. *)
Lemma keepCodePoint_outside (c : Z) :
  128 <= c -> exists x, In x (keepCodePoint c) /\ ~ In x (str "solid").
Proof.
  intros H. exists c. split; [now left|].
  change (str "solid") with [115; 111; 108; 105; 100].
  cbn [In]. lia.
Qed.

(* ------------------------------------------------------------------ *)
(** * The client's gate *)

(** Splits [validationGate] into its eight outcomes, each with the tests
    that lead to it as hypotheses on sizes. *)
Ltac gate_cases ul file :=
  unfold validationGate;
  let Eext := fresh "Eext" in
  let Ebig := fresh "Ebig" in
  let E6 := fresh "E6" in
  let Etxt := fresh "Etxt" in
  let Ehdr := fresh "Ehdr" in
  let E84 := fresh "E84" in
  let Edecl := fresh "Edecl" in
  destruct (endsWith (toLowerCase ul (Client.name file)) (str ".stl")) eqn:Eext;
  cbn [negb];
  [ destruct (Client.size file >? 104857600) eqn:Ebig;
    [ | destruct (Client.size file <? 6) eqn:E6;
        [ | destruct (sniffedTextual ul (Client.content file)) eqn:Etxt;
            [ destruct (Client.match_solid
                          (TextDecoder_decode (firstn 1000 (Client.content file))))
                eqn:Ehdr
            | destruct (Client.size file <? 84) eqn:E84;
              [ | destruct (Client.size file
                            <? 84 + le32 (Client.content file) 80 * 50) eqn:Edecl ] ] ] ]
  | ];
  repeat match goal with
  | H : (_ >? _) = true |- _ => apply Z.gtb_lt in H
  | H : (_ >? _) = false |- _ => rewrite Z.gtb_ltb in H; apply Z.ltb_ge in H
  | H : (_ <? _) = true |- _ => apply Z.ltb_lt in H
  | H : (_ <? _) = false |- _ => apply Z.ltb_ge in H
  end.

(** C10. Whenever [validateSTLFile] answers [isValid = false], on whichever
    branch (extension, size, textual header, binary length, caught
    exception), the counts it reports are both 0. *)
Theorem rejected_reports_zero_counts
    (unicodeLower : Z -> jsString) (file : Client.File)
    (Hrejected : Client.isValid (Client.validateSTLFile unicodeLower file) = false) :
  Client.faceCount (Client.validateSTLFile unicodeLower file) = 0 /\
  Client.vertexCount (Client.validateSTLFile unicodeLower file) = 0.
Proof.
  rewrite validateSTLFile_gate in *. revert Hrejected.
  gate_cases unicodeLower file;
    cbn [Client.isValid Client.faceCount Client.vertexCount Client.rejected accepted];
    intros Hr; try discriminate; auto.
Qed.

(** A file with the wrong extension: rejected, counts 0. *)
Lemma rejected_reports_zero_counts_witness :
  Client.faceCount
    (Client.validateSTLFile keepCodePoint
       {| Client.name := str "model.txt"; Client.content := scenario_buffer |}) = 0 /\
  Client.vertexCount
    (Client.validateSTLFile keepCodePoint
       {| Client.name := str "model.txt"; Client.content := scenario_buffer |}) = 0.
Proof.
  apply (rejected_reports_zero_counts keepCodePoint
           {| Client.name := str "model.txt"; Client.content := scenario_buffer |}).
  vm_compute. reflexivity.
Defined.

(** What [validateSTLFile] does, test by test.  It never raises: it is a
    total function into [STLInfo].  It answers [isValid = false], with an
    error message, exactly when the name does not end in ".stl"
    (case-insensitively), or the length exceeds 104,857,600, or the buffer
    is binary and its declared size [84 + faceCount*50] exceeds its length,
    or it is textual and the code's search for [solid] and white space in
    the first 1000 bytes finds nothing ([badHeader]), or a read of the
    decoding throws; otherwise it answers [isValid = true], with no
    message. *)
Theorem validate_rejects_exactly
    (unicodeLower : Z -> jsString) (file : Client.File) :
  let r := Client.validateSTLFile unicodeLower file in
  (Client.isValid r = false <->
     wrongExtension unicodeLower file \/ tooLarge file
     \/ declaredTooLong unicodeLower file \/ badHeader unicodeLower file
     \/ decodingThrows unicodeLower file) /\
  (Client.isValid r = false -> exists message, Client.errorMessage r = Some message) /\
  (Client.isValid r = true -> Client.errorMessage r = None).
Proof.
  cbv zeta. rewrite validateSTLFile_gate.
  unfold wrongExtension, tooLarge, declaredTooLong, badHeader, decodingThrows.
  gate_cases unicodeLower file;
    cbn [Client.isValid Client.errorMessage Client.rejected accepted];
    (split; [split | split; intros; try discriminate; eauto]);
    try (intros _; solve
           [ left; reflexivity
           | right; left; assumption
           | right; right; left; repeat split; assumption || lia
           | right; right; right; left; repeat split; assumption || lia
           | right; right; right; right; left; lia
           | right; right; right; right; right; split; assumption || lia ]);
    try discriminate;
    try (intros [H | [H | [[_ [H1 H] ] | [[_ [H1 H]] | [H | [H1 H]]]]]];
         congruence || lia).
Qed.

(** C5, at failing inputs.  The test of the textual header is a search in
    the first 1000 bytes, in lower case only, not a test of the header
    line.  Two files with the same header line [SOLID part], both sniffed
    textual, get different answers: the one whose second line is
    [endsolid part] is accepted, because that line holds [solid part]; the
    one written in upper case throughout is rejected as [Invalid ASCII STL
    file format], though the sniffer took its header for [solid] and the
    server analyses its bytes.  And a file whose header line is [ solidx],
    which holds no [solid] followed by white space, is accepted for its
    second line.  No test of the header line alone gives these answers. *)
Theorem header_test_searches_beyond_the_header_line :
  let text (file : Client.File) := TextDecoder_decode (Client.content file) in
  let validate := Client.validateSTLFile keepCodePoint in
  (Client.isAsciiSTL keepCodePoint (Client.content upper_header_file) = Ok true /\
   Client.isAsciiSTL keepCodePoint (Client.content upper_case_file) = Ok true /\
   Client.isAsciiSTL keepCodePoint (Client.content joined_header_file) = Ok true) /\
  (headerLine (text upper_header_file) = str "SOLID part" /\
   headerLine (text upper_case_file) = str "SOLID part" /\
   Client.isValid (validate upper_header_file) = true /\
   validate upper_case_file = Client.rejected "Invalid ASCII STL file format" /\
   Server.isValidSTL keepCodePoint (Client.content upper_case_file) = true) /\
  (headerLine (text joined_header_file) = str " solidx" /\
   Client.match_solid (headerLine (text joined_header_file)) = None /\
   Client.isValid (validate joined_header_file) = true) /\
  ~ (exists headerMatches : jsString -> bool,
       forall file,
         Client.isAsciiSTL keepCodePoint (Client.content file) = Ok true ->
         endsWith (toLowerCase keepCodePoint (Client.name file)) (str ".stl")
         = true ->
         Client.size file <= 104857600 ->
         (Client.isValid (validate file) = false
          <-> headerMatches (headerLine (text file)) = false)).
Proof.
  cbv zeta.
  split; [repeat split; vm_compute; reflexivity|].
  split; [repeat split; vm_compute; reflexivity|].
  split; [repeat split; vm_compute; reflexivity|].
  intros [headerMatches H].
  pose proof (H upper_header_file) as Ha. pose proof (H upper_case_file) as Hb.
  assert (Ea : headerLine (TextDecoder_decode (Client.content upper_header_file))
               = str "SOLID part") by (vm_compute; reflexivity).
  assert (Eb : headerLine (TextDecoder_decode (Client.content upper_case_file))
               = str "SOLID part") by (vm_compute; reflexivity).
  rewrite Ea in Ha. rewrite Eb in Hb.
  assert (Va : Client.isValid (Client.validateSTLFile keepCodePoint upper_header_file)
               = true) by (vm_compute; reflexivity).
  assert (Vb : Client.isValid (Client.validateSTLFile keepCodePoint upper_case_file)
               = false) by (vm_compute; reflexivity).
  rewrite Va in Ha. rewrite Vb in Hb.
  assert (Hm : headerMatches (str "SOLID part") = false).
  { apply Hb; try reflexivity; vm_compute; (reflexivity || discriminate). }
  apply Ha in Hm; try discriminate Hm;
    vm_compute; (reflexivity || discriminate).
Qed.

(* ------------------------------------------------------------------ *)
(** * The server's [analyzeSTL] *)

Lemma analyzeSTL_textual (unicodeLower : Z -> jsString) (buffer : Buffer) :
  Server.isAsciiSTL unicodeLower buffer = true ->
  Server.analyzeSTL unicodeLower buffer = Ok (Server.parseAsciiSTL buffer).
Proof. intros H. unfold Server.analyzeSTL. now rewrite H. Qed.

Lemma analyzeSTL_binary (unicodeLower : Z -> jsString) (buffer : Buffer) :
  Server.isAsciiSTL unicodeLower buffer = false ->
  Server.analyzeSTL unicodeLower buffer =
  match Server.parseBinarySTL buffer with
  | Ok info => Ok info
  | Throw error =>
      Throw (Error ("Failed to analyze STL file: " ++ exn_message error))
  end.
Proof. intros H. unfold Server.analyzeSTL. now rewrite H. Qed.

(** What a result of [parseBinarySTL] is made of. *)
Lemma parseBinarySTL_shape (buffer : Buffer) (info : STLInfo) :
  Server.parseBinarySTL buffer = Ok info ->
  exists vertices,
    Server.binaryVertices buffer (le32 buffer 80) = Ok vertices /\
    info = {| vertexCount := (Z2F (le32 buffer 80) * 3)%float;
              faceCount := Z2F (le32 buffer 80);
              boundingBox := calculateBoundingBox vertices;
              surfaceArea := estimateSurfaceArea (Z2F (le32 buffer 80));
              volume := estimateVolume (calculateBoundingBox vertices) |}.
Proof.
  unfold Server.parseBinarySTL, readUInt32LE.
  destruct (inBounds buffer 80 4); cbn [bind]; [|discriminate].
  destruct (Server.binaryVertices buffer (le32 buffer 80)) as [vs | e];
    cbn [bind]; [|discriminate].
  intros H. injection H as <-. eauto.
Qed.

(** What a result of [analyzeSTL] is made of, on either path. *)
Lemma analyzeSTL_shape (unicodeLower : Z -> jsString) (buffer : Buffer)
    (info : STLInfo) :
  Server.analyzeSTL unicodeLower buffer = Ok info ->
  exists vertices,
    is_nan (faceCount info) = false /\
    vertexCount info = (faceCount info * 3)%float /\
    boundingBox info = calculateBoundingBox vertices /\
    surfaceArea info = estimateSurfaceArea (faceCount info) /\
    volume info = estimateVolume (boundingBox info).
Proof.
  intros H. destruct (Server.isAsciiSTL unicodeLower buffer) eqn:E.
  - rewrite analyzeSTL_textual in H by assumption. injection H as <-.
    exists (Server.asciiVertices buffer).
    split; [apply div_three_not_nan, Z2F_not_nan|]. repeat split; reflexivity.
  - rewrite analyzeSTL_binary in H by assumption.
    destruct (Server.parseBinarySTL buffer) as [i | e] eqn:P; [|discriminate].
    injection H as <-. apply parseBinarySTL_shape in P.
    destruct P as [vs [_ ->]]. exists vs.
    split; [apply Z2F_not_nan|]. repeat split; reflexivity.
Qed.

Lemma estimateVolume_boxVolume (box : BoundingBox) :
  estimateVolume box = boxVolume box.
Proof. destruct box as [[[a0 a1] a2] [[b0 b1] b2]]. reflexivity. Qed.

(** C7. Every [STLInfo] that [analyzeSTL] returns has
    [surfaceArea = faceCount * 0.01] and
    [volume = (max[0]-min[0]) * (max[1]-min[1]) * (max[2]-min[2]) * 0.3]; and
    on the two-facet binary buffer of the specification it returns
    faceCount 2, vertexCount 6, the box [0,0,0]-[1,1,1], area 0.02 and
    volume 0.3. *)
Theorem analyze_estimates
    (unicodeLower : Z -> jsString) (buffer : Buffer) (info : STLInfo)
    (Hreturned : Server.analyzeSTL unicodeLower buffer = Ok info) :
  (surfaceArea info = (faceCount info * 0.01)%float /\
   volume info = boxVolume (boundingBox info)) /\
  Server.analyzeSTL unicodeLower scenario_buffer =
  Ok {| vertexCount := 6; faceCount := 2;
        boundingBox := {| min := (0, 0, 0)%float; max := (1, 1, 1)%float |};
        surfaceArea := 0.02; volume := 0.3 |}.
Proof.
  split.
  - destruct (analyzeSTL_shape _ _ _ Hreturned) as [vs [_ [_ [_ [Ha Hv]]]]].
    rewrite Ha, Hv, estimateVolume_boxVolume. split; reflexivity.
  - vm_compute. reflexivity.
Qed.

Lemma analyze_estimates_witness :
  (surfaceArea (Server.parseAsciiSTL (bytes_of_string "solid s"))
   = (faceCount (Server.parseAsciiSTL (bytes_of_string "solid s")) * 0.01)%float /\
   volume (Server.parseAsciiSTL (bytes_of_string "solid s"))
   = boxVolume (boundingBox (Server.parseAsciiSTL (bytes_of_string "solid s")))) /\
  Server.analyzeSTL keepCodePoint scenario_buffer =
  Ok {| vertexCount := 6; faceCount := 2;
        boundingBox := {| min := (0, 0, 0)%float; max := (1, 1, 1)%float |};
        surfaceArea := 0.02; volume := 0.3 |}.
Proof.
  apply (analyze_estimates keepCodePoint (bytes_of_string "solid s")).
  vm_compute. reflexivity.
Defined.

(** C4. [vertexCount == 3 * faceCount]: in every [STLInfo] that
    [analyzeSTL] returns, on the textual and on the binary path (the two
    numbers are the same, and no NaN, so that [==] holds of them), and in
    the counts of every answer of [validateSTLFile]. *)
Theorem vertexCount_is_three_faceCount
    (unicodeLower : Z -> jsString) (buffer : Buffer) (info : STLInfo)
    (file : Client.File)
    (Hreturned : Server.analyzeSTL unicodeLower buffer = Ok info) :
  vertexCount info = (3 * faceCount info)%float /\
  (vertexCount info =? 3 * faceCount info)%float = true /\
  Client.vertexCount (Client.validateSTLFile unicodeLower file)
  = 3 * Client.faceCount (Client.validateSTLFile unicodeLower file).
Proof.
  destruct (analyzeSTL_shape _ _ _ Hreturned) as [vs [Hnan [Hc _]]].
  rewrite Hc, (float_mul_comm (faceCount info) 3).
  split; [reflexivity|]. split.
  - apply float_eqb_refl. rewrite float_mul_comm. now apply mul_three_not_nan.
  - rewrite validateSTLFile_gate.
    gate_cases unicodeLower file;
      cbn [Client.faceCount Client.vertexCount Client.rejected accepted]; lia.
Qed.

Lemma vertexCount_is_three_faceCount_witness :
  vertexCount (Server.parseAsciiSTL one_vertex_buffer)
  = (3 * faceCount (Server.parseAsciiSTL one_vertex_buffer))%float /\
  (vertexCount (Server.parseAsciiSTL one_vertex_buffer)
   =? 3 * faceCount (Server.parseAsciiSTL one_vertex_buffer))%float = true /\
  Client.vertexCount
    (Client.validateSTLFile keepCodePoint
       {| Client.name := str "a.stl"; Client.content := scenario_buffer |})
  = 3 * Client.faceCount
          (Client.validateSTLFile keepCodePoint
             {| Client.name := str "a.stl"; Client.content := scenario_buffer |}).
Proof.
  apply (vertexCount_is_three_faceCount keepCodePoint one_vertex_buffer).
  vm_compute. reflexivity.
Defined.

(* ------------------------------------------------------------------ *)
(** * Truncated binary buffers *)

(** On a binary buffer [analyzeSTL] fails when the count or a vertex of a
    declared record is missing... *)
Lemma analyzeSTL_binary_out (unicodeLower : Z -> jsString) (buffer : Buffer) :
  Server.isAsciiSTL unicodeLower buffer = false ->
  byteLength buffer < 84 \/
  (le32 buffer 80 <> 0 /\ byteLength buffer < 84 + le32 buffer 80 * 50 - 2) ->
  exists e, Server.analyzeSTL unicodeLower buffer = Throw e.
Proof.
  intros Hb H. rewrite analyzeSTL_binary by assumption.
  destruct (parseBinarySTL_out buffer H) as [e ->]. eauto.
Qed.

(** ... and returns as soon as they are all there: no test on the length
    precedes the reads, and the last two bytes are not read. *)
Lemma analyzeSTL_binary_in (unicodeLower : Z -> jsString) (buffer : Buffer) :
  Server.isAsciiSTL unicodeLower buffer = false ->
  84 <= byteLength buffer ->
  le32 buffer 80 = 0 \/ 84 + le32 buffer 80 * 50 - 2 <= byteLength buffer ->
  Server.analyzeSTL unicodeLower buffer =
  Ok {| vertexCount := (Z2F (le32 buffer 80) * 3)%float;
        faceCount := Z2F (le32 buffer 80);
        boundingBox := calculateBoundingBox (declaredVertices buffer (le32 buffer 80));
        surfaceArea := estimateSurfaceArea (Z2F (le32 buffer 80));
        volume := estimateVolume
                    (calculateBoundingBox (declaredVertices buffer (le32 buffer 80))) |}.
Proof.
  intros Hb H84 HN. rewrite analyzeSTL_binary by assumption.
  now rewrite parseBinarySTL_in.
Qed.

(** C2, at a failing input.  [truncated_buffer] is binary, declares one
    facet and has 133 bytes, fewer than [84 + 1*50]; [analyzeSTL] does not
    fail on it: it returns a complete [STLInfo]. *)
Theorem truncated_binary_is_analyzed (unicodeLower : Z -> jsString) :
  Server.isAsciiSTL unicodeLower truncated_buffer = false /\
  le32 truncated_buffer 80 = 1 /\
  byteLength truncated_buffer = 133 /\
  Server.analyzeSTL unicodeLower truncated_buffer =
  Ok {| vertexCount := 3; faceCount := 1; boundingBox := zeroBox;
        surfaceArea := 0.01; volume := 0 |}.
Proof. repeat split; vm_compute; reflexivity. Qed.

(* ------------------------------------------------------------------ *)
(** * Round trip over the binary layout *)

Lemma recordVertices_length (buffer : Buffer) (count : nat) :
  forall first, length (recordVertices buffer first count) = (3 * count)%nat.
Proof.
  unfold recordVertices.
  induction count as [|n IH]; intros first; [reflexivity|].
  cbn [seq map flat_map]. rewrite length_app, IH. cbn [facetVertices length]. lia.
Qed.

Lemma componentwiseBox_exact (vs : list vertex) :
  vs <> [] -> noNaN vs -> isExactBox (componentwiseBox vs) vs.
Proof.
  intros Hne Hnn.
  assert (Hx : Forall notNaN (map coordX vs))
    by (apply Forall_map; eapply Forall_impl; [|exact Hnn]; cbn; tauto).
  assert (Hy : Forall notNaN (map coordY vs))
    by (apply Forall_map; eapply Forall_impl; [|exact Hnn]; cbn; tauto).
  assert (Hz : Forall notNaN (map coordZ vs))
    by (apply Forall_map; eapply Forall_impl; [|exact Hnn]; cbn; tauto).
  assert (Hm : forall f : vertex -> float, map f vs <> [])
    by (intros f E; apply map_eq_nil in E; contradiction).
  unfold isExactBox, isLeastOf, isGreatestOf, componentwiseBox.
  cbn [min max coordX coordY coordZ fst snd].
  repeat split;
    first [ apply minimum_least | apply maximum_greatest ]; auto.
Qed.

(** C3, refuted: a buffer in the binary layout, 184 bytes with the count 2
    at offset 80 and the two facets of the scenario, whose header starts
    with the text [solid exported].  The sniffer takes it for text, the
    textual reader finds no vertex line in it, and [analyzeSTL] returns no
    face and the box [0,0,0]-[0,0,0], not 2 faces and the box
    [0,0,0]-[1,1,1] of the six vertices. *)
Lemma solid_headed_binary_is_read_as_text :
  byteLength solid_headed_buffer = 184 /\
  le32 solid_headed_buffer 80 = 2 /\
  84 + 2 * 50 <= byteLength solid_headed_buffer /\
  Server.isAsciiSTL keepCodePoint solid_headed_buffer = true /\
  componentwiseBox (declaredVertices solid_headed_buffer 2)
  = {| min := (0, 0, 0)%float; max := (1, 1, 1)%float |} /\
  Server.analyzeSTL keepCodePoint solid_headed_buffer
  = Ok {| vertexCount := 0; faceCount := 0; boundingBox := zeroBox;
          surfaceArea := 0; volume := 0 |} /\
  ~ (exists info,
       Server.analyzeSTL keepCodePoint solid_headed_buffer = Ok info /\
       faceCount info = Z2F 2 /\
       boundingBox info
       = componentwiseBox (declaredVertices solid_headed_buffer 2)).
Proof.
  assert (E : Server.analyzeSTL keepCodePoint solid_headed_buffer
              = Ok {| vertexCount := 0; faceCount := 0; boundingBox := zeroBox;
                      surfaceArea := 0; volume := 0 |})
    by (vm_compute; reflexivity).
  repeat split; try (vm_compute; reflexivity); try exact E.
  - vm_compute. discriminate.
  - intros (info & Hinfo & Hface & _). rewrite E in Hinfo.
    injection Hinfo as <-. cbn [faceCount] in Hface.
    apply (f_equal (fun x => (x =? 0)%float)) in Hface.
    vm_compute in Hface. discriminate.
Qed.

(** C3, amended.  On a buffer that the sniffer classifies as binary, of at
    least [84 + N*50] bytes and whose count is [N],
    [analyzeSTL] returns [faceCount = N] and the componentwise minimum and
    maximum of the [3*N] vertices decoded at offsets [84 + i*50 + 12] (twelve
    bytes each, the normal and the attribute bytes ignored): when no
    coordinate is NaN, the smallest box containing them.  For [N = 0], and
    for any empty vertex stream, the box is [0,0,0]-[0,0,0]. *)
Theorem binary_round_trip
    (unicodeLower : Z -> jsString) (buffer : Buffer) (N : Z)
    (Hbinary : Server.isAsciiSTL unicodeLower buffer = false)
    (Hcount : le32 buffer 80 = N)
    (Hlength : 84 + N * 50 <= byteLength buffer) :
  exists info,
    Server.analyzeSTL unicodeLower buffer = Ok info /\
    faceCount info = Z2F N /\
    Server.binaryVertices buffer N = Ok (declaredVertices buffer N) /\
    Z.of_nat (length (declaredVertices buffer N)) = 3 * N /\
    boundingBox info = componentwiseBox (declaredVertices buffer N) /\
    (N <> 0 -> noNaN (declaredVertices buffer N) ->
     isExactBox (boundingBox info) (declaredVertices buffer N)) /\
    (N = 0 -> boundingBox info = zeroBox) /\
    calculateBoundingBox [] = zeroBox.
Proof.
  pose proof (le32_range buffer 80) as HR. subst N.
  eexists. split; [apply analyzeSTL_binary_in; [assumption | lia | right; lia]|].
  cbn [faceCount boundingBox]. rewrite calculateBoundingBox_componentwise.
  assert (Hlen : length (declaredVertices buffer (le32 buffer 80))
                 = (3 * Z.to_nat (le32 buffer 80))%nat)
    by apply recordVertices_length.
  split; [reflexivity|]. split.
  { unfold Server.binaryVertices. change 0 with (Z.of_nat 0).
    rewrite facetLoop_in by (right; lia). reflexivity. }
  split; [lia|]. split; [reflexivity|]. split.
  { intros HN Hnn. apply componentwiseBox_exact; [|assumption].
    intros E. rewrite E in Hlen. cbn [length] in Hlen. lia. }
  split; [|reflexivity].
  intros HN. rewrite HN. reflexivity.
Qed.

Lemma binary_round_trip_witness :
  exists info,
    Server.analyzeSTL keepCodePoint scenario_buffer = Ok info /\
    faceCount info = Z2F 2 /\
    Server.binaryVertices scenario_buffer 2 = Ok (declaredVertices scenario_buffer 2) /\
    Z.of_nat (length (declaredVertices scenario_buffer 2)) = 3 * 2 /\
    boundingBox info = componentwiseBox (declaredVertices scenario_buffer 2) /\
    (2 <> 0 -> noNaN (declaredVertices scenario_buffer 2) ->
     isExactBox (boundingBox info) (declaredVertices scenario_buffer 2)) /\
    (2 = 0 -> boundingBox info = zeroBox) /\
    calculateBoundingBox [] = zeroBox.
Proof.
  apply (binary_round_trip keepCodePoint scenario_buffer 2);
    vm_compute; (reflexivity || discriminate).
Defined.


(* ------------------------------------------------------------------ *)
(** * The two validation paths *)

(** [isValidSTL] accepts the buffers sniffed textual, and the binary ones
    whose count and declared vertices can all be read. *)
Lemma isValidSTL_exactly (unicodeLower : Z -> jsString) (buffer : Buffer) :
  Server.isValidSTL unicodeLower buffer = true <->
  Server.isAsciiSTL unicodeLower buffer = true \/
  (84 <= byteLength buffer /\
   (le32 buffer 80 = 0 \/ 84 + le32 buffer 80 * 50 - 2 <= byteLength buffer)).
Proof.
  unfold Server.isValidSTL.
  destruct (Server.isAsciiSTL unicodeLower buffer) eqn:E.
  - rewrite analyzeSTL_textual by assumption. tauto.
  - split.
    + intros H. right.
      destruct (Z_le_gt_dec 84 (byteLength buffer)) as [H84 | H84].
      * split; [assumption|].
        destruct (Z.eq_dec (le32 buffer 80) 0) as [H0 | H0]; [now left|].
        destruct (Z_le_gt_dec (84 + le32 buffer 80 * 50 - 2) (byteLength buffer))
          as [Hl | Hl]; [now right|].
        destruct (analyzeSTL_binary_out unicodeLower buffer E) as [e He];
          [right; split; [assumption | lia]|].
        rewrite He in H. discriminate.
      * destruct (analyzeSTL_binary_out unicodeLower buffer E) as [e He];
          [left; lia|].
        rewrite He in H. discriminate.
    + intros [H | [H84 HN]]; [discriminate|].
      now rewrite analyzeSTL_binary_in.
Qed.

(** C1, refuted: the client rejects [model.txt], whatever it holds, and the
    server accepts its 84 bytes, a binary file with no facet. *)
Lemma validation_paths_disagree :
  Client.isValid
    (Client.validateSTLFile keepCodePoint
       {| Client.name := str "model.txt"; Client.content := empty_binary_buffer |})
  <> Server.isValidSTL keepCodePoint empty_binary_buffer.
Proof. vm_compute. discriminate. Qed.

(** C1, amended.  Whatever [validateSTLFile] accepts before the transfer,
    [isValidSTL] accepts after it, on the same bytes. *)
Theorem client_accept_implies_server_accept
    (unicodeLower : Z -> jsString) (file : Client.File)
    (Haccepted : Client.isValid (Client.validateSTLFile unicodeLower file) = true) :
  Server.isValidSTL unicodeLower (Client.content file) = true.
Proof.
  rewrite validateSTLFile_gate in Haccepted. apply isValidSTL_exactly.
  rewrite <- sniffedTextual_server. revert Haccepted.
  gate_cases unicodeLower file; cbn [Client.isValid Client.rejected accepted];
    intros Hv; try discriminate.
  - now left.
  - right. unfold Client.size in *. split; [assumption | right; lia].
Qed.

Lemma client_accept_implies_server_accept_witness :
  Server.isValidSTL keepCodePoint scenario_buffer = true.
Proof.
  apply (client_accept_implies_server_accept keepCodePoint
           {| Client.name := str "wing.STL"; Client.content := scenario_buffer |}).
  vm_compute. reflexivity.
Defined.

(** C6, at a failing input.  On the five bytes [solid] the server's sniffer
    answers textual; the client's does not classify: its six-byte view of the
    buffer throws. *)
Theorem client_sniffer_throws_on_short_buffer (unicodeLower : Z -> jsString) :
  Server.isAsciiSTL unicodeLower (bytes_of_string "solid") = true /\
  Client.isAsciiSTL unicodeLower (bytes_of_string "solid")
  = Throw (RangeError "Invalid typed array length").
Proof. split; vm_compute; reflexivity. Qed.

(* ------------------------------------------------------------------ *)
(** * The textual reader *)

Lemma pushVertex_cases (vertices : list vertex) (line : jsString) :
  Server.pushVertex vertices line
  = vertices ++ (if hasFourParts line then [vertexOfLine line] else []).
Proof.
  unfold Server.pushVertex, hasFourParts, vertexOfLine, token.
  destruct (4 <=? Z.of_nat (length (splitWhiteSpace (trim line))));
    [reflexivity | now rewrite app_nil_r].
Qed.

(** The loop over [vertexLines] keeps, in order, one vertex for each line
    with at least four tokens. *)
Lemma fold_pushVertex (lines : list jsString) :
  forall vertices,
    fold_left Server.pushVertex lines vertices
    = vertices ++ map vertexOfLine (filter hasFourParts lines).
Proof.
  induction lines as [|line lines IH]; intros vertices; cbn [fold_left filter].
  - now rewrite app_nil_r.
  - rewrite IH, pushVertex_cases.
    destruct (hasFourParts line); cbn [map]; rewrite <- app_assoc; reflexivity.
Qed.

Lemma asciiVertices_map (buffer : Buffer) :
  Server.asciiVertices buffer
  = map vertexOfLine (filter hasFourParts (Server.vertexLines buffer)).
Proof. unfold Server.asciiVertices. now rewrite fold_pushVertex. Qed.



(* ------------------------------------------------------------------ *)
(** * Tokens that are not numbers *)

Lemma takeWhile_head_false {A : Type} (p : A -> bool) (l : list A) :
  match l with
  | x :: _ => p x = false
  | [] => True
  end -> takeWhile p l = [].
Proof. destruct l as [|x r]; [reflexivity|]. cbn. now intros ->. Qed.

(** Without a numeric prefix, [parseFloat] answers NaN. *)
Lemma parseFloat_no_prefix (s : jsString) :
  numericPrefix s = false -> parseFloat s = nan.
Proof.
  unfold numericPrefix, parseFloat.
  destruct (stripSign (trimStart s)) as [negative t].
  intros H. apply orb_false_iff in H. destruct H as [Hinf Hd]. rewrite Hinf.
  destruct t as [|c r]; [reflexivity|].
  apply orb_false_iff in Hd. destruct Hd as [Hc Hdot].
  cbn [takeWhile dropWhile]. rewrite Hc. unfold fractionPart.
  destruct (c =? 46) eqn:E46; [|reflexivity].
  cbn [andb] in Hdot.
  rewrite (takeWhile_head_false isDigit r); [reflexivity|].
  destruct r as [|d r']; [exact I | exact Hdot].
Qed.

Lemma coordinate_vertexOfLine (k : nat) (line : jsString) :
  k = 1%nat \/ k = 2%nat \/ k = 3%nat ->
  coordinate k (vertexOfLine line) = parseFloat (token k line).
Proof. intros [-> | [-> | ->]]; reflexivity. Qed.

(** A vertex with a NaN coordinate makes that coordinate of the box NaN,
    in its minimum and in its maximum. *)
Lemma calculateBoundingBox_nan (vs : list vertex) (v : vertex) (k : nat) :
  In v vs -> coordinate k v = nan ->
  coordinate k (min (calculateBoundingBox vs)) = nan /\
  coordinate k (max (calculateBoundingBox vs)) = nan.
Proof.
  intros Hin Hnan.
  assert (Hx : forall f : vertex -> float, f v = nan -> In nan (map f vs))
    by (intros f <-; now apply in_map).
  destruct vs as [|v0 vs0] eqn:Evs; [destruct Hin|]. rewrite <- Evs in *.
  assert (Hbox : calculateBoundingBox vs =
                 fold_left boundingBox_step vs
                   {| min := (infinity, infinity, infinity);
                      max := (neg_infinity, neg_infinity, neg_infinity) |})
    by (rewrite Evs; reflexivity).
  rewrite Hbox, fold_boundingBox_step.
  destruct k as [|[|[|k]]]; cbn [coordinate min max coordX coordY coordZ fst snd] in *;
    split; first [apply fold_min_nan | apply fold_max_nan]; auto.
Qed.

(** C9, refuted: the token [1x] is not a number, yet [parseFloat] reads it
    as 1 and no NaN reaches the bounding box. *)
Lemma suffixed_token_is_not_nan :
  isStrDecimalLiteral (str "1x") = false /\
  Server.vertexLines suffixed_token_buffer = [str "vertex 1x 2 3"] /\
  token 1 (str "vertex 1x 2 3") = str "1x" /\
  parseFloat (str "1x") = 1%float /\
  Server.analyzeSTL keepCodePoint suffixed_token_buffer =
  Ok {| vertexCount := 1; faceCount := (1 / 3)%float;
        boundingBox := {| min := (1, 2, 3)%float; max := (1, 2, 3)%float |};
        surfaceArea := (1 / 3 * 0.01)%float; volume := 0 |}.
Proof. repeat split; vm_compute; reflexivity. Qed.

(** C9, amended.  On a textual input [analyzeSTL] never aborts: it returns
    the complete [STLInfo] of [parseAsciiSTL].  A coordinate token (token 1,
    2 or 3 of a vertex line with at least four tokens) that has no numeric
    prefix parses to NaN, and that NaN is the corresponding coordinate of
    both corners of the bounding box. *)
Theorem nan_token_propagates
    (unicodeLower : Z -> jsString) (buffer : Buffer) (line : jsString) (k : nat)
    (Htextual : Server.isAsciiSTL unicodeLower buffer = true)
    (Hline : In line (Server.vertexLines buffer))
    (Hparts : hasFourParts line = true)
    (Hk : k = 1%nat \/ k = 2%nat \/ k = 3%nat)
    (Htoken : numericPrefix (token k line) = false) :
  parseFloat (token k line) = nan /\
  Server.analyzeSTL unicodeLower buffer = Ok (Server.parseAsciiSTL buffer) /\
  coordinate k (min (boundingBox (Server.parseAsciiSTL buffer))) = nan /\
  coordinate k (max (boundingBox (Server.parseAsciiSTL buffer))) = nan.
Proof.
  pose proof (parseFloat_no_prefix _ Htoken) as Hnan.
  split; [assumption|]. split; [now apply analyzeSTL_textual|].
  cbn [Server.parseAsciiSTL boundingBox].
  apply (calculateBoundingBox_nan _ (vertexOfLine line)).
  - rewrite asciiVertices_map. apply in_map, filter_In. now split.
  - now rewrite coordinate_vertexOfLine.
Qed.

Lemma nan_token_propagates_witness :
  parseFloat (token 2 (str "vertex 1 abc 3")) = nan /\
  Server.analyzeSTL keepCodePoint (bytes_of_string "solid s
vertex 1 abc 3")
  = Ok (Server.parseAsciiSTL (bytes_of_string "solid s
vertex 1 abc 3")) /\
  coordinate 2 (min (boundingBox (Server.parseAsciiSTL (bytes_of_string "solid s
vertex 1 abc 3")))) = nan /\
  coordinate 2 (max (boundingBox (Server.parseAsciiSTL (bytes_of_string "solid s
vertex 1 abc 3")))) = nan.
Proof.
  apply (nan_token_propagates keepCodePoint (bytes_of_string "solid s
vertex 1 abc 3") (str "vertex 1 abc 3") 2).
  - vm_compute. reflexivity.
  - vm_compute. left. reflexivity.
  - vm_compute. reflexivity.
  - right. left. reflexivity.
  - vm_compute. reflexivity.
Defined.

(* ------------------------------------------------------------------ *)
(** * The maps of the store *)

Section JsMapFacts.
Context {V : Type}.
Implicit Types (map : JsMap V) (key : Z) (value : V).

Lemma lookup_set_same map key value :
  lookup (Map_set map key value) key = Some value.
Proof.
  induction map as [|[k v] rest IH]; cbn [Map_set lookup].
  - now rewrite Z.eqb_refl.
  - destruct (k =? key) eqn:E; cbn [lookup]; rewrite E; [reflexivity | exact IH].
Qed.

Lemma lookup_set_other map key value key' :
  key' <> key -> lookup (Map_set map key value) key' = lookup map key'.
Proof.
  intros Hne. induction map as [|[k v] rest IH]; cbn [Map_set lookup].
  - destruct (key =? key') eqn:E; [lia | reflexivity].
  - destruct (k =? key) eqn:E; cbn [lookup].
    + destruct (k =? key') eqn:E'; [lia | reflexivity].
    + destruct (k =? key'); [reflexivity | exact IH].
Qed.

Lemma lookup_keys map key :
  lookup map key <> None <-> In key (Map_keys map).
Proof.
  induction map as [|[k v] rest IH]; cbn [lookup Map_keys List.map In fst].
  - tauto.
  - destruct (k =? key) eqn:E.
    + split; [intros _; left; lia | discriminate].
    + rewrite IH. unfold Map_keys. split; [tauto | intros [H | H]; [lia | exact H]].
Qed.

Lemma lookup_fresh map key :
  ~ In key (Map_keys map) -> lookup map key = None.
Proof.
  intros H. destruct (lookup map key) eqn:E; [|reflexivity].
  exfalso. apply H, lookup_keys. congruence.
Qed.

Lemma lookup_In map key value :
  lookup map key = Some value -> In (key, value) map.
Proof.
  induction map as [|[k v] rest IH]; cbn [lookup In]; [discriminate|].
  destruct (k =? key) eqn:E.
  - intros H. injection H as <-. left. f_equal. lia.
  - intros H. right. exact (IH H).
Qed.

(** A new key goes to the end. *)
Lemma Map_set_fresh map key value :
  ~ In key (Map_keys map) -> Map_set map key value = map ++ [(key, value)].
Proof.
  induction map as [|[k v] rest IH]; cbn [Map_set Map_keys List.map In fst app];
    [reflexivity|].
  intros H. destruct (k =? key) eqn:E; [exfalso; apply H; left; lia|].
  f_equal. apply IH. intros Hin. apply H. right. exact Hin.
Qed.

(** Setting never changes the keys that are there, nor their order. *)
Lemma Map_set_present map key value :
  In key (Map_keys map) -> Map_keys (Map_set map key value) = Map_keys map.
Proof.
  induction map as [|[k v] rest IH]; cbn [Map_set Map_keys List.map In fst];
    [tauto|].
  intros H. destruct (k =? key) eqn:E; cbn [List.map fst]; [reflexivity|].
  f_equal. apply IH. destruct H as [H | H]; [lia | exact H].
Qed.

Lemma Map_set_length_present map key value :
  In key (Map_keys map) -> length (Map_set map key value) = length map.
Proof.
  intros H. apply Map_set_present with (value := value) in H.
  unfold Map_keys in H. apply (f_equal (@length Z)) in H.
  now rewrite !length_map in H.
Qed.

Lemma firstIds_fresh (n : nat) : ~ In (Z.of_nat n + 1) (firstIds n).
Proof.
  unfold firstIds. rewrite in_map_iff. intros [k [Hk Hin]].
  apply in_seq in Hin. lia.
Qed.

Lemma firstIds_succ (n : nat) : firstIds (S n) = firstIds n ++ [Z.of_nat n + 1].
Proof.
  unfold firstIds. rewrite seq_S, map_app. cbn [List.map]. do 2 f_equal. lia.
Qed.

Lemma firstIds_In (n : nat) (k : Z) : In k (firstIds n) <-> 1 <= k <= Z.of_nat n.
Proof.
  unfold firstIds. rewrite in_map_iff. split.
  - intros [i [<- Hin]]. apply in_seq in Hin. lia.
  - intros H. exists (Z.to_nat k). split; [lia|]. apply in_seq. lia.
Qed.

(** The key that a counter holds is new in a numbered map. *)
Lemma numbered_fresh map (current : Z) :
  numbered map current -> ~ In current (Map_keys map).
Proof. intros [-> ->]. apply firstIds_fresh. Qed.

Lemma numbered_create map (current : Z) value :
  numbered map current ->
  Map_set map current value = map ++ [(current, value)].
Proof. intros H. apply Map_set_fresh, numbered_fresh, H. Qed.

Lemma numbered_set_fresh map (current : Z) value :
  numbered map current -> numbered (Map_set map current value) (current + 1).
Proof.
  intros H. rewrite (numbered_create _ _ _ H). destruct H as [Hc Hk].
  unfold numbered, Map_keys in *. rewrite length_app, map_app, Hk.
  cbn [length List.map fst]. rewrite Nat.add_1_r, firstIds_succ.
  split; [lia|]. now rewrite Hc.
Qed.

Lemma numbered_set_present map (current : Z) key value :
  numbered map current -> In key (Map_keys map) ->
  numbered (Map_set map key value) current.
Proof.
  intros [Hc Hk] Hin. unfold numbered.
  rewrite Map_set_length_present, Map_set_present by assumption. now split.
Qed.

Lemma numbered_lookup map (current : Z) key :
  numbered map current ->
  (lookup map key <> None <-> 1 <= key < current).
Proof.
  intros [-> Hk]. rewrite lookup_keys, Hk, firstIds_In. lia.
Qed.

Lemma identified_set_fresh (id : V -> Z) map (current : Z) value :
  numbered map current -> identified id map -> id value = current ->
  identified id (Map_set map current value).
Proof.
  intros Hn Hi Hv. rewrite (numbered_create _ _ _ Hn).
  apply Forall_app. split; [exact Hi|]. constructor; [exact Hv | constructor].
Qed.

Lemma identified_lookup (id : V -> Z) map key value :
  identified id map -> lookup map key = Some value -> id value = key.
Proof.
  intros Hi Hl. apply lookup_In in Hl.
  unfold identified in Hi. rewrite Forall_forall in Hi. exact (Hi _ Hl).
Qed.

Lemma Map_values_app map map' :
  Map_values (map ++ map') = Map_values map ++ Map_values map'.
Proof. unfold Map_values. apply map_app. Qed.

End JsMapFacts.

(* ------------------------------------------------------------------ *)
(** * What every history of the store keeps *)

Lemma new_MemStorage_consistent (now : jsString) :
  consistent (Storage.new_MemStorage now).
Proof.
  split; cbn; try (split; reflexivity); try constructor; try reflexivity;
    constructor.
Qed.

Ltac store_fields :=
  cbn [Storage.users Storage.projects Storage.models
       Storage.simulationSettings Storage.analysisOptions
       Storage.aiOptimizationOptions Storage.simulationResults
       Storage.aiRecommendations
       Storage.currentUserId Storage.currentProjectId Storage.currentModelId
       Storage.currentSimulationSettingsId Storage.currentAnalysisOptionsId
       Storage.currentAiOptimizationOptionsId
       Storage.currentSimulationResultsId Storage.currentAiRecommendationsId
       Storage.set_users Storage.set_projects Storage.set_models
       Storage.set_simulationSettings Storage.set_analysisOptions
       Storage.set_aiOptimizationOptions Storage.set_simulationResults
       Storage.set_aiRecommendations
       Storage.set_currentUserId Storage.set_currentProjectId
       Storage.set_currentModelId Storage.set_currentSimulationSettingsId
       Storage.set_currentAnalysisOptionsId
       Storage.set_currentAiOptimizationOptionsId
       Storage.set_currentSimulationResultsId
       Storage.set_currentAiRecommendationsId fst snd] in *.

Lemma perform_consistent (this : Storage.MemStorage) (c : call) :
  consistent this -> consistent (perform this c).
Proof.
  intros H. destruct H.
  destruct c; cbn [perform];
    try (unfold Storage.createUser, Storage.createProject, Storage.createModel,
           Storage.createSimulationSettings, Storage.createAnalysisOptions,
           Storage.createAiOptimizationOptions,
           Storage.createSimulationResults, Storage.createAiRecommendation;
         split; store_fields;
         solve [ assumption
               | apply numbered_set_fresh; assumption
               | apply identified_set_fresh; [assumption | assumption | reflexivity] ]).
  unfold Storage.updateAiRecommendation.
  destruct id as [|key]; cbn [Map_get].
  - now split.
  - destruct (lookup (Storage.aiRecommendations this) key) eqn:E; [|now split].
    split; store_fields; try assumption.
    apply numbered_set_present; [assumption|].
    apply lookup_keys. congruence.
Qed.

Lemma history_consistent (now : jsString) (calls : list call) :
  consistent (history now calls).
Proof.
  unfold history. generalize (new_MemStorage_consistent now).
  generalize (Storage.new_MemStorage now). induction calls as [|c calls IH].
  - intros this H. exact H.
  - intros this H. cbn [fold_left]. apply IH, perform_consistent, H.
Qed.

(* ------------------------------------------------------------------ *)
(** * Tables that only grow *)

Lemma extends_refl {A : Type} (l : list A) : extends l l.
Proof. exists []. now rewrite app_nil_r. Qed.

Lemma extends_trans {A : Type} (l1 l2 l3 : list A) :
  extends l1 l2 -> extends l2 l3 -> extends l1 l3.
Proof. intros [m1 ->] [m2 ->]. exists (m1 ++ m2). now rewrite app_assoc. Qed.

Lemma extends_create {V : Type} (map : JsMap V) (current : Z) (value : V) :
  numbered map current -> extends map (Map_set map current value).
Proof. intros H. exists [(current, value)]. now apply numbered_create. Qed.

Lemma extends_keys {V : Type} (before after : JsMap V) :
  extends before after -> extends (Map_keys before) (Map_keys after).
Proof. intros [more ->]. exists (Map_keys more). apply map_app. Qed.

Lemma extends_lookup {V : Type} (before after : JsMap V) (key : Z) (value : V) :
  extends before after ->
  lookup before key = Some value -> lookup after key = Some value.
Proof.
  intros [more ->]. induction before as [|[k v] rest IH]; cbn [lookup app];
    [discriminate|].
  destruct (k =? key); [trivial | exact IH].
Qed.

Lemma extends_get {V : Type} (before after : JsMap V) (id : intOrNaN) (value : V) :
  extends before after ->
  Map_get before id = Some value -> Map_get after id = Some value.
Proof. destruct id as [|key]; [discriminate|]. apply extends_lookup. Qed.

Lemma extends_find {A : Type} (f : A -> bool) (before after : list A) (a : A) :
  extends before after -> find f before = Some a -> find f after = Some a.
Proof.
  intros [more ->]. induction before as [|x rest IH]; cbn [find app];
    [discriminate|].
  destruct (f x); [trivial | exact IH].
Qed.

Lemma extends_values {V : Type} (before after : JsMap V) :
  extends before after -> extends (Map_values before) (Map_values after).
Proof. intros [more ->]. exists (Map_values more). apply Map_values_app. Qed.

Lemma extends_filter {A : Type} (f : A -> bool) (before after : list A) :
  extends before after -> extends (filter f before) (filter f after).
Proof. intros [more ->]. exists (filter f more). apply filter_app. Qed.

Lemma grown_refl (this : Storage.MemStorage) : grown this this.
Proof. split; apply extends_refl. Qed.

Lemma grown_trans (s1 s2 s3 : Storage.MemStorage) :
  grown s1 s2 -> grown s2 s3 -> grown s1 s3.
Proof. intros [] []. split; eapply extends_trans; eassumption. Qed.

Lemma perform_grown (this : Storage.MemStorage) (c : call) :
  consistent this -> grown this (perform this c).
Proof.
  intros H. destruct H.
  destruct c; cbn [perform];
    try (unfold Storage.createUser, Storage.createProject, Storage.createModel,
           Storage.createSimulationSettings, Storage.createAnalysisOptions,
           Storage.createAiOptimizationOptions,
           Storage.createSimulationResults, Storage.createAiRecommendation;
         split; store_fields;
         solve [ apply extends_refl
               | apply extends_create; assumption
               | apply extends_keys, extends_create; assumption ]).
  unfold Storage.updateAiRecommendation.
  destruct id as [|key]; cbn [Map_get]; [apply grown_refl|].
  destruct (lookup (Storage.aiRecommendations this) key) eqn:E;
    [|apply grown_refl].
  split; store_fields; try apply extends_refl.
  rewrite Map_set_present; [apply extends_refl|].
  apply lookup_keys. congruence.
Qed.

Lemma fold_perform_consistent (calls : list call) (this : Storage.MemStorage) :
  consistent this -> consistent (fold_left perform calls this).
Proof.
  revert this. induction calls as [|c calls IH]; intros this H; [exact H|].
  cbn [fold_left]. apply IH, perform_consistent, H.
Qed.

Lemma fold_perform_grown (calls : list call) (this : Storage.MemStorage) :
  consistent this -> grown this (fold_left perform calls this).
Proof.
  revert this. induction calls as [|c calls IH]; intros this H;
    [apply grown_refl|].
  cbn [fold_left]. eapply grown_trans; [apply perform_grown, H|].
  apply IH, perform_consistent, H.
Qed.

Lemma history_grown (now : jsString) (calls more : list call) :
  grown (history now calls) (history now (calls ++ more)).
Proof.
  unfold history. rewrite fold_left_app.
  apply fold_perform_grown, history_consistent.
Qed.

(* ------------------------------------------------------------------ *)
(** * The store, as its callers see it *)

Lemma numbered_get {V : Type} (map : JsMap V) (current k : Z) :
  numbered map current ->
  (Map_get map (Int k) <> None <-> 1 <= k < current).
Proof. apply numbered_lookup. Qed.

Lemma identified_get {V : Type} (id : V -> Z) (map : JsMap V) (k : Z) (value : V) :
  identified id map -> Map_get map (Int k) = Some value -> id value = k.
Proof. apply identified_lookup. Qed.

(** X1. In the store that [new MemStorage()] built, after any calls of its
    methods, each [get] method finds a record for [k] exactly when
    [1 <= k < current...Id], and the record that it finds carries [k] as its
    [id] (for every table whose records are never rewritten). *)
Theorem store_gives_consecutive_ids
    (now : jsString) (calls : list call) (k : Z) :
  let this := history now calls in
  ((Storage.getUser this (Int k) <> None
    <-> 1 <= k < Storage.currentUserId this) /\
   (Storage.getProject this (Int k) <> None
    <-> 1 <= k < Storage.currentProjectId this) /\
   (Storage.getModel this (Int k) <> None
    <-> 1 <= k < Storage.currentModelId this) /\
   (Storage.getSimulationSettings this (Int k) <> None
    <-> 1 <= k < Storage.currentSimulationSettingsId this) /\
   (Storage.getAnalysisOptions this (Int k) <> None
    <-> 1 <= k < Storage.currentAnalysisOptionsId this) /\
   (Storage.getAiOptimizationOptions this (Int k) <> None
    <-> 1 <= k < Storage.currentAiOptimizationOptionsId this) /\
   (Storage.getSimulationResult this (Int k) <> None
    <-> 1 <= k < Storage.currentSimulationResultsId this) /\
   (Storage.getAiRecommendation this (Int k) <> None
    <-> 1 <= k < Storage.currentAiRecommendationsId this)) /\
  ((forall user, Storage.getUser this (Int k) = Some user -> User.id user = k) /\
   (forall project,
      Storage.getProject this (Int k) = Some project -> Project.id project = k) /\
   (forall model,
      Storage.getModel this (Int k) = Some model -> Model.id model = k) /\
   (forall settings,
      Storage.getSimulationSettings this (Int k) = Some settings ->
      SimulationSettings.id settings = k) /\
   (forall options,
      Storage.getAnalysisOptions this (Int k) = Some options ->
      AnalysisOptions.id options = k) /\
   (forall options,
      Storage.getAiOptimizationOptions this (Int k) = Some options ->
      AiOptimizationOptions.id options = k) /\
   (forall results,
      Storage.getSimulationResult this (Int k) = Some results ->
      SimulationResults.id results = k)).
Proof.
  cbv zeta. generalize (history_consistent now calls).
  generalize (history now calls). intros this [].
  split.
  - repeat apply conj; apply numbered_get; assumption.
  - repeat apply conj; intros x; apply identified_get; assumption.
Qed.

Lemma filter_singleton {A : Type} (f : A -> bool) (a : A) :
  filter f [a] = if f a then [a] else [].
Proof. reflexivity. Qed.

(** X2. In such a store [createModel] gives the new model the number of
    models stored so far plus one, an id that no model had; afterwards
    [getModel] finds the new model under it and every other id as before,
    and the list of a project's models has the new model at its end when
    the model is of that project, and is as before otherwise. *)
Theorem createModel_appends
    (now : jsString) (calls : list call) (insertModel : InsertModel.t)
    (projectId : intOrNaN) :
  let this := history now calls in
  let this' := fst (Storage.createModel this insertModel) in
  let model := snd (Storage.createModel this insertModel) in
  Model.id model = Z.of_nat (length (Storage.models this)) + 1 /\
  Storage.getModel this (Int (Model.id model)) = None /\
  Storage.getModel this' (Int (Model.id model)) = Some model /\
  (forall id, id <> Int (Model.id model) ->
              Storage.getModel this' id = Storage.getModel this id) /\
  Storage.getModelsByProject this' projectId
  = Storage.getModelsByProject this projectId
    ++ (if nullable_eqb (InsertModel.projectId insertModel) projectId
        then [model] else []).
Proof.
  cbv zeta. generalize (history_consistent now calls).
  generalize (history now calls). intros this [].
  set (this' := fst (Storage.createModel this insertModel)).
  set (model := snd (Storage.createModel this insertModel)).
  assert (Hid : Model.id model = Storage.currentModelId this) by reflexivity.
  split; [rewrite Hid; apply models_numbered0|].
  split.
  { rewrite Hid. unfold Storage.getModel. cbn [Map_get].
    apply lookup_fresh, numbered_fresh. assumption. }
  split.
  { rewrite Hid. unfold Storage.getModel, this', Storage.createModel.
    store_fields. cbn [Map_get]. apply lookup_set_same. }
  split.
  { intros id Hne. unfold Storage.getModel, this', Storage.createModel.
    store_fields. destruct id as [|key]; [reflexivity|]. cbn [Map_get].
    apply lookup_set_other. rewrite Hid in Hne. congruence. }
  unfold Storage.getModelsByProject, this', Storage.createModel.
  store_fields. rewrite (numbered_create _ _ _ models_numbered0).
  rewrite Map_values_app, filter_app. f_equal.
Qed.

(** X3. A record that a [get] method finds is found unchanged after any
    further calls: no method removes or rewrites a user, a project, a
    model, settings, options or results.  A recommendation stays under its
    id, though [updateAiRecommendation] may rewrite it. *)
Theorem stored_records_persist
    (now : jsString) (calls more : list call) (id : intOrNaN) :
  let before := history now calls in
  let after := history now (calls ++ more) in
  (forall user,
     Storage.getUser before id = Some user ->
     Storage.getUser after id = Some user) /\
  (forall project,
     Storage.getProject before id = Some project ->
     Storage.getProject after id = Some project) /\
  (forall model,
     Storage.getModel before id = Some model ->
     Storage.getModel after id = Some model) /\
  (forall settings,
     Storage.getSimulationSettings before id = Some settings ->
     Storage.getSimulationSettings after id = Some settings) /\
  (forall options,
     Storage.getAnalysisOptions before id = Some options ->
     Storage.getAnalysisOptions after id = Some options) /\
  (forall options,
     Storage.getAiOptimizationOptions before id = Some options ->
     Storage.getAiOptimizationOptions after id = Some options) /\
  (forall results,
     Storage.getSimulationResult before id = Some results ->
     Storage.getSimulationResult after id = Some results) /\
  (Storage.getAiRecommendation before id <> None ->
   Storage.getAiRecommendation after id <> None).
Proof.
  cbv zeta. generalize (history_grown now calls more).
  generalize (history now calls) (history now (calls ++ more)).
  intros before after [].
  repeat apply conj; try (intros x; apply extends_get; assumption).
  unfold Storage.getAiRecommendation. destruct id as [|key]; [trivial|].
  cbn [Map_get]. rewrite !lookup_keys.
  destruct aiRecommendations_grown0 as [keys ->]. intros H.
  apply in_or_app. now left.
Qed.

(** X4. The methods that look a record up with [find] answer with the
    first record created that matches, for good: once
    [getSimulationSettingsByProject], [getAnalysisOptionsByProject],
    [getAiOptimizationOptionsByProject] or [getUserByUsername] has found a
    record, it finds that same record after any further calls, records
    created later for the same project or name included. *)
Theorem first_record_wins
    (now : jsString) (calls more : list call) (projectId : intOrNaN)
    (username : jsString) :
  let before := history now calls in
  let after := history now (calls ++ more) in
  (forall settings,
     Storage.getSimulationSettingsByProject before projectId = Some settings ->
     Storage.getSimulationSettingsByProject after projectId = Some settings) /\
  (forall options,
     Storage.getAnalysisOptionsByProject before projectId = Some options ->
     Storage.getAnalysisOptionsByProject after projectId = Some options) /\
  (forall options,
     Storage.getAiOptimizationOptionsByProject before projectId = Some options ->
     Storage.getAiOptimizationOptionsByProject after projectId = Some options) /\
  (forall user,
     Storage.getUserByUsername before username = Some user ->
     Storage.getUserByUsername after username = Some user).
Proof.
  cbv zeta. generalize (history_grown now calls more).
  generalize (history now calls) (history now (calls ++ more)).
  intros before after [].
  repeat apply conj; intros x; apply extends_find, extends_values; assumption.
Qed.

Lemma nullable_eqb_NaN (a : option intOrNaN) : nullable_eqb a NaN = false.
Proof. destruct a as [[|x]|]; reflexivity. Qed.

Lemma find_none {A : Type} (f : A -> bool) (l : list A) :
  (forall a, f a = false) -> find f l = None.
Proof.
  intros H. induction l as [|a l IH]; [reflexivity|].
  cbn [find]. now rewrite H.
Qed.

Lemma filter_none {A : Type} (f : A -> bool) (l : list A) :
  (forall a, f a = false) -> filter f l = [].
Proof.
  intros H. induction l as [|a l IH]; [reflexivity|].
  cbn [filter]. now rewrite H.
Qed.

(** X5. An id that is NaN, which is what [parseInt] makes of a parameter
    that does not start with a number, finds nothing in any store: every
    [get] method answers [undefined], every listing is empty, and
    [updateAiRecommendation] throws [Recommendation not found] without
    writing.  A listing by project only holds models whose [projectId] is
    that very integer, so a model stored with a NaN or [null] project is in
    no listing. *)
Theorem NaN_finds_nothing
    (this : Storage.MemStorage) (data : PartialAiRecommendation.t) :
  (Storage.getUser this NaN = None /\
   Storage.getProject this NaN = None /\
   Storage.getModel this NaN = None /\
   Storage.getSimulationSettings this NaN = None /\
   Storage.getAnalysisOptions this NaN = None /\
   Storage.getAiOptimizationOptions this NaN = None /\
   Storage.getSimulationResult this NaN = None /\
   Storage.getAiRecommendation this NaN = None /\
   Storage.getSimulationResultWithRecommendations this NaN = None) /\
  (Storage.getModelsByProject this NaN = [] /\
   Storage.getSimulationSettingsByProject this NaN = None /\
   Storage.getAnalysisOptionsByProject this NaN = None /\
   Storage.getAiOptimizationOptionsByProject this NaN = None /\
   Storage.getSimulationResultsByProject this NaN = [] /\
   Storage.getAiRecommendationsBySimulationResult this NaN = []) /\
  Storage.updateAiRecommendation this NaN data
  = Throw (Error "Recommendation not found") /\
  (forall projectId model,
     In model (Storage.getModelsByProject this projectId) ->
     exists k, projectId = Int k /\ Model.projectId model = Some (Int k)).
Proof.
  split; [repeat apply conj; reflexivity|].
  split.
  { repeat apply conj;
      solve [ apply filter_none; intros a; apply nullable_eqb_NaN
            | apply find_none; intros a; apply nullable_eqb_NaN ]. }
  split; [reflexivity|].
  intros projectId model H. apply filter_In in H. destruct H as [_ H].
  destruct (Model.projectId model) as [[|x]|]; try discriminate.
  destruct projectId as [|k]; [discriminate|].
  cbn [nullable_eqb intOrNaN_eqb] in H. apply Z.eqb_eq in H. subst x. eauto.
Qed.

Lemma set_aiRecommendations_same (this : Storage.MemStorage) :
  Storage.set_aiRecommendations this (Storage.aiRecommendations this) = this.
Proof. destruct this. reflexivity. Qed.

Lemma updateAiRecommendation_found
    (this : Storage.MemStorage) (key : Z) (data : PartialAiRecommendation.t)
    (recommendation : AiRecommendation.t) :
  lookup (Storage.aiRecommendations this) key = Some recommendation ->
  Storage.updateAiRecommendation this (Int key) data
  = Ok (Storage.set_aiRecommendations this
          (Map_set (Storage.aiRecommendations this) key
                   (Storage.mergeAiRecommendation recommendation data)),
        Storage.mergeAiRecommendation recommendation data).
Proof.
  intros H. unfold Storage.updateAiRecommendation. cbn [Map_get]. now rewrite H.
Qed.

Lemma updateAiRecommendation_missing
    (this : Storage.MemStorage) (id : intOrNaN) (data : PartialAiRecommendation.t) :
  Storage.getAiRecommendation this id = None ->
  Storage.updateAiRecommendation this id data
  = Throw (Error "Recommendation not found").
Proof.
  unfold Storage.getAiRecommendation, Storage.updateAiRecommendation.
  intros ->. reflexivity.
Qed.

(** X6. [updateAiRecommendation] throws [Recommendation not found] exactly
    when no recommendation has the id.  Otherwise it returns the
    recommendation with the properties of [data] written over it, and
    stores it under the same id: the keys of the table and their order are
    as before, every other recommendation is as before, and so is the rest
    of the store. *)
Theorem updateAiRecommendation_rewrites_in_place
    (this : Storage.MemStorage) (id : intOrNaN)
    (data : PartialAiRecommendation.t) :
  match Storage.getAiRecommendation this id with
  | None =>
      Storage.updateAiRecommendation this id data
      = Throw (Error "Recommendation not found")
  | Some recommendation =>
      exists this',
        Storage.updateAiRecommendation this id data
        = Ok (this', Storage.mergeAiRecommendation recommendation data) /\
        Storage.getAiRecommendation this' id
        = Some (Storage.mergeAiRecommendation recommendation data) /\
        (forall other, other <> id ->
           Storage.getAiRecommendation this' other
           = Storage.getAiRecommendation this other) /\
        Map_keys (Storage.aiRecommendations this')
        = Map_keys (Storage.aiRecommendations this) /\
        Storage.set_aiRecommendations this' (Storage.aiRecommendations this)
        = this
  end.
Proof.
  destruct (Storage.getAiRecommendation this id) as [recommendation|] eqn:E;
    [|now apply updateAiRecommendation_missing].
  destruct id as [|key]; [discriminate|].
  unfold Storage.getAiRecommendation in E. cbn [Map_get] in E.
  eexists. split; [apply updateAiRecommendation_found, E|].
  unfold Storage.getAiRecommendation. store_fields.
  split; [apply lookup_set_same|].
  split.
  { intros [|other] Hne; [reflexivity|]. cbn [Map_get].
    apply lookup_set_other. congruence. }
  split.
  { apply Map_set_present, lookup_keys. congruence. }
  destruct this. reflexivity.
Qed.

Lemma spreadOver_twice {A : Type} (data : option A) (base : A) :
  spreadOver data (spreadOver data base) = spreadOver data base.
Proof. destruct data; reflexivity. Qed.

Lemma mergeAiRecommendation_twice
    (recommendation : AiRecommendation.t) (data : PartialAiRecommendation.t) :
  Storage.mergeAiRecommendation
    (Storage.mergeAiRecommendation recommendation data) data
  = Storage.mergeAiRecommendation recommendation data.
Proof.
  unfold Storage.mergeAiRecommendation.
  cbn [AiRecommendation.id AiRecommendation.simulationResultId
       AiRecommendation.title AiRecommendation.description
       AiRecommendation.improvementPercentage AiRecommendation.applied].
  now rewrite !spreadOver_twice.
Qed.

Lemma Map_set_twice {V : Type} (map : JsMap V) (key : Z) (v w : V) :
  Map_set (Map_set map key v) key w = Map_set map key w.
Proof.
  induction map as [|[k x] rest IH]; cbn [Map_set].
  - now rewrite Z.eqb_refl.
  - destruct (k =? key) eqn:E; cbn [Map_set]; rewrite E; [reflexivity|].
    now rewrite IH.
Qed.

(** X7. Updating a recommendation twice with the same data leaves the
    store as the first update left it, whether the recommendation exists
    or not. *)
Theorem updateAiRecommendation_twice
    (this : Storage.MemStorage) (id : intOrNaN)
    (data : PartialAiRecommendation.t) :
  perform (perform this (UpdateAiRecommendation id data))
          (UpdateAiRecommendation id data)
  = perform this (UpdateAiRecommendation id data).
Proof.
  cbn [perform].
  destruct (Storage.getAiRecommendation this id) as [recommendation|] eqn:E.
  - destruct id as [|key]; [discriminate|].
    unfold Storage.getAiRecommendation in E. cbn [Map_get] in E.
    rewrite (updateAiRecommendation_found _ _ _ _ E).
    rewrite (updateAiRecommendation_found _ _ _
               (Storage.mergeAiRecommendation recommendation data)).
    + store_fields. rewrite mergeAiRecommendation_twice, Map_set_twice.
      reflexivity.
    + store_fields. apply lookup_set_same.
  - rewrite (updateAiRecommendation_missing _ _ _ E).
    rewrite (updateAiRecommendation_missing _ _ _ E). reflexivity.
Qed.

(* ------------------------------------------------------------------ *)
(** * What each route does to the store *)

Section RouteOutcomes.
Variable unicodeLower : Z -> jsString.
Variable basename : jsString -> jsString -> jsString.
Variable numberToString : float -> jsString.

Lemma post_api_models_upload_outcome
    (file : option Routes.UploadedFile) (fields : Routes.UploadFields)
    (storage : Storage.MemStorage) :
  Routes.post_api_models_upload unicodeLower basename file fields storage
  = match file with
    | None => (storage, Routes.respond 400 (Routes.Message "No file uploaded"))
    | Some f =>
        match Server.analyzeSTL unicodeLower (Routes.content f) with
        | Throw error =>
            (storage, Routes.respond 400 (Routes.Message (exn_message error)))
        | Ok stlInfo =>
            let created :=
              Storage.createModel storage (uploadedModel basename f fields stlInfo) in
            (fst created, Routes.respond 201 (Routes.ModelJson (snd created)))
        end
    end.
Proof.
  unfold Routes.post_api_models_upload, Routes.tryCatch.
  destruct file as [f|]; [|reflexivity].
  unfold Routes.await, Routes.settled.
  destruct (Server.analyzeSTL unicodeLower (Routes.content f)); reflexivity.
Qed.

Lemma post_api_recommendations_id_apply_outcome
    (id : jsString) (storage : Storage.MemStorage) :
  Routes.post_api_recommendations_id_apply id storage
  = match Storage.getAiRecommendation storage (parseInt id) with
    | None =>
        (storage, Routes.respond 404 (Routes.Message "Recommendation not found"))
    | Some recommendation =>
        match Routes.nullable (Storage.getSimulationResult storage)
                (AiRecommendation.simulationResultId recommendation) with
        | None =>
            (storage,
             Routes.respond 404 (Routes.Message "Simulation result not found"))
        | Some simulationResult =>
            match Routes.nullable (Storage.getModel storage)
                    (SimulationResults.modelId simulationResult) with
            | None =>
                (storage, Routes.respond 404 (Routes.Message "Model not found"))
            | Some model =>
                let created :=
                  Storage.createModel storage
                    (optimizedCopy simulationResult model) in
                (perform (fst created)
                   (UpdateAiRecommendation (parseInt id) Routes.appliedTrue),
                 Routes.respond 200
                   (Routes.Applied "Recommendation applied" (snd created)))
            end
        end
    end.
Proof.
  unfold Routes.post_api_recommendations_id_apply, Routes.tryCatch,
    Routes.await, Routes.reading.
  destruct (Storage.getAiRecommendation storage (parseInt id))
    as [recommendation|] eqn:Er; [|reflexivity].
  destruct (Routes.nullable _ (AiRecommendation.simulationResultId _))
    as [simulationResult|]; [|reflexivity].
  destruct (Routes.nullable _ (SimulationResults.modelId _)) as [model|];
    [|reflexivity].
  unfold Routes.writing, Routes.writingOrThrowing, Routes.resolve.
  fold (optimizedCopy simulationResult model).
  destruct (Storage.createModel storage (optimizedCopy simulationResult model))
    as [storage' optimizedModel] eqn:Ec.
  cbn [perform fst snd].
  assert (Hr : Storage.getAiRecommendation storage' (parseInt id)
               = Some recommendation).
  { apply (f_equal fst) in Ec. cbn [fst] in Ec. subst storage'. exact Er. }
  destruct (parseInt id) as [|key]; [discriminate|].
  unfold Storage.getAiRecommendation in Hr. cbn [Map_get] in Hr.
  rewrite (updateAiRecommendation_found _ _ _ _ Hr). reflexivity.
Qed.


Lemma saveRecommendation_outcome
    (result_ : SimulationResults.t) (rec : json) (storage : Storage.MemStorage) :
  Routes.saveRecommendation result_ rec storage
  = if isNull rec then
      (storage,
       Throw (Error "Cannot read properties of null (reading 'title')"))
    else
      (perform storage
         (CreateAiRecommendation (insertOf (SimulationResults.id result_) rec)),
       Ok tt).
Proof. destruct rec; reflexivity. Qed.

Lemma forEach_saveRecommendation
    (result_ : SimulationResults.t) (recommendations : list json) :
  forall storage,
    Routes.forEach recommendations (Routes.saveRecommendation result_) storage
    = (fold_left perform
         (saveCalls (SimulationResults.id result_) recommendations) storage,
       if forallb (fun rec => negb (isNull rec)) recommendations then Ok tt
       else Throw (Error "Cannot read properties of null (reading 'title')")).
Proof.
  unfold saveCalls, beforeNull.
  induction recommendations as [|rec rest IH]; intros storage; [reflexivity|].
  cbn [Routes.forEach]. unfold Routes.await at 1.
  rewrite saveRecommendation_outcome.
  cbn [forallb takeWhile]. destruct (isNull rec); [reflexivity|].
  cbn [negb andb List.map fold_left]. apply IH.
Qed.

Lemma post_api_simulate_outcome
    (projectId modelId : option json)
    (simulation : result Routes.SimulationResult) (completion : result json)
    (now : jsString) (storage : Storage.MemStorage) :
  let pid := Routes.parseInt_json numberToString projectId in
  let mid := Routes.parseInt_json numberToString modelId in
  Routes.post_api_simulate numberToString projectId modelId simulation
    completion now storage
  = if negb (Routes.truthy projectId) || negb (Routes.truthy modelId) then
      (storage,
       Routes.respond 400
         (Routes.Message "Project ID and Model ID are required"))
    else
      match Storage.getProject storage pid, Storage.getModel storage mid,
            Storage.getSimulationSettingsByProject storage pid,
            Storage.getAnalysisOptionsByProject storage pid with
      | Some _, Some _, Some _, Some _ =>
          match simulation with
          | Throw error =>
              (storage, Routes.respond 500 (Routes.Message (exn_message error)))
          | Ok simulationResult =>
              let created :=
                Storage.createSimulationResults storage
                  (simulationInsert pid mid simulationResult) now in
              let id := SimulationResults.id (snd created) in
              match Storage.getAiOptimizationOptionsByProject (fst created) pid
              with
              | None =>
                  (fst created,
                   Routes.respond 200
                     (Routes.SimulationResultJson
                        (Storage.getSimulationResultWithRecommendations
                           (fst created) (Int id))))
              | Some _ =>
                  let recommendations := generateRecommendations completion in
                  let saved :=
                    fold_left perform (saveCalls id recommendations)
                              (fst created) in
                  if forallb (fun rec => negb (isNull rec)) recommendations then
                    (saved,
                     Routes.respond 200
                       (Routes.SimulationResultJson
                          (Storage.getSimulationResultWithRecommendations
                             saved (Int id))))
                  else
                    (saved,
                     Routes.respond 500
                       (Routes.Message
                          "Cannot read properties of null (reading 'title')"))
              end
          end
      | _, _, _, _ =>
          (storage, Routes.respond 404 (Routes.Message "Required data not found"))
      end.
Proof.
  intros pid mid. unfold Routes.post_api_simulate, Routes.tryCatch.
  destruct (negb (Routes.truthy projectId) || negb (Routes.truthy modelId));
    [reflexivity|].
  unfold Routes.await at 1 2 3 4. unfold Routes.reading at 1 2 3 4.
  fold pid mid.
  destruct (Storage.getProject storage pid); [|reflexivity].
  destruct (Storage.getModel storage mid); [|reflexivity].
  destruct (Storage.getSimulationSettingsByProject storage pid); [|reflexivity].
  destruct (Storage.getAnalysisOptionsByProject storage pid); [|reflexivity].
  unfold Routes.await at 1. unfold Routes.settled at 1.
  destruct simulation as [simulationResult|error]; [|reflexivity].
  unfold Routes.await at 1. unfold Routes.writing at 1.
  fold (simulationInsert pid mid simulationResult).
  destruct (Storage.createSimulationResults storage
              (simulationInsert pid mid simulationResult) now)
    as [storage1 result_].
  cbn [fst snd].
  unfold Routes.await at 1. unfold Routes.reading at 1.
  destruct (Storage.getAiOptimizationOptionsByProject storage1 pid);
    [|reflexivity].
  unfold Routes.await at 1. rewrite forEach_saveRecommendation.
  destruct (forallb _ (generateRecommendations completion)); reflexivity.
Qed.

End RouteOutcomes.

(* ------------------------------------------------------------------ *)
(** * References that stay resolved *)

Lemma Forall_Map_set {V : Type} (P : V -> Prop) (map : JsMap V) (key : Z)
    (value : V) :
  Forall P (Map_values map) -> P value ->
  Forall P (Map_values (Map_set map key value)).
Proof.
  intros H Hv. induction map as [|[k v] rest IH]; cbn [Map_set Map_values List.map snd].
  - constructor; [exact Hv | constructor].
  - unfold Map_values in H. cbn [List.map snd] in H. inversion H; subst.
    destruct (k =? key); cbn [Map_values List.map snd].
    + constructor; assumption.
    + constructor; [assumption|]. apply IH. assumption.
Qed.

Lemma lookup_values {V : Type} (map : JsMap V) (key : Z) (value : V) :
  lookup map key = Some value -> In value (Map_values map).
Proof.
  intros H. apply lookup_In in H. unfold Map_values.
  apply in_map_iff. exists (key, value). now split.
Qed.

Lemma new_MemStorage_linked (now : jsString) : linked (Storage.new_MemStorage now).
Proof. split; constructor. Qed.

Ltac unfold_creates :=
  unfold Storage.createUser, Storage.createProject, Storage.createModel,
    Storage.createSimulationResults, Storage.createSimulationSettings,
    Storage.createAnalysisOptions, Storage.createAiOptimizationOptions,
    Storage.createAiRecommendation.

Lemma perform_linked (this : Storage.MemStorage) (c : call) :
  linked this -> call_linked this c -> linked (perform this c).
Proof.
  intros [Hr Ha Hm] Hc.
  destruct c; cbn [perform call_linked] in *;
    try (unfold_creates; split; store_fields;
         solve [ assumption
               | eapply Forall_impl; [|eassumption]; cbn beta;
                 intros ? (p & m & ? & ? & ? & ?); exists p, m;
                 repeat split; solve [assumption | lia]
               | eapply Forall_impl; [|eassumption]; cbn beta;
                 intros ? (k & ? & ?); exists k; split; [assumption | lia] ]).
  - (* createModel *)
    unfold_creates; split; store_fields.
    + eapply Forall_impl; [|eassumption]. cbn beta.
      intros ? (p & m & ? & ? & ? & ?). exists p, m.
      repeat split; solve [assumption | lia].
    + assumption.
    + apply Forall_Map_set; [assumption|]. cbn [Model.isOptimized Model.originalModelId Model.id].
      exact Hc.
  - (* createSimulationResults *)
    unfold_creates; split; store_fields.
    + apply Forall_Map_set; [assumption|]. exact Hc.
    + eapply Forall_impl; [|eassumption]. cbn beta.
      intros ? (k & ? & ?). exists k. split; [assumption | lia].
    + assumption.
  - (* createAiRecommendation *)
    unfold_creates; split; store_fields.
    + assumption.
    + apply Forall_Map_set; [assumption|]. exact Hc.
    + assumption.
  - (* updateAiRecommendation *)
    unfold Storage.updateAiRecommendation.
    destruct id as [|key]; cbn [Map_get]; [now split|].
    destruct (lookup (Storage.aiRecommendations this) key) as [old|] eqn:E;
      [|now split].
    split; store_fields; try assumption.
    apply Forall_Map_set; [assumption|].
    unfold Storage.mergeAiRecommendation.
    cbn [AiRecommendation.simulationResultId]. rewrite Hc. cbn [spreadOver].
    rewrite Forall_forall in Ha. apply Ha, (lookup_values _ _ _ E).
Qed.

Lemma fold_perform_linked (calls : list call) :
  forall this,
    linked this -> calls_linked this calls ->
    linked (fold_left perform calls this).
Proof.
  induction calls as [|c calls IH]; intros this Hl Hc; [exact Hl|].
  destruct Hc as [Hc Hrest]. cbn [fold_left].
  apply IH; [apply perform_linked; assumption | exact Hrest].
Qed.

Lemma get_in_range {V : Type} (map : JsMap V) (current : Z) (id : intOrNaN)
    (value : V) :
  numbered map current -> Map_get map id = Some value ->
  exists k, id = Int k /\ 1 <= k < current.
Proof.
  intros Hn H. destruct id as [|k]; [discriminate|].
  exists k. split; [reflexivity|]. apply (numbered_get map current k Hn).
  congruence.
Qed.

Lemma nullable_get_in_range {V : Type} (map : JsMap V) (current : Z)
    (key : option intOrNaN) (value : V) :
  numbered map current -> Routes.nullable (Map_get map) key = Some value ->
  exists k, key = Some (Int k) /\ 1 <= k < current /\ lookup map k = Some value.
Proof.
  intros Hn H. destruct key as [id|]; [|discriminate]. cbn [Routes.nullable] in H.
  destruct (get_in_range _ _ _ _ Hn H) as (k & -> & Hk).
  exists k. repeat split; solve [lia | exact H].
Qed.

Lemma numbered_positive {V : Type} (map : JsMap V) (current : Z) :
  numbered map current -> 1 <= current.
Proof. intros [-> _]. lia. Qed.

Lemma saveCalls_results_counter (id : Z) (recommendations : list json) :
  forall this,
    Storage.currentSimulationResultsId
      (fold_left perform (saveCalls id recommendations) this)
    = Storage.currentSimulationResultsId this.
Proof.
  unfold saveCalls. induction (beforeNull recommendations) as [|rec rest IH];
    intros this; [reflexivity|].
  cbn [List.map fold_left]. rewrite IH. reflexivity.
Qed.

Lemma saveCalls_linked (id : Z) (recommendations : list json) :
  forall this,
    1 <= id < Storage.currentSimulationResultsId this ->
    calls_linked this (saveCalls id recommendations).
Proof.
  unfold saveCalls. induction (beforeNull recommendations) as [|rec rest IH];
    intros this H; [exact I|].
  cbn [List.map calls_linked]. split.
  - exists id. split; [reflexivity | exact H].
  - apply IH. exact H.
Qed.

Section ServerFacts.
Variable unicodeLower : Z -> jsString.
Variable basename : jsString -> jsString -> jsString.
Variable numberToString : float -> jsString.

(** Every route changes the store through calls of its methods only, and
    names in them records that exist. *)
Lemma serve_performs (storage : Storage.MemStorage) (r : request) :
  consistent storage ->
  exists calls,
    fst (serve unicodeLower basename numberToString storage r)
    = fold_left perform calls storage /\
    calls_linked storage calls.
Proof.
  intros Hc. destruct r; cbn [serve];
    try (exists []; split; [reflexivity | exact I]);
    try (exists []; split; [|exact I];
         unfold Routes.get_api_projects_id, Routes.get_api_models_id,
           Routes.get_api_simulation_results_id, Routes.tryCatch,
           Routes.await, Routes.reading;
         match goal with
         | |- context [match ?x with Some _ => _ | None => _ end] => destruct x
         end; reflexivity).
  - (* POST /api/projects *)
    destruct parsed as [projectData|error].
    + exists [CreateProject projectData now]. split; [reflexivity|]. now split.
    + exists []. now split.
  - (* POST /api/models/upload *)
    rewrite post_api_models_upload_outcome.
    destruct file as [f|]; [|exists []; now split].
    destruct (Server.analyzeSTL unicodeLower (Routes.content f)) as [stlInfo|error];
      [|exists []; now split].
    exists [CreateModel (uploadedModel basename f fields stlInfo)].
    split; [reflexivity|]. now split.
  - (* POST /api/simulation-settings *)
    destruct parsed as [settingsData|error].
    + exists [CreateSimulationSettings settingsData]. split; [reflexivity|].
      now split.
    + exists []. now split.
  - (* POST /api/analysis-options *)
    destruct parsed as [optionsData|error].
    + exists [CreateAnalysisOptions optionsData]. split; [reflexivity|].
      now split.
    + exists []. now split.
  - (* POST /api/ai-optimization-options *)
    destruct parsed as [optionsData|error].
    + exists [CreateAiOptimizationOptions optionsData]. split; [reflexivity|].
      now split.
    + exists []. now split.
  - (* POST /api/simulate *)
    rewrite post_api_simulate_outcome. cbv zeta.
    destruct (negb (Routes.truthy projectId) || negb (Routes.truthy modelId));
      [exists []; now split|].
    destruct (Storage.getProject storage _) as [project|] eqn:Ep;
      [|exists []; now split].
    destruct (Storage.getModel storage _) as [model|] eqn:Em;
      [|exists []; now split].
    destruct (Storage.getSimulationSettingsByProject storage _);
      [|exists []; now split].
    destruct (Storage.getAnalysisOptionsByProject storage _);
      [|exists []; now split].
    destruct simulation as [simulationResult|error]; [|exists []; now split].
    destruct (get_in_range _ _ _ _ (projects_numbered _ Hc) Ep) as (p & Hp & Hpr).
    destruct (get_in_range _ _ _ _ (models_numbered _ Hc) Em) as (m & Hm & Hmr).
    rewrite Hp, Hm in *.
    pose proof (numbered_positive _ _ (simulationResults_numbered _ Hc)) as Hpos.
    assert (Hfirst :
      call_linked storage
        (CreateSimulationResults (simulationInsert (Int p) (Int m) simulationResult)
                                 now)).
    { exists p, m. repeat split; solve [reflexivity | lia]. }
    destruct (Storage.getAiOptimizationOptionsByProject _ _).
    + set (recommendations := generateRecommendations completion).
      exists (CreateSimulationResults
                (simulationInsert (Int p) (Int m) simulationResult) now
              :: saveCalls (Storage.currentSimulationResultsId storage)
                           recommendations).
      split; [destruct (forallb _ recommendations); reflexivity|].
      split; [exact Hfirst|].
      apply saveCalls_linked. cbn. lia.
    + exists [CreateSimulationResults
                (simulationInsert (Int p) (Int m) simulationResult) now].
      split; [reflexivity|]. split; [exact Hfirst | exact I].
  - (* POST /api/recommendations/:id/apply *)
    rewrite post_api_recommendations_id_apply_outcome.
    destruct (Storage.getAiRecommendation storage (parseInt id));
      [|exists []; now split].
    destruct (Routes.nullable _ (AiRecommendation.simulationResultId _))
      as [simulationResult|]; [|exists []; now split].
    destruct (Routes.nullable _ (SimulationResults.modelId _)) as [model|] eqn:Em;
      [|exists []; now split].
    exists [CreateModel (optimizedCopy simulationResult model);
            UpdateAiRecommendation (parseInt id) Routes.appliedTrue].
    split; [reflexivity|].
    destruct (nullable_get_in_range _ _ _ _ (models_numbered _ Hc) Em)
      as (k & _ & Hk & Hl).
    pose proof (identified_lookup _ _ _ _ (models_identified _ Hc) Hl) as Hid.
    split; [|split; [reflexivity | exact I]].
    exists (Model.id model). split; [reflexivity | lia].
Qed.

Lemma served_invariant (now : jsString) (requests : list request) :
  let storage := served unicodeLower basename numberToString now requests in
  consistent storage /\ linked storage /\
  exists calls, storage = history now calls.
Proof.
  cbv zeta. unfold served.
  assert (H : consistent (Storage.new_MemStorage now) /\
              linked (Storage.new_MemStorage now) /\
              exists calls, Storage.new_MemStorage now = history now calls).
  { split; [apply new_MemStorage_consistent|].
    split; [apply new_MemStorage_linked|]. now exists []. }
  revert H. generalize (Storage.new_MemStorage now).
  induction requests as [|r requests IH]; intros storage H; [exact H|].
  cbn [fold_left]. apply IH. destruct H as (Hc & Hl & calls & Hh).
  destruct (serve_performs storage r Hc) as (more & Hs & Hm).
  rewrite Hs.
  split; [apply fold_perform_consistent, Hc|].
  split; [apply fold_perform_linked; assumption|].
  exists (calls ++ more). unfold history in *. now rewrite fold_left_app, <- Hh.
Qed.

End ServerFacts.

(* ------------------------------------------------------------------ *)
(** * The routes, as a client sees them *)

(** X8. The upload route, given the file that multer stored, answers 201
    exactly when the bytes are sniffed textual, or are at least 84 and
    hold every vertex of the declared facets (all of the declared records
    but the last two bytes); it then stores one model, under the next id,
    not optimized, with no original, with the path of the copy, and with
    the face and vertex counts of [analyzeSTL], the vertex count being the
    face count times 3.  Otherwise it answers 400 with the message of the
    analysis and stores nothing; with no file it answers 400 [No file
    uploaded] and stores nothing. *)
Theorem upload_stores_what_analyzeSTL_accepts
    (unicodeLower : Z -> jsString) (basename : jsString -> jsString -> jsString)
    (file : Routes.UploadedFile) (fields : Routes.UploadFields)
    (storage : Storage.MemStorage) :
  let buffer := Routes.content file in
  let outcome :=
    Routes.post_api_models_upload unicodeLower basename (Some file) fields
      storage in
  let missing :=
    Routes.post_api_models_upload unicodeLower basename None fields storage in
  (Routes.status (snd outcome) = 201 <->
   Server.isAsciiSTL unicodeLower buffer = true \/
   (84 <= byteLength buffer /\
    (le32 buffer 80 = 0 \/ 84 + le32 buffer 80 * 50 - 2 <= byteLength buffer))) /\
  match Server.analyzeSTL unicodeLower buffer with
  | Ok stlInfo =>
      exists model,
        snd outcome = Routes.respond 201 (Routes.ModelJson model) /\
        fst outcome = perform storage (CreateModel (uploadedModel basename file fields stlInfo)) /\
        Storage.getModel (fst outcome) (Int (Model.id model)) = Some model /\
        Model.id model = Storage.currentModelId storage /\
        Model.isOptimized model = Some false /\
        Model.originalModelId model = None /\
        Model.stlPath model = Routes.path file /\
        Model.projectId model = Some (parseInt_opt (Routes.projectId fields)) /\
        Model.faceCount model = Some (faceCount stlInfo) /\
        Model.vertexCount model = Some (faceCount stlInfo * 3)%float
  | Throw error =>
      outcome = (storage, Routes.respond 400 (Routes.Message (exn_message error)))
  end /\
  missing = (storage, Routes.respond 400 (Routes.Message "No file uploaded")).
Proof.
  cbv zeta. rewrite !post_api_models_upload_outcome.
  split; [|split; [|reflexivity]].
  - rewrite <- isValidSTL_exactly. unfold Server.isValidSTL.
    destruct (Server.analyzeSTL unicodeLower (Routes.content file));
      cbn [snd Routes.status Routes.respond]; split; intros H;
      solve [reflexivity | discriminate].
  - destruct (Server.analyzeSTL unicodeLower (Routes.content file))
      as [stlInfo|error] eqn:E; [|reflexivity].
    cbv zeta. eexists. split; [reflexivity|].
    split; [reflexivity|].
    split.
    { unfold Storage.getModel, Storage.createModel. store_fields.
      cbn [Model.id Map_get]. apply lookup_set_same. }
    repeat (split; [reflexivity|]).
    cbn [Storage.createModel snd Model.vertexCount uploadedModel
         InsertModel.vertexCount].
    destruct (analyzeSTL_shape _ _ _ E) as (vertices & _ & Hv & _).
    now rewrite Hv.
Qed.

(** X10. The route that applies a recommendation never answers 500.  It
    answers 404, and leaves the store as it is, when the recommendation,
    its simulation result or the model of that result is not found.
    Otherwise it answers 200 with a new model, stored under the next id: a
    copy of the model of the simulation result, named with the suffix
    [_optimized], marked optimized, with that model as its original and
    the project of the simulation result; and the recommendation is then
    stored with [applied] true and is otherwise as before. *)
Theorem apply_copies_the_model_and_marks_the_recommendation
    (id : jsString) (storage : Storage.MemStorage) :
  let outcome := Routes.post_api_recommendations_id_apply id storage in
  (Routes.status (snd outcome) = 200 \/
   Routes.status (snd outcome) = 404 /\ fst outcome = storage) /\
  (Routes.status (snd outcome) = 200 <->
   exists recommendation simulationResult model,
     Storage.getAiRecommendation storage (parseInt id) = Some recommendation /\
     Routes.nullable (Storage.getSimulationResult storage)
       (AiRecommendation.simulationResultId recommendation)
     = Some simulationResult /\
     Routes.nullable (Storage.getModel storage)
       (SimulationResults.modelId simulationResult) = Some model /\
     let optimizedModel :=
       {| Model.id := Storage.currentModelId storage;
          Model.projectId := SimulationResults.projectId simulationResult;
          Model.name := Model.name model ++ str "_optimized";
          Model.stlPath := Model.stlPath model;
          Model.vertexCount := Model.vertexCount model;
          Model.faceCount := Model.faceCount model;
          Model.isOptimized := Some true;
          Model.originalModelId := Some (Int (Model.id model)) |} in
     Routes.body (snd outcome)
     = Routes.Applied "Recommendation applied" optimizedModel /\
     Storage.getModel (fst outcome) (Int (Storage.currentModelId storage))
     = Some optimizedModel /\
     Storage.getAiRecommendation (fst outcome) (parseInt id)
     = Some {| AiRecommendation.id := AiRecommendation.id recommendation;
               AiRecommendation.simulationResultId :=
                 AiRecommendation.simulationResultId recommendation;
               AiRecommendation.title := AiRecommendation.title recommendation;
               AiRecommendation.description :=
                 AiRecommendation.description recommendation;
               AiRecommendation.improvementPercentage :=
                 AiRecommendation.improvementPercentage recommendation;
               AiRecommendation.applied := Some true |}).
Proof.
  cbv zeta. rewrite post_api_recommendations_id_apply_outcome.
  destruct (Storage.getAiRecommendation storage (parseInt id))
    as [recommendation|] eqn:Er.
  2:{ split; [right; now split|].
      split; [discriminate | intros (? & ? & ? & ? & _); discriminate]. }
  destruct (Routes.nullable _ (AiRecommendation.simulationResultId _))
    as [simulationResult|] eqn:Es.
  2:{ split; [right; now split|].
      split; [discriminate|]. intros (r & ? & ? & Hr & Hs & _).
      injection Hr as <-. rewrite Es in Hs. discriminate. }
  destruct (Routes.nullable _ (SimulationResults.modelId _)) as [model|] eqn:Em.
  2:{ split; [right; now split|].
      split; [discriminate|]. intros (r & sr & ? & Hr & Hs & Hm & _).
      injection Hr as <-. rewrite Es in Hs. injection Hs as <-.
      rewrite Em in Hm. discriminate. }
  split; [now left|]. split; [intros _|reflexivity].
  exists recommendation, simulationResult, model.
  split; [reflexivity|]. split; [exact Es|]. split; [exact Em|].
  destruct (parseInt id) as [|key]; [discriminate|].
  unfold Storage.getAiRecommendation in Er. cbn [Map_get] in Er.
  cbv zeta. cbn [fst snd perform].
  rewrite (updateAiRecommendation_found _ _ _ recommendation) by exact Er.
  split; [reflexivity|]. split.
  - unfold Storage.getModel, Storage.createModel. store_fields.
    cbn [Map_get]. apply lookup_set_same.
  - unfold Storage.getAiRecommendation. store_fields. cbn [Map_get].
    rewrite lookup_set_same. reflexivity.
Qed.

Lemma numbered_found {V : Type} (map : JsMap V) (current k : Z) :
  numbered map current -> 1 <= k < current -> exists value, lookup map k = Some value.
Proof.
  intros Hn Hk. apply (numbered_lookup _ _ k Hn) in Hk.
  destruct (lookup map k) as [value|]; [now exists value | congruence].
Qed.

Lemma linked_recommendation (this : Storage.MemStorage) (key : Z)
    (rec : AiRecommendation.t) :
  consistent this -> linked this ->
  lookup (Storage.aiRecommendations this) key = Some rec ->
  exists k simulationResult,
    AiRecommendation.simulationResultId rec = Some (Int k) /\
    lookup (Storage.simulationResults this) k = Some simulationResult.
Proof.
  intros Hc Hl H. apply lookup_values in H.
  pose proof (aiRecommendations_linked _ Hl) as Ha.
  rewrite Forall_forall in Ha. destruct (Ha _ H) as (k & Hk & Hr).
  destruct (numbered_found _ _ _ (simulationResults_numbered _ Hc) Hr)
    as [simulationResult Hs].
  now exists k, simulationResult.
Qed.

Lemma linked_simulationResult (this : Storage.MemStorage) (key : Z)
    (results : SimulationResults.t) :
  consistent this -> linked this ->
  lookup (Storage.simulationResults this) key = Some results ->
  exists p project m model,
    SimulationResults.projectId results = Some (Int p) /\
    lookup (Storage.projects this) p = Some project /\
    SimulationResults.modelId results = Some (Int m) /\
    lookup (Storage.models this) m = Some model.
Proof.
  intros Hc Hl H. apply lookup_values in H.
  pose proof (simulationResults_linked _ Hl) as Ha.
  rewrite Forall_forall in Ha. destruct (Ha _ H) as (p & m & Hp & Hpr & Hm & Hmr).
  destruct (numbered_found _ _ _ (projects_numbered _ Hc) Hpr) as [project Hpl].
  destruct (numbered_found _ _ _ (models_numbered _ Hc) Hmr) as [model Hml].
  now exists p, project, m, model.
Qed.

Lemma linked_model (this : Storage.MemStorage) (key : Z) (model : Model.t) :
  consistent this -> linked this ->
  lookup (Storage.models this) key = Some model ->
  match Model.isOptimized model with
  | Some true =>
      exists o original,
        Model.originalModelId model = Some (Int o) /\ 1 <= o < key /\
        lookup (Storage.models this) o = Some original
  | _ => Model.originalModelId model = None
  end.
Proof.
  intros Hc Hl H.
  pose proof (identified_lookup _ _ _ _ (models_identified _ Hc) H) as Hid.
  pose proof (proj1 (numbered_lookup _ _ key (models_numbered _ Hc))) as Hrange.
  rewrite H in Hrange. specialize (Hrange ltac:(discriminate)).
  apply lookup_values in H.
  pose proof (models_linked _ Hl) as Ha.
  rewrite Forall_forall in Ha. specialize (Ha _ H).
  destruct (Model.isOptimized model) as [[|]|]; try exact Ha.
  destruct Ha as (o & Ho & Hor).
  destruct (numbered_found _ _ o (models_numbered _ Hc)) as [original Hol]; [lia|].
  exists o, original. repeat split; solve [assumption | lia].
Qed.

(** X12. After any requests to the routes, every simulation result in the
    store names a project and a model that the store holds, every
    recommendation a simulation result that the store holds, and every
    optimized model an original that the store holds and that has a
    smaller id; a model that is not optimized names no original. *)
Theorem stored_references_resolve
    (unicodeLower : Z -> jsString) (basename : jsString -> jsString -> jsString)
    (numberToString : float -> jsString)
    (now : jsString) (requests : list request) (k : Z) :
  let storage := served unicodeLower basename numberToString now requests in
  (forall results,
     Storage.getSimulationResult storage (Int k) = Some results ->
     Routes.nullable (Storage.getProject storage)
       (SimulationResults.projectId results) <> None /\
     Routes.nullable (Storage.getModel storage)
       (SimulationResults.modelId results) <> None) /\
  (forall rec,
     Storage.getAiRecommendation storage (Int k) = Some rec ->
     Routes.nullable (Storage.getSimulationResult storage)
       (AiRecommendation.simulationResultId rec) <> None) /\
  (forall model,
     Storage.getModel storage (Int k) = Some model ->
     match Model.isOptimized model with
     | Some true =>
         exists o original,
           Model.originalModelId model = Some (Int o) /\ 1 <= o < k /\
           Storage.getModel storage (Int o) = Some original
     | _ => Model.originalModelId model = None
     end).
Proof.
  cbv zeta.
  destruct (served_invariant unicodeLower basename numberToString now requests)
    as (Hc & Hl & _).
  revert Hc Hl.
  generalize (served unicodeLower basename numberToString now requests).
  intros storage Hc Hl. split; [|split].
  - intros results H.
    destruct (linked_simulationResult _ _ _ Hc Hl H)
      as (p & project & m & model & -> & Hp & -> & Hm).
    cbn [Routes.nullable]. unfold Storage.getProject, Storage.getModel.
    cbn [Map_get]. rewrite Hp, Hm. split; discriminate.
  - intros rec H.
    destruct (linked_recommendation _ _ _ Hc Hl H) as (r & results & -> & Hr).
    cbn [Routes.nullable]. unfold Storage.getSimulationResult.
    cbn [Map_get]. rewrite Hr. discriminate.
  - intros model H. exact (linked_model _ _ _ Hc Hl H).
Qed.

Lemma apply_found (this : Storage.MemStorage) (id : jsString)
    (recommendation : AiRecommendation.t) :
  consistent this -> linked this ->
  Storage.getAiRecommendation this (parseInt id) = Some recommendation ->
  exists simulationResult model,
    Routes.post_api_recommendations_id_apply id this
    = (perform (fst (Storage.createModel this
                       (optimizedCopy simulationResult model)))
         (UpdateAiRecommendation (parseInt id) Routes.appliedTrue),
       Routes.respond 200
         (Routes.Applied "Recommendation applied"
            (snd (Storage.createModel this
                    (optimizedCopy simulationResult model))))).
Proof.
  intros Hc Hl Hr. rewrite post_api_recommendations_id_apply_outcome, Hr.
  destruct (parseInt id) as [|key]; [discriminate|].
  destruct (linked_recommendation _ _ _ Hc Hl Hr) as (k & simulationResult & -> & Hs).
  cbn [Routes.nullable]. unfold Storage.getSimulationResult at 1.
  cbn [Map_get]. rewrite Hs.
  destruct (linked_simulationResult _ _ _ Hc Hl Hs)
    as (_ & _ & m & model & _ & _ & -> & Hm).
  cbn [Routes.nullable]. unfold Storage.getModel at 1. cbn [Map_get]. rewrite Hm.
  now exists simulationResult, model.
Qed.

Lemma update_keeps_currentModelId (this : Storage.MemStorage) (id : intOrNaN)
    (data : PartialAiRecommendation.t) :
  Storage.currentModelId (perform this (UpdateAiRecommendation id data))
  = Storage.currentModelId this.
Proof.
  cbn [perform]. unfold Storage.updateAiRecommendation.
  destruct (Map_get _ id); [|reflexivity]. destruct id; reflexivity.
Qed.

Lemma createModel_currentModelId (this : Storage.MemStorage)
    (insertModel : InsertModel.t) :
  Storage.currentModelId (fst (Storage.createModel this insertModel))
  = Storage.currentModelId this + 1.
Proof. reflexivity. Qed.

Lemma served_snoc
    (unicodeLower : Z -> jsString) (basename : jsString -> jsString -> jsString)
    (numberToString : float -> jsString)
    (now : jsString) (requests : list request) (r : request) :
  served unicodeLower basename numberToString now (requests ++ [r])
  = fst (serve unicodeLower basename numberToString
           (served unicodeLower basename numberToString now requests) r).
Proof. unfold served. now rewrite fold_left_app. Qed.

(** X11. After any requests to the routes, applying a recommendation
    answers 200 exactly when the recommendation exists: its simulation
    result and model are always found.  Nothing looks at [applied]:
    sending the same request again gets the same status, and a
    recommendation that exists is applied each time, which makes a new
    model each time. *)
Theorem apply_succeeds_each_time
    (unicodeLower : Z -> jsString) (basename : jsString -> jsString -> jsString)
    (numberToString : float -> jsString)
    (now : jsString) (requests : list request) (id : jsString) :
  let storage := served unicodeLower basename numberToString now requests in
  let first := Routes.post_api_recommendations_id_apply id storage in
  let second := Routes.post_api_recommendations_id_apply id (fst first) in
  (Routes.status (snd first) = 200 <->
   Storage.getAiRecommendation storage (parseInt id) <> None) /\
  Routes.status (snd second) = Routes.status (snd first) /\
  Storage.currentModelId (fst second)
  = Storage.currentModelId storage
    + (if Routes.status (snd first) =? 200 then 2 else 0).
Proof.
  cbv zeta.
  destruct (served_invariant unicodeLower basename numberToString now
              (requests ++ [POST_recommendations_id_apply id]))
    as (Hc' & Hl' & _).
  rewrite served_snoc in Hc', Hl'. cbn [serve] in Hc', Hl'.
  destruct (served_invariant unicodeLower basename numberToString now requests)
    as (Hc & Hl & _).
  revert Hc Hl Hc' Hl'.
  generalize (served unicodeLower basename numberToString now requests).
  intros storage Hc Hl Hc' Hl'.
  destruct (Storage.getAiRecommendation storage (parseInt id))
    as [recommendation|] eqn:Er.
  - destruct (apply_found _ _ _ Hc Hl Er) as (simulationResult & model & H1).
    rewrite H1 in *. cbn [fst snd Routes.status Routes.respond] in *.
    assert (Hr' : exists marked,
               Storage.getAiRecommendation
                 (perform (fst (Storage.createModel storage
                                  (optimizedCopy simulationResult model)))
                    (UpdateAiRecommendation (parseInt id) Routes.appliedTrue))
                 (parseInt id) = Some marked).
    { destruct (parseInt id) as [|key]; [discriminate|].
      unfold Storage.getAiRecommendation in Er. cbn [Map_get] in Er.
      cbn [perform].
      rewrite (updateAiRecommendation_found _ _ _ recommendation) by exact Er.
      eexists. unfold Storage.getAiRecommendation. store_fields.
      cbn [Map_get]. apply lookup_set_same. }
    destruct Hr' as [marked Hr'].
    destruct (apply_found _ _ _ Hc' Hl' Hr') as (simulationResult' & model' & H2).
    rewrite H2. cbn [fst snd Routes.status Routes.respond].
    split; [split; [discriminate | reflexivity]|].
    split; [reflexivity|].
    repeat rewrite ?update_keeps_currentModelId, ?createModel_currentModelId.
    cbn [Z.eqb Pos.eqb]. lia.
  - rewrite post_api_recommendations_id_apply_outcome, Er.
    cbn [fst snd Routes.status Routes.respond].
    rewrite post_api_recommendations_id_apply_outcome, Er.
    cbn [fst snd Routes.status Routes.respond Z.eqb Pos.eqb].
    split; [split; [discriminate | congruence]|].
    split; [reflexivity | lia].
Qed.

(* ------------------------------------------------------------------ *)
(** * The simulation route *)

Lemma beforeNull_all (recommendations : list json) :
  forallb (fun rec => negb (isNull rec)) recommendations = true ->
  beforeNull recommendations = recommendations.
Proof.
  unfold beforeNull. induction recommendations as [|rec rest IH]; [reflexivity|].
  cbn [forallb takeWhile]. destruct (negb (isNull rec)); [|discriminate].
  cbn [andb]. intros H. now rewrite IH.
Qed.

Lemma forallb_isNull (recommendations : list json) :
  forallb (fun rec => negb (isNull rec)) recommendations = false ->
  In JNull recommendations.
Proof.
  induction recommendations as [|rec rest IH]; [discriminate|].
  cbn [forallb In]. destruct rec; cbn [isNull negb andb]; auto.
Qed.

(** What a run of [createAiRecommendation] leaves. *)
Lemma creates_outcome (inserts : list InsertAiRecommendation.t) :
  forall this,
    numbered (Storage.aiRecommendations this)
             (Storage.currentAiRecommendationsId this) ->
    let after := fold_left perform (List.map CreateAiRecommendation inserts) this in
    Map_values (Storage.aiRecommendations after)
    = Map_values (Storage.aiRecommendations this)
      ++ numberedFrom (Storage.currentAiRecommendationsId this) inserts /\
    Storage.currentAiRecommendationsId after
    = Storage.currentAiRecommendationsId this + Z.of_nat (length inserts) /\
    Storage.simulationResults after = Storage.simulationResults this.
Proof.
  induction inserts as [|insertRecommendation rest IH]; intros this Hn.
  - cbn. rewrite app_nil_r. repeat split. lia.
  - cbn [List.map fold_left numberedFrom length].
    pose proof (numbered_set_fresh _ _
                  (recommendationOf (Storage.currentAiRecommendationsId this)
                                    insertRecommendation) Hn) as Hn'.
    specialize (IH (perform this (CreateAiRecommendation insertRecommendation))).
    cbv zeta in IH. cbn [perform] in *.
    unfold Storage.createAiRecommendation in *. store_fields.
    fold (recommendationOf (Storage.currentAiRecommendationsId this)
                           insertRecommendation) in *.
    destruct (IH Hn') as (Hv & Hid & Hr). cbv zeta.
    rewrite Hv, Hid, Hr. rewrite (numbered_create _ _ _ Hn).
    rewrite Map_values_app, <- app_assoc. repeat split. lia.
Qed.

Lemma creates_without_numbering (calls : list InsertAiRecommendation.t) :
  forall this,
    let after := fold_left perform (List.map CreateAiRecommendation calls) this in
    Storage.currentAiRecommendationsId after
    = Storage.currentAiRecommendationsId this + Z.of_nat (length calls) /\
    Storage.simulationResults after = Storage.simulationResults this.
Proof.
  induction calls as [|c rest IH]; intros this.
  - cbn. split; [lia | reflexivity].
  - cbn [List.map fold_left length]. cbv zeta.
    destruct (IH (perform this (CreateAiRecommendation c))) as [Hid Hr].
    rewrite Hid, Hr. cbn [perform]. unfold Storage.createAiRecommendation.
    store_fields. split; [lia | reflexivity].
Qed.

Lemma saveCalls_inserts (id : Z) (recommendations : list json) :
  saveCalls id recommendations
  = List.map CreateAiRecommendation
      (List.map (insertOf id) (beforeNull recommendations)).
Proof. unfold saveCalls. now rewrite map_map. Qed.

Lemma filter_numberedFrom_same (k : Z) (recommendations : list json) :
  forall id,
    filter (fun rec => nullable_eqb (AiRecommendation.simulationResultId rec) (Int k))
           (numberedFrom id (List.map (insertOf k) recommendations))
    = numberedFrom id (List.map (insertOf k) recommendations).
Proof.
  induction recommendations as [|rec rest IH]; intros id; [reflexivity|].
  cbn [List.map numberedFrom filter recommendationOf insertOf
       AiRecommendation.simulationResultId
       InsertAiRecommendation.simulationResultId nullable_eqb intOrNaN_eqb].
  rewrite Z.eqb_refl. f_equal. apply IH.
Qed.

Lemma filter_linked_earlier (this : Storage.MemStorage) :
  linked this ->
  filter (fun rec =>
            nullable_eqb (AiRecommendation.simulationResultId rec)
                         (Int (Storage.currentSimulationResultsId this)))
         (Map_values (Storage.aiRecommendations this)) = [].
Proof.
  intros Hl. pose proof (aiRecommendations_linked _ Hl) as Ha.
  induction Ha as [|rec rest (k & Hk & Hr) _ IH]; [reflexivity|].
  cbn [filter]. rewrite Hk. cbn [nullable_eqb intOrNaN_eqb].
  destruct (k =? Storage.currentSimulationResultsId this) eqn:E; [lia | exact IH].
Qed.

Lemma createSimulationResults_outcome (this : Storage.MemStorage)
    (insertResults : InsertSimulationResults.t) (now : jsString) :
  let created := Storage.createSimulationResults this insertResults now in
  let id := Storage.currentSimulationResultsId this in
  snd created = resultsOf id insertResults now /\
  Storage.simulationResults (fst created)
  = Map_set (Storage.simulationResults this) id (resultsOf id insertResults now) /\
  Storage.aiRecommendations (fst created) = Storage.aiRecommendations this /\
  Storage.currentAiRecommendationsId (fst created)
  = Storage.currentAiRecommendationsId this /\
  Storage.aiOptimizationOptions (fst created)
  = Storage.aiOptimizationOptions this.
Proof. cbv zeta. repeat split. Qed.

Lemma getSimulationResultWithRecommendations_found (this : Storage.MemStorage)
    (id : Z) (results : SimulationResults.t) :
  lookup (Storage.simulationResults this) id = Some results ->
  Storage.getSimulationResultWithRecommendations this (Int id)
  = Some {| Storage.result_ := results;
            Storage.recommendations :=
              Storage.getAiRecommendationsBySimulationResult this (Int id) |}.
Proof.
  intros H. unfold Storage.getSimulationResultWithRecommendations.
  cbn [Map_get]. now rewrite H.
Qed.

Section SimulationRoute.
Variable unicodeLower : Z -> jsString.
Variable basename : jsString -> jsString -> jsString.
Variable numberToString : float -> jsString.

(** What the route leaves and answers once the simulation has run, in a
    store whose references are resolved. *)
Lemma simulate_saved (storage : Storage.MemStorage)
    (insertResults : InsertSimulationResults.t) (now : jsString)
    (recommendations : list json) :
  consistent storage -> linked storage ->
  let id := Storage.currentSimulationResultsId storage in
  let created := Storage.createSimulationResults storage insertResults now in
  let saved :=
    fold_left perform
      (List.map CreateAiRecommendation (List.map (insertOf id) recommendations))
      (fst created) in
  lookup (Storage.simulationResults saved) id
  = Some (resultsOf id insertResults now) /\
  Storage.getAiRecommendationsBySimulationResult saved (Int id)
  = numberedFrom (Storage.currentAiRecommendationsId storage)
                 (List.map (insertOf id) recommendations).
Proof.
  intros Hc Hl. cbv zeta.
  destruct (createSimulationResults_outcome storage insertResults now)
    as (_ & Hr & Ha & Hi & _).
  cbv zeta in Hr, Ha, Hi.
  set (created := Storage.createSimulationResults storage insertResults now) in *.
  destruct (creates_outcome
              (List.map (insertOf (Storage.currentSimulationResultsId storage))
                        recommendations) (fst created)) as (Hv & _ & Hs).
  { rewrite Ha, Hi. apply Hc. }
  cbv zeta in Hv, Hs. split.
  - rewrite Hs, Hr. apply lookup_set_same.
  - unfold Storage.getAiRecommendationsBySimulationResult.
    rewrite Hv, filter_app, Ha, Hi, filter_linked_earlier by assumption.
    apply filter_numberedFrom_same.
Qed.

(** X13. After any requests to the routes, a simulation request that is
    answered 200 has run the simulation and stored its values, with the
    project and model ids of the request and the time of saving, under
    the next id of the simulation results; the project and the model
    exist.  The answer carries that record and its recommendations, which
    are the ones just stored: none when the project has no optimization
    options, and otherwise one for each element that
    [generateRecommendations] gave, in order, under consecutive ids, not
    applied, with the element's title, description and improvement. *)
Theorem simulate_answers_with_what_it_stored
    (now0 : jsString) (requests : list request)
    (projectId modelId : option json)
    (simulation : result Routes.SimulationResult) (completion : result json)
    (now : jsString)
    (Hok : Routes.status
             (snd (Routes.post_api_simulate numberToString projectId modelId
                     simulation completion now
                     (served unicodeLower basename numberToString now0
                             requests))) = 200) :
  let storage := served unicodeLower basename numberToString now0 requests in
  let outcome :=
    Routes.post_api_simulate numberToString projectId modelId simulation
      completion now storage in
  let pid := Routes.parseInt_json numberToString projectId in
  let mid := Routes.parseInt_json numberToString modelId in
  let id := Storage.currentSimulationResultsId storage in
  exists simulationResult,
    simulation = Ok simulationResult /\
    let results := resultsOf id (simulationInsert pid mid simulationResult) now in
    let recommendations :=
      match Storage.getAiOptimizationOptionsByProject storage pid with
      | Some _ =>
          numberedFrom (Storage.currentAiRecommendationsId storage)
            (List.map (insertOf id) (generateRecommendations completion))
      | None => []
      end in
    Routes.body (snd outcome)
    = Routes.SimulationResultJson
        (Some {| Storage.result_ := results;
                 Storage.recommendations := recommendations |}) /\
    Storage.getSimulationResult (fst outcome) (Int id) = Some results /\
    Storage.getAiRecommendationsBySimulationResult (fst outcome) (Int id)
    = recommendations /\
    Storage.getProject storage pid <> None /\
    Storage.getModel storage mid <> None.
Proof.
  cbv zeta.
  destruct (served_invariant unicodeLower basename numberToString now0 requests)
    as (Hc & Hl & _).
  revert Hc Hl Hok.
  generalize (served unicodeLower basename numberToString now0 requests).
  intros storage Hc Hl. rewrite post_api_simulate_outcome. cbv zeta.
  destruct (negb (Routes.truthy projectId) || negb (Routes.truthy modelId));
    [discriminate|].
  set (pid := Routes.parseInt_json numberToString projectId).
  set (mid := Routes.parseInt_json numberToString modelId).
  destruct (Storage.getProject storage pid); [|discriminate].
  destruct (Storage.getModel storage mid); [|discriminate].
  destruct (Storage.getSimulationSettingsByProject storage pid); [|discriminate].
  destruct (Storage.getAnalysisOptionsByProject storage pid); [|discriminate].
  destruct simulation as [simulationResult|error]; [|discriminate].
  intros Hok. exists simulationResult. split; [reflexivity|].
  revert Hok.
  change (Storage.getAiOptimizationOptionsByProject
            (fst (Storage.createSimulationResults storage
                    (simulationInsert pid mid simulationResult) now)) pid)
    with (Storage.getAiOptimizationOptionsByProject storage pid).
  change (SimulationResults.id
            (snd (Storage.createSimulationResults storage
                    (simulationInsert pid mid simulationResult) now)))
    with (Storage.currentSimulationResultsId storage).
  destruct (Storage.getAiOptimizationOptionsByProject storage pid).
  - destruct (forallb _ (generateRecommendations completion)) eqn:Hall;
      [intros _ | discriminate].
    cbn [fst snd Routes.body Routes.respond].
    rewrite saveCalls_inserts, (beforeNull_all _ Hall).
    destruct (simulate_saved storage (simulationInsert pid mid simulationResult)
                now (generateRecommendations completion) Hc Hl) as [Hr Ha].
    cbv zeta in Hr, Ha.
    rewrite (getSimulationResultWithRecommendations_found _ _ _ Hr), Ha.
    unfold Storage.getSimulationResult. cbn [Map_get]. rewrite Hr.
    repeat split; discriminate.
  - intros _. cbn [fst snd Routes.body Routes.respond].
    destruct (simulate_saved storage (simulationInsert pid mid simulationResult)
                now [] Hc Hl) as [Hr Ha].
    cbv zeta in Hr, Ha. cbn [List.map fold_left numberedFrom] in Hr, Ha.
    rewrite (getSimulationResultWithRecommendations_found _ _ _ Hr), Ha.
    unfold Storage.getSimulationResult. cbn [Map_get]. rewrite Hr.
    repeat split; discriminate.
Qed.

End SimulationRoute.

Lemma simulate_answers_with_what_it_stored_witness :
  let storage := sample_storage in
  let completion := Throw (Error "Connection error.") in
  let now := str "2024-01-01T00:00:01.000Z" in
  let outcome :=
    Routes.post_api_simulate sample_numberToString
      (Some (JString (str "1"))) (Some (JNumber 1)) (Ok sample_simulation)
      completion now storage in
  let pid :=
    Routes.parseInt_json sample_numberToString (Some (JString (str "1"))) in
  let mid := Routes.parseInt_json sample_numberToString (Some (JNumber 1)) in
  let id := Storage.currentSimulationResultsId storage in
  exists simulationResult,
    Ok sample_simulation = Ok simulationResult /\
    let results := resultsOf id (simulationInsert pid mid simulationResult) now in
    let recommendations :=
      match Storage.getAiOptimizationOptionsByProject storage pid with
      | Some _ =>
          numberedFrom (Storage.currentAiRecommendationsId storage)
            (List.map (insertOf id) (generateRecommendations completion))
      | None => []
      end in
    Routes.body (snd outcome)
    = Routes.SimulationResultJson
        (Some {| Storage.result_ := results;
                 Storage.recommendations := recommendations |}) /\
    Storage.getSimulationResult (fst outcome) (Int id) = Some results /\
    Storage.getAiRecommendationsBySimulationResult (fst outcome) (Int id)
    = recommendations /\
    Storage.getProject storage pid <> None /\
    Storage.getModel storage mid <> None.
Proof.
  apply (simulate_answers_with_what_it_stored keepCodePoint sample_basename
           sample_numberToString (str "2024-01-01T00:00:00.000Z")
           sample_requests).
  vm_compute. reflexivity.
Defined.

(** A run of [createAiRecommendation] leaves the recommendations under
    the earlier ids as they are, and the one it makes for element [j] is
    found under the counter plus [j]. *)
Lemma creates_keep_earlier (inserts : list InsertAiRecommendation.t) :
  forall (this : Storage.MemStorage) (k : Z),
    k < Storage.currentAiRecommendationsId this ->
    lookup (Storage.aiRecommendations
              (fold_left perform (List.map CreateAiRecommendation inserts) this))
           k
    = lookup (Storage.aiRecommendations this) k.
Proof.
  induction inserts as [|insertRecommendation rest IH]; intros this k Hk;
    [reflexivity|].
  cbn [List.map fold_left]. rewrite IH.
  - cbn [perform]. unfold Storage.createAiRecommendation. store_fields.
    apply lookup_set_other. lia.
  - cbn [perform]. unfold Storage.createAiRecommendation. store_fields. lia.
Qed.

Lemma creates_found (inserts : list InsertAiRecommendation.t) :
  forall (this : Storage.MemStorage) (j : nat)
         (insertRecommendation : InsertAiRecommendation.t),
    nth_error inserts j = Some insertRecommendation ->
    lookup (Storage.aiRecommendations
              (fold_left perform (List.map CreateAiRecommendation inserts) this))
           (Storage.currentAiRecommendationsId this + Z.of_nat j)
    = Some (recommendationOf
              (Storage.currentAiRecommendationsId this + Z.of_nat j)
              insertRecommendation).
Proof.
  induction inserts as [|first rest IH]; intros this j insertRecommendation H.
  - destruct j; discriminate.
  - cbn [List.map fold_left]. destruct j as [|j]; cbn [nth_error] in H.
    + injection H as <-. rewrite creates_keep_earlier.
      * cbn [perform]. unfold Storage.createAiRecommendation. store_fields.
        replace (Storage.currentAiRecommendationsId this + Z.of_nat 0)
          with (Storage.currentAiRecommendationsId this) by lia.
        apply lookup_set_same.
      * cbn [perform]. unfold Storage.createAiRecommendation. store_fields. lia.
    + specialize (IH (perform this (CreateAiRecommendation first)) j
                     insertRecommendation H).
      replace (Storage.currentAiRecommendationsId this + Z.of_nat (S j))
        with (Storage.currentAiRecommendationsId
                (perform this (CreateAiRecommendation first)) + Z.of_nat j).
      * exact IH.
      * cbn [perform]. unfold Storage.createAiRecommendation. store_fields. lia.
Qed.

(** X14. The simulation route does not undo what it has saved when it
    fails afterwards.  If the simulation has run and the answer is 500,
    then [generateRecommendations] gave an array with a [null] in it, the
    message is that of reading [title] of [null], and the store holds the
    new simulation result and one recommendation for each element in front
    of the first [null]: [getAiRecommendation] finds the recommendation made
    for element [j] under the earlier counter plus [j], not applied, with
    the new simulation result as its [simulationResultId], and the counter
    has advanced by the number of these elements. *)
Theorem simulate_failure_keeps_what_was_saved
    (numberToString : float -> jsString)
    (projectId modelId : option json)
    (simulationResult : Routes.SimulationResult) (completion : result json)
    (now : jsString) (storage : Storage.MemStorage)
    (Hfailed : Routes.status
                 (snd (Routes.post_api_simulate numberToString projectId
                         modelId (Ok simulationResult) completion now storage))
               = 500) :
  let outcome :=
    Routes.post_api_simulate numberToString projectId modelId
      (Ok simulationResult) completion now storage in
  let pid := Routes.parseInt_json numberToString projectId in
  let mid := Routes.parseInt_json numberToString modelId in
  let id := Storage.currentSimulationResultsId storage in
  let saved := beforeNull (generateRecommendations completion) in
  Routes.body (snd outcome)
  = Routes.Message "Cannot read properties of null (reading 'title')" /\
  In JNull (generateRecommendations completion) /\
  Storage.getSimulationResult (fst outcome) (Int id)
  = Some (resultsOf id (simulationInsert pid mid simulationResult) now) /\
  (forall (j : nat) (rec : json),
     nth_error saved j = Some rec ->
     Storage.getAiRecommendation (fst outcome)
       (Int (Storage.currentAiRecommendationsId storage + Z.of_nat j))
     = Some (recommendationOf
               (Storage.currentAiRecommendationsId storage + Z.of_nat j)
               (insertOf id rec))) /\
  Storage.currentAiRecommendationsId (fst outcome)
  = Storage.currentAiRecommendationsId storage + Z.of_nat (length saved).
Proof.
  cbv zeta. revert Hfailed. rewrite post_api_simulate_outcome. cbv zeta.
  destruct (negb (Routes.truthy projectId) || negb (Routes.truthy modelId));
    [discriminate|].
  set (pid := Routes.parseInt_json numberToString projectId).
  set (mid := Routes.parseInt_json numberToString modelId).
  destruct (Storage.getProject storage pid); [|discriminate].
  destruct (Storage.getModel storage mid); [|discriminate].
  destruct (Storage.getSimulationSettingsByProject storage pid); [|discriminate].
  destruct (Storage.getAnalysisOptionsByProject storage pid); [|discriminate].
  destruct (Storage.getAiOptimizationOptionsByProject _ pid); [|discriminate].
  destruct (forallb _ (generateRecommendations completion)) eqn:Hall;
    [discriminate|].
  intros _. cbn [fst snd Routes.body Routes.respond].
  split; [reflexivity|]. split; [apply forallb_isNull, Hall|].
  rewrite saveCalls_inserts.
  change (SimulationResults.id
            (snd (Storage.createSimulationResults storage
                    (simulationInsert pid mid simulationResult) now)))
    with (Storage.currentSimulationResultsId storage).
  set (id := Storage.currentSimulationResultsId storage).
  set (inserts := List.map (insertOf id)
                           (beforeNull (generateRecommendations completion))).
  set (created := fst (Storage.createSimulationResults storage
                         (simulationInsert pid mid simulationResult) now)).
  destruct (creates_without_numbering inserts created) as [Hid Hr].
  cbv zeta in Hid, Hr. split; [|split].
  - unfold Storage.getSimulationResult. cbn [Map_get]. rewrite Hr.
    unfold created, Storage.createSimulationResults. store_fields.
    apply lookup_set_same.
  - intros j rec Hj. unfold Storage.getAiRecommendation. cbn [Map_get].
    apply (creates_found inserts created j (insertOf id rec)).
    unfold inserts. now apply map_nth_error.
  - rewrite Hid. unfold inserts. rewrite length_map. reflexivity.
Qed.

Lemma simulate_failure_keeps_what_was_saved_witness :
  let completion :=
    Ok (JArray [recommendationObject "Round the nose" "Use a longer ogive." 2.5;
                JNull]) in
  let now := str "2024-01-01T00:00:01.000Z" in
  let projectId := Some (JString (str "1")) in
  let modelId := Some (JString (str "1")) in
  let storage := sample_storage in
  let outcome :=
    Routes.post_api_simulate sample_numberToString projectId modelId
      (Ok sample_simulation) completion now storage in
  let pid := Routes.parseInt_json sample_numberToString projectId in
  let mid := Routes.parseInt_json sample_numberToString modelId in
  let id := Storage.currentSimulationResultsId storage in
  let saved := beforeNull (generateRecommendations completion) in
  Routes.body (snd outcome)
  = Routes.Message "Cannot read properties of null (reading 'title')" /\
  In JNull (generateRecommendations completion) /\
  Storage.getSimulationResult (fst outcome) (Int id)
  = Some (resultsOf id (simulationInsert pid mid sample_simulation) now) /\
  (forall (j : nat) (rec : json),
     nth_error saved j = Some rec ->
     Storage.getAiRecommendation (fst outcome)
       (Int (Storage.currentAiRecommendationsId storage + Z.of_nat j))
     = Some (recommendationOf
               (Storage.currentAiRecommendationsId storage + Z.of_nat j)
               (insertOf id rec))) /\
  Storage.currentAiRecommendationsId (fst outcome)
  = Storage.currentAiRecommendationsId storage + Z.of_nat (length saved).
Proof.
  apply (simulate_failure_keeps_what_was_saved sample_numberToString).
  vm_compute. reflexivity.
Defined.

(* ------------------------------------------------------------------ *)
(** * The recommendations *)

(** X16. [generateRecommendations] never throws.  It returns the array
    under [recommendations] when the answer parsed to an object that has
    one, the answer itself when it parsed to an array, and in every other
    case the same three default recommendations: when the request or the
    parsing threw, when the answer parsed to [null] (reading its property
    throws, and the error is caught), and when it has neither shape. *)
Theorem generateRecommendations_falls_back (completion : result json) :
  generateRecommendations completion
  = match completion with
    | Ok (JObject fields) =>
        match lookupField fields (str "recommendations") with
        | Some (JArray recommendations) => recommendations
        | _ => defaultRecommendations
        end
    | Ok (JArray recommendations) => recommendations
    | _ => defaultRecommendations
    end.
Proof.
  destruct completion as [[| | | | |fields]|error]; try reflexivity.
  unfold generateRecommendations, getProperty. cbn [bind].
  destruct (lookupField fields (str "recommendations")) as [[]|]; reflexivity.
Qed.

(* ------------------------------------------------------------------ *)
(** * The routes that read *)

(** X15. After any requests to the routes, the routes that read one
    record by id leave the store as it is and never answer 500.  They
    answer 200 with the record when the parameter parses to an id that has
    been given, that is, to an integer from 1 to the counter minus 1, and
    the record then carries that id; they answer 404 otherwise, for a
    parameter that parses to NaN included.  The simulation result comes
    with the recommendations that name it. *)
Theorem get_by_id_answers
    (unicodeLower : Z -> jsString) (basename : jsString -> jsString -> jsString)
    (numberToString : float -> jsString)
    (now : jsString) (requests : list request) (id : jsString) :
  let storage := served unicodeLower basename numberToString now requests in
  let given (current : Z) :=
    exists k, parseInt id = Int k /\ 1 <= k < current in
  (fst (Routes.get_api_projects_id id storage) = storage /\
   ((exists project,
       snd (Routes.get_api_projects_id id storage)
       = Routes.respond 200 (Routes.ProjectJson project) /\
       parseInt id = Int (Project.id project) /\
       given (Storage.currentProjectId storage)) \/
    (snd (Routes.get_api_projects_id id storage)
     = Routes.respond 404 (Routes.Message "Project not found") /\
     ~ given (Storage.currentProjectId storage)))) /\
  (fst (Routes.get_api_models_id id storage) = storage /\
   ((exists model,
       snd (Routes.get_api_models_id id storage)
       = Routes.respond 200 (Routes.ModelJson model) /\
       parseInt id = Int (Model.id model) /\
       given (Storage.currentModelId storage)) \/
    (snd (Routes.get_api_models_id id storage)
     = Routes.respond 404 (Routes.Message "Model not found") /\
     ~ given (Storage.currentModelId storage)))) /\
  (fst (Routes.get_api_simulation_results_id id storage) = storage /\
   ((exists results,
       snd (Routes.get_api_simulation_results_id id storage)
       = Routes.respond 200
           (Routes.SimulationResultJson
              (Some {| Storage.result_ := results;
                       Storage.recommendations :=
                         Storage.getAiRecommendationsBySimulationResult storage
                           (parseInt id) |})) /\
       parseInt id = Int (SimulationResults.id results) /\
       given (Storage.currentSimulationResultsId storage)) \/
    (snd (Routes.get_api_simulation_results_id id storage)
     = Routes.respond 404 (Routes.Message "Simulation result not found") /\
     ~ given (Storage.currentSimulationResultsId storage)))).
Proof.
  cbv zeta.
  destruct (served_invariant unicodeLower basename numberToString now requests)
    as (Hc & _ & _).
  revert Hc. generalize (served unicodeLower basename numberToString now requests).
  intros storage Hc.
  unfold Routes.get_api_projects_id, Routes.get_api_models_id,
    Routes.get_api_simulation_results_id, Routes.tryCatch, Routes.await,
    Routes.reading, Storage.getSimulationResultWithRecommendations,
    Storage.getProject, Storage.getModel.
  split; [|split].
  - destruct (Map_get (Storage.projects storage) (parseInt id)) as [project|] eqn:E;
      (split; [reflexivity|]).
    + left. exists project. split; [reflexivity|].
      destruct (get_in_range _ _ _ _ (projects_numbered _ Hc) E) as (k & Hk & Hr).
      rewrite Hk in E.
      rewrite (identified_get _ _ _ _ (projects_identified _ Hc) E).
      split; [exact Hk | now exists k].
    + right. split; [reflexivity|]. intros (k & Hk & Hr). rewrite Hk in E.
      now apply (numbered_get _ _ k (projects_numbered _ Hc)) in Hr.
  - destruct (Map_get (Storage.models storage) (parseInt id)) as [model|] eqn:E;
      (split; [reflexivity|]).
    + left. exists model. split; [reflexivity|].
      destruct (get_in_range _ _ _ _ (models_numbered _ Hc) E) as (k & Hk & Hr).
      rewrite Hk in E.
      rewrite (identified_get _ _ _ _ (models_identified _ Hc) E).
      split; [exact Hk | now exists k].
    + right. split; [reflexivity|]. intros (k & Hk & Hr). rewrite Hk in E.
      now apply (numbered_get _ _ k (models_numbered _ Hc)) in Hr.
  - destruct (Map_get (Storage.simulationResults storage) (parseInt id))
      as [results|] eqn:E; (split; [reflexivity|]).
    + left. exists results. split; [reflexivity|].
      destruct (get_in_range _ _ _ _ (simulationResults_numbered _ Hc) E)
        as (k & Hk & Hr).
      rewrite Hk in E.
      rewrite (identified_get _ _ _ _ (simulationResults_identified _ Hc) E).
      split; [exact Hk | now exists k].
    + right. split; [reflexivity|]. intros (k & Hk & Hr). rewrite Hk in E.
      now apply (numbered_get _ _ k (simulationResults_numbered _ Hc)) in Hr.
Qed.

(* ------------------------------------------------------------------ *)
(** * From the client's upload to the store *)

(** What [validateSTLFile] accepts, [analyzeSTL] analyses; for a binary
    file, with the face count that the client read. *)
Lemma accepted_file_is_analysed (unicodeLower : Z -> jsString)
    (file : Client.File) :
  Client.isValid (Client.validateSTLFile unicodeLower file) = true ->
  exists stlInfo,
    Server.analyzeSTL unicodeLower (Client.content file) = Ok stlInfo /\
    (Server.isAsciiSTL unicodeLower (Client.content file) = false ->
     faceCount stlInfo
     = Z2F (Client.faceCount (Client.validateSTLFile unicodeLower file))).
Proof.
  rewrite validateSTLFile_gate, <- sniffedTextual_server.
  gate_cases unicodeLower file; cbn [Client.isValid Client.rejected accepted];
    intros Hv; try discriminate.
  - rewrite sniffedTextual_server in Etxt.
    rewrite analyzeSTL_textual by assumption. eexists. split; [reflexivity|].
    discriminate.
  - rewrite sniffedTextual_server in Etxt. unfold Client.size in *.
    rewrite analyzeSTL_binary_in by (try assumption; right; lia).
    eexists. split; [reflexivity|]. intros _. reflexivity.
Qed.

(** X9. A file that [uploadSTLFile] sends is stored by the upload route,
    once multer has handed it over under some path: the route answers 201
    with a model that [getModel] then finds, whose project is what
    [parseInt] makes of the project number's string, and whose name is the
    file's name without its first [.stl], or the base name of the file
    when nothing is left of it.  For a file sniffed binary the stored face
    count is the one that the client's validation read. *)
Theorem sent_files_are_stored
    (unicodeLower : Z -> jsString) (basename : jsString -> jsString -> jsString)
    (numberToString : float -> jsString)
    (file : Client.File) (projectId : float) (formData : ClientUpload.FormData)
    (path : jsString) (storage : Storage.MemStorage)
    (Hsent : ClientUpload.uploadSTLFile unicodeLower numberToString file projectId
             = ClientUpload.send formData) :
  let uploaded :=
    {| Routes.originalname := Client.name (ClientUpload.stlFile formData);
       Routes.path := path;
       Routes.content := Client.content (ClientUpload.stlFile formData) |} in
  let fields :=
    {| Routes.projectId := Some (ClientUpload.projectId formData);
       Routes.name := Some (ClientUpload.name formData) |} in
  let outcome :=
    Routes.post_api_models_upload unicodeLower basename (Some uploaded) fields
      storage in
  exists model,
    snd outcome = Routes.respond 201 (Routes.ModelJson model) /\
    Storage.getModel (fst outcome) (Int (Model.id model)) = Some model /\
    Model.projectId model = Some (parseInt (numberToString projectId)) /\
    Model.name model
    = match ClientUpload.replace (Client.name file) (str ".stl") [] with
      | [] => basename (Client.name file) (str ".stl")
      | name => name
      end /\
    (Server.isAsciiSTL unicodeLower (Client.content file) = false ->
     Model.faceCount model
     = Some (Z2F (Client.faceCount (Client.validateSTLFile unicodeLower file)))).
Proof.
  cbv zeta. unfold ClientUpload.uploadSTLFile in Hsent.
  destruct (Client.isValid (Client.validateSTLFile unicodeLower file)) eqn:Hv;
    cbn [negb] in Hsent; [|discriminate].
  injection Hsent as <-.
  cbn [ClientUpload.stlFile ClientUpload.projectId ClientUpload.name].
  rewrite post_api_models_upload_outcome. cbn [Routes.content].
  destruct (accepted_file_is_analysed unicodeLower file Hv) as (stlInfo & -> & Hf).
  cbv zeta. eexists. split; [reflexivity|]. split.
  { unfold Storage.getModel, Storage.createModel. store_fields.
    cbn [Model.id Map_get]. apply lookup_set_same. }
  split; [reflexivity|]. split.
  { cbn [Storage.createModel snd Model.name uploadedModel InsertModel.name
         Routes.name Routes.originalname].
    destruct (ClientUpload.replace (Client.name file) (str ".stl") []);
      reflexivity. }
  intros Hb. cbn [Storage.createModel snd Model.faceCount uploadedModel
                  InsertModel.faceCount].
  now rewrite (Hf Hb).
Qed.

Lemma sent_files_are_stored_witness :
  let file := {| Client.name := str "wing.STL"; Client.content := scenario_buffer |} in
  let formData :=
    {| ClientUpload.stlFile := file;
       ClientUpload.projectId := str "1";
       ClientUpload.name := str "wing.STL" |} in
  let uploaded :=
    {| Routes.originalname := Client.name (ClientUpload.stlFile formData);
       Routes.path := str "uploads/2-7.STL";
       Routes.content := Client.content (ClientUpload.stlFile formData) |} in
  let fields :=
    {| Routes.projectId := Some (ClientUpload.projectId formData);
       Routes.name := Some (ClientUpload.name formData) |} in
  let outcome :=
    Routes.post_api_models_upload keepCodePoint sample_basename (Some uploaded)
      fields sample_storage in
  exists model,
    snd outcome = Routes.respond 201 (Routes.ModelJson model) /\
    Storage.getModel (fst outcome) (Int (Model.id model)) = Some model /\
    Model.projectId model = Some (parseInt (sample_numberToString 1)) /\
    Model.name model
    = match ClientUpload.replace (Client.name file) (str ".stl") [] with
      | [] => sample_basename (Client.name file) (str ".stl")
      | name => name
      end /\
    (Server.isAsciiSTL keepCodePoint (Client.content file) = false ->
     Model.faceCount model
     = Some (Z2F (Client.faceCount (Client.validateSTLFile keepCodePoint file)))).
Proof.
  apply (sent_files_are_stored keepCodePoint sample_basename
           sample_numberToString
           {| Client.name := str "wing.STL"; Client.content := scenario_buffer |}
           1%float).
  vm_compute. reflexivity.
Defined.

(* ------------------------------------------------------------------ *)
(** * Settings and options posted twice *)

Lemma find_snoc {A : Type} (f : A -> bool) (l : list A) (a : A) :
  find f (l ++ [a])
  = match find f l with
    | Some x => Some x
    | None => if f a then Some a else None
    end.
Proof.
  induction l as [|x l IH]; cbn [app find]; [reflexivity|].
  destruct (f x); [reflexivity | exact IH].
Qed.

(** X17. After any requests to the routes, a request that posts settings
    which the schema accepts is answered 201 with the new record; but the
    route that reads the settings of a project keeps answering with the
    first settings ever posted for it.  The new settings are what it
    answers only if the project had none; and it answers 200 with no body
    if there are none at all.  The same holds for the analysis options and
    for the optimization options. *)
Theorem first_settings_stay_in_force
    (unicodeLower : Z -> jsString) (basename : jsString -> jsString -> jsString)
    (numberToString : float -> jsString)
    (now : jsString) (requests : list request)
    (insertSettings : InsertSimulationSettings.t)
    (insertAnalysis : InsertAnalysisOptions.t)
    (insertOptimization : InsertAiOptimizationOptions.t)
    (projectId : jsString) :
  let storage := served unicodeLower basename numberToString now requests in
  let pid := parseInt projectId in
  (let posted := Routes.post_api_simulation_settings (Ok insertSettings) storage in
   let created := snd (Storage.createSimulationSettings storage insertSettings) in
   snd posted
   = Routes.respond 201 (Routes.SimulationSettingsJson (Some created)) /\
   Routes.get_api_projects_projectId_simulation_settings projectId (fst posted)
   = (fst posted,
      Routes.respond 200
        (Routes.SimulationSettingsJson
           match Storage.getSimulationSettingsByProject storage pid with
           | Some first => Some first
           | None =>
               if nullable_eqb (InsertSimulationSettings.projectId insertSettings)
                               pid
               then Some created else None
           end))) /\
  (let posted := Routes.post_api_analysis_options (Ok insertAnalysis) storage in
   let created := snd (Storage.createAnalysisOptions storage insertAnalysis) in
   snd posted = Routes.respond 201 (Routes.AnalysisOptionsJson (Some created)) /\
   Routes.get_api_projects_projectId_analysis_options projectId (fst posted)
   = (fst posted,
      Routes.respond 200
        (Routes.AnalysisOptionsJson
           match Storage.getAnalysisOptionsByProject storage pid with
           | Some first => Some first
           | None =>
               if nullable_eqb (InsertAnalysisOptions.projectId insertAnalysis) pid
               then Some created else None
           end))) /\
  (let posted :=
     Routes.post_api_ai_optimization_options (Ok insertOptimization) storage in
   let created :=
     snd (Storage.createAiOptimizationOptions storage insertOptimization) in
   snd posted
   = Routes.respond 201 (Routes.AiOptimizationOptionsJson (Some created)) /\
   Routes.get_api_projects_projectId_ai_optimization_options projectId
     (fst posted)
   = (fst posted,
      Routes.respond 200
        (Routes.AiOptimizationOptionsJson
           match Storage.getAiOptimizationOptionsByProject storage pid with
           | Some first => Some first
           | None =>
               if nullable_eqb
                    (InsertAiOptimizationOptions.projectId insertOptimization) pid
               then Some created else None
           end))).
Proof.
  cbv zeta.
  destruct (served_invariant unicodeLower basename numberToString now requests)
    as (Hc & _ & _).
  revert Hc. generalize (served unicodeLower basename numberToString now requests).
  intros storage [].
  repeat apply conj; try reflexivity.
  - unfold Routes.get_api_projects_projectId_simulation_settings,
      Routes.post_api_simulation_settings, Routes.tryCatch, Routes.await,
      Routes.reading, Routes.settled, Routes.writing, Routes.resolve.
    cbn [fst snd]. do 3 f_equal.
    unfold Storage.getSimulationSettingsByProject, Storage.createSimulationSettings.
    store_fields. rewrite (numbered_create _ _ _ simulationSettings_numbered0).
    rewrite Map_values_app. unfold Map_values. cbn [List.map snd].
    rewrite find_snoc. reflexivity.
  - unfold Routes.get_api_projects_projectId_analysis_options,
      Routes.post_api_analysis_options, Routes.tryCatch, Routes.await,
      Routes.reading, Routes.settled, Routes.writing, Routes.resolve.
    cbn [fst snd]. do 3 f_equal.
    unfold Storage.getAnalysisOptionsByProject, Storage.createAnalysisOptions.
    store_fields. rewrite (numbered_create _ _ _ analysisOptions_numbered0).
    rewrite Map_values_app. unfold Map_values. cbn [List.map snd].
    rewrite find_snoc. reflexivity.
  - unfold Routes.get_api_projects_projectId_ai_optimization_options,
      Routes.post_api_ai_optimization_options, Routes.tryCatch, Routes.await,
      Routes.reading, Routes.settled, Routes.writing, Routes.resolve.
    cbn [fst snd]. do 3 f_equal.
    unfold Storage.getAiOptimizationOptionsByProject,
      Storage.createAiOptimizationOptions.
    store_fields. rewrite (numbered_create _ _ _ aiOptimizationOptions_numbered0).
    rewrite Map_values_app. unfold Map_values. cbn [List.map snd].
    rewrite find_snoc. reflexivity.
Qed.

(* ------------------------------------------------------------------ *)
(** * The list of projects *)

Lemma identified_ids {V : Type} (id : V -> Z) (map : JsMap V) :
  identified id map -> List.map id (Map_values map) = Map_keys map.
Proof.
  intros H. induction H as [|[k v] rest Hv _ IH]; [reflexivity|].
  cbn [Map_values Map_keys List.map fst snd] in *. unfold Map_values, Map_keys in IH.
  now rewrite IH, Hv.
Qed.

(** X18. After any requests to the routes, the list of projects is
    answered 200 with every project in the order of creation: the sample
    project that the constructor made at the start comes first, and the
    ids are 1, 2, 3 and so on.  Posting a project that the schema accepts
    is answered 201 and puts it at the end of the list, with the next id
    and the time of the request as both dates; a project that the schema
    rejects is answered 400 with the schema's message and the list stays
    as it is. *)
Theorem projects_are_listed_in_creation_order
    (unicodeLower : Z -> jsString) (basename : jsString -> jsString -> jsString)
    (numberToString : float -> jsString)
    (start : jsString) (requests : list request)
    (parsed : result InsertProject.t) (now : jsString) :
  let storage := served unicodeLower basename numberToString start requests in
  let posted := Routes.post_api_projects parsed now storage in
  exists rest,
    let projects := sampleProject start :: rest in
    Routes.get_api_projects storage
    = (storage, Routes.respond 200 (Routes.ProjectsJson projects)) /\
    List.map Project.id projects = firstIds (length projects) /\
    match parsed with
    | Ok projectData =>
        let created :=
          {| Project.id := Z.of_nat (length projects) + 1;
             Project.name := InsertProject.name projectData;
             Project.description := InsertProject.description projectData;
             Project.userId := InsertProject.userId projectData;
             Project.createdAt := now;
             Project.updatedAt := now;
             Project.status := InsertProject.status projectData |} in
        snd posted = Routes.respond 201 (Routes.ProjectJson created) /\
        snd (Routes.get_api_projects (fst posted))
        = Routes.respond 200 (Routes.ProjectsJson (projects ++ [created]))
    | Throw error =>
        posted = (storage, Routes.respond 400 (Routes.Message (exn_message error)))
    end.
Proof.
  cbv zeta.
  destruct (served_invariant unicodeLower basename numberToString start requests)
    as (Hc & _ & calls & Hh).
  pose proof (history_grown start [] calls) as Hg.
  cbn [app] in Hg. rewrite <- Hh in Hg. clear Hh.
  revert Hc Hg.
  generalize (served unicodeLower basename numberToString start requests).
  intros storage Hc Hg.
  destruct (projects_grown _ _ Hg) as [more Hp].
  change (Storage.projects (history start []))
    with [(1, sampleProject start)] in Hp.
  exists (Map_values more).
  assert (Hv : Storage.getProjects storage
               = sampleProject start :: Map_values more).
  { unfold Storage.getProjects. now rewrite Hp. }
  assert (Hlen : length (Storage.projects storage)
                 = length (sampleProject start :: Map_values more)).
  { rewrite <- Hv. unfold Storage.getProjects, Map_values. now rewrite length_map. }
  split.
  { unfold Routes.get_api_projects, Routes.tryCatch, Routes.await,
      Routes.reading, Routes.resolve. now rewrite Hv. }
  split.
  { rewrite <- Hv. unfold Storage.getProjects.
    rewrite (identified_ids _ _ (projects_identified _ Hc)).
    destruct (projects_numbered _ Hc) as [_ Hk]. rewrite Hk.
    unfold Map_values. now rewrite length_map. }
  destruct parsed as [projectData|error]; [|reflexivity].
  destruct (projects_numbered _ Hc) as [Hcur _].
  rewrite <- Hlen, <- Hcur.
  split; [reflexivity|].
  unfold Routes.get_api_projects, Routes.post_api_projects, Routes.tryCatch,
    Routes.await, Routes.reading, Routes.settled, Routes.writing, Routes.resolve.
  cbn [fst snd]. do 2 f_equal.
  unfold Storage.getProjects, Storage.createProject. store_fields.
  rewrite (numbered_create _ _ _ (projects_numbered _ Hc)).
  rewrite Map_values_app. fold (Storage.getProjects storage). rewrite Hv.
  reflexivity.
Qed.

(* ------------------------------------------------------------------ *)
(** * What the binary reader looks at *)

Lemma keepReadFrom_length (buffer : Buffer) :
  forall offset, length (keepReadFrom offset buffer) = length buffer.
Proof.
  induction buffer as [|b rest IH]; intros offset; [reflexivity|].
  cbn [keepReadFrom length]. now rewrite IH.
Qed.

Lemma keepRead_byteLength (buffer : Buffer) :
  byteLength (keepRead buffer) = byteLength buffer.
Proof. unfold byteLength, keepRead. now rewrite keepReadFrom_length. Qed.

Lemma keepReadFrom_nth (buffer : Buffer) :
  forall (offset : Z) (k : nat),
    isRead (offset + Z.of_nat k) = true ->
    nth k (keepReadFrom offset buffer) x00 = nth k buffer x00.
Proof.
  induction buffer as [|b rest IH]; intros offset k H.
  - destruct k; reflexivity.
  - destruct k as [|k]; cbn [keepReadFrom nth].
    + replace (offset + Z.of_nat 0) with offset in H by lia. now rewrite H.
    + apply IH. replace (offset + 1 + Z.of_nat k) with (offset + Z.of_nat (S k)) by lia.
      exact H.
Qed.

Lemma keepRead_byteAt (buffer : Buffer) (offset : Z) :
  0 <= offset -> isRead offset = true ->
  byteAt (keepRead buffer) offset = byteAt buffer offset.
Proof.
  intros H0 H. unfold byteAt, keepRead. f_equal. apply keepReadFrom_nth.
  now replace (0 + Z.of_nat (Z.to_nat offset)) with offset by lia.
Qed.

Lemma isRead_count (offset : Z) : 80 <= offset < 84 -> isRead offset = true.
Proof.
  intros H. unfold isRead.
  destruct (80 <=? offset) eqn:E1; [|lia].
  destruct (offset <? 84) eqn:E2; [reflexivity | lia].
Qed.

Lemma isRead_vertex (offset i : Z) :
  0 <= i -> 12 <= offset - (84 + i * 50) < 48 -> isRead offset = true.
Proof.
  intros Hi H. unfold isRead.
  assert (Hm : (offset - 84) mod 50 = offset - (84 + i * 50)).
  { symmetry. apply Z.mod_unique_pos with (q := i); lia. }
  rewrite Hm.
  destruct (84 <=? offset) eqn:E1; [|lia].
  destruct (12 <=? offset - (84 + i * 50)) eqn:E2; [|lia].
  destruct (offset - (84 + i * 50) <? 48) eqn:E3; [|lia].
  apply orb_true_r.
Qed.

Lemma keepRead_le32 (buffer : Buffer) (offset : Z) :
  0 <= offset ->
  (forall d, 0 <= d < 4 -> isRead (offset + d) = true) ->
  le32 (keepRead buffer) offset = le32 buffer offset.
Proof.
  intros H0 H. unfold le32.
  assert (Hfirst : isRead offset = true).
  { replace offset with (offset + 0) by lia. apply H. lia. }
  rewrite (keepRead_byteAt buffer offset H0 Hfirst).
  rewrite (keepRead_byteAt buffer (offset + 1)) by (try lia; apply H; lia).
  rewrite (keepRead_byteAt buffer (offset + 2)) by (try lia; apply H; lia).
  rewrite (keepRead_byteAt buffer (offset + 3)) by (try lia; apply H; lia).
  reflexivity.
Qed.

Lemma keepRead_readFloatLE (buffer : Buffer) (offset i : Z) :
  0 <= i -> 12 <= offset - (84 + i * 50) <= 44 ->
  readFloatLE (keepRead buffer) offset = readFloatLE buffer offset.
Proof.
  intros Hi H. unfold readFloatLE, inBounds.
  rewrite keepRead_byteLength, keepRead_le32; [reflexivity | lia |].
  intros d Hd. apply (isRead_vertex _ i); lia.
Qed.

Lemma keepRead_readUInt32LE (buffer : Buffer) :
  readUInt32LE (keepRead buffer) 80 = readUInt32LE buffer 80.
Proof.
  unfold readUInt32LE, inBounds.
  rewrite keepRead_byteLength, keepRead_le32; [reflexivity | lia |].
  intros d Hd. apply isRead_count. lia.
Qed.

Lemma keepRead_facetLoop (buffer : Buffer) (n : nat) :
  forall (i : Z) (vertices : list vertex),
    0 <= i ->
    Server.facetLoop (keepRead buffer) n i vertices
    = Server.facetLoop buffer n i vertices.
Proof.
  induction n as [|n IH]; intros i vertices Hi; [reflexivity|].
  cbn [Server.facetLoop fold_left]. unfold Server.readVertex.
  repeat match goal with
  | |- context [readFloatLE (keepRead buffer) ?o] =>
      rewrite (keepRead_readFloatLE buffer o i) by lia
  end.
  match goal with
  | |- bind ?r _ = bind ?r _ =>
      destruct r as [vertices'|error]; cbn [bind]; [apply IH; lia | reflexivity]
  end.
Qed.

Lemma keepRead_parseBinarySTL (buffer : Buffer) :
  Server.parseBinarySTL (keepRead buffer) = Server.parseBinarySTL buffer.
Proof.
  unfold Server.parseBinarySTL. rewrite keepRead_readUInt32LE.
  destruct (readUInt32LE buffer 80) as [faceCount|error]; cbn [bind];
    [|reflexivity].
  unfold Server.binaryVertices. now rewrite keepRead_facetLoop by lia.
Qed.

Lemma keepRead_sniffed (unicodeLower : Z -> jsString) (buffer : Buffer) :
  Server.isAsciiSTL unicodeLower (keepRead buffer) = false.
Proof.
  unfold keepRead.
  do 6 (destruct buffer as [|? buffer]; [reflexivity|]).
  reflexivity.
Qed.

(** X19. The binary reader looks at the facet count and at the vertices
    only: on a buffer that is sniffed binary, [analyzeSTL] gives the same
    result, or throws the same error, as on the buffer whose other bytes
    (the 80 bytes of the header, the normal and the attribute word of
    every record) are set to zero; and [parseBinarySTL] does so on every
    buffer. *)
Theorem binary_analysis_reads_count_and_vertices_only
    (unicodeLower : Z -> jsString) (buffer : Buffer)
    (Hbinary : Server.isAsciiSTL unicodeLower buffer = false) :
  Server.parseBinarySTL (keepRead buffer) = Server.parseBinarySTL buffer /\
  Server.analyzeSTL unicodeLower (keepRead buffer)
  = Server.analyzeSTL unicodeLower buffer.
Proof.
  split; [apply keepRead_parseBinarySTL|].
  rewrite !analyzeSTL_binary by (try apply keepRead_sniffed; assumption).
  now rewrite keepRead_parseBinarySTL.
Qed.

Lemma binary_analysis_reads_count_and_vertices_only_witness :
  Server.parseBinarySTL (keepRead labelled_buffer)
  = Server.parseBinarySTL labelled_buffer /\
  Server.analyzeSTL keepCodePoint (keepRead labelled_buffer)
  = Server.analyzeSTL keepCodePoint labelled_buffer.
Proof.
  apply (binary_analysis_reads_count_and_vertices_only keepCodePoint
           labelled_buffer).
  vm_compute. reflexivity.
Defined.

(* ------------------------------------------------------------------ *)
(** * The sniff and the empty mesh *)

(** X20. Both sniffers decide on the first six bytes, byte by byte: the
    answer is textual exactly when these bytes (fewer, for the server, if
    the buffer is shorter) are the word [solid] in either case, alone or
    with one ASCII white-space byte before or after it.  The server
    answers so on every buffer; the client answers the same on a buffer of
    six bytes or more and throws a [RangeError] on a shorter one.  This
    holds when lower-casing a code point outside ASCII never gives letters
    of [solid] only. *)
Theorem sniffers_decide_on_six_bytes
    (unicodeLower : Z -> jsString)
    (Houtside : forall c, 128 <= c ->
                  exists x, In x (unicodeLower c) /\ ~ In x (str "solid"))
    (buffer : Buffer) :
  Server.isAsciiSTL unicodeLower buffer
  = solidHeader (map byteZ (firstn 6 buffer)) /\
  Client.isAsciiSTL unicodeLower buffer
  = if byteLength buffer <? 6
    then Throw (RangeError "Invalid typed array length")
    else Ok (solidHeader (map byteZ (firstn 6 buffer))).
Proof.
  split; [now apply server_isAsciiSTL_bytes|].
  destruct (byteLength buffer <? 6) eqn:E.
  - apply client_isAsciiSTL_short. lia.
  - rewrite client_isAsciiSTL_long by lia.
    now rewrite sniffedTextual_server, server_isAsciiSTL_bytes.
Qed.

Lemma sniffers_decide_on_six_bytes_witness :
  Server.isAsciiSTL keepCodePoint one_vertex_buffer
  = solidHeader (map byteZ (firstn 6 one_vertex_buffer)) /\
  Client.isAsciiSTL keepCodePoint one_vertex_buffer
  = if byteLength one_vertex_buffer <? 6
    then Throw (RangeError "Invalid typed array length")
    else Ok (solidHeader (map byteZ (firstn 6 one_vertex_buffer))).
Proof.
  apply (sniffers_decide_on_six_bytes keepCodePoint).
  intros c H. exists c. split; [now left|].
  change (str "solid") with [115; 111; 108; 105; 100].
  cbn [In]. lia.
Defined.

(** X21. A file that is sniffed textual and has no line starting with
    [vertex] is not refused: [analyzeSTL] returns the empty mesh, with no
    face, no vertex, the box from the origin to the origin, and area and
    volume 0. *)
Theorem textual_file_without_vertices_is_an_empty_mesh
    (unicodeLower : Z -> jsString) (buffer : Buffer)
    (Htextual : Server.isAsciiSTL unicodeLower buffer = true)
    (Hnone : Server.vertexLines buffer = []) :
  Server.analyzeSTL unicodeLower buffer
  = Ok {| vertexCount := 0; faceCount := 0; boundingBox := zeroBox;
          surfaceArea := 0; volume := 0 |}.
Proof.
  rewrite analyzeSTL_textual by assumption.
  unfold Server.parseAsciiSTL, Server.asciiVertices. rewrite Hnone.
  reflexivity.
Qed.

Lemma textual_file_without_vertices_is_an_empty_mesh_witness :
  Server.analyzeSTL keepCodePoint empty_solid_buffer
  = Ok {| vertexCount := 0; faceCount := 0; boundingBox := zeroBox;
          surfaceArea := 0; volume := 0 |}.
Proof.
  apply (textual_file_without_vertices_is_an_empty_mesh keepCodePoint
           empty_solid_buffer); vm_compute; reflexivity.
Defined.

(* ------------------------------------------------------------------ *)
(** * The upload component *)

(** X22. The upload component checks less than [uploadSTLFile]: it looks
    at the name and the size of the file and at the project, never at the
    bytes.  Every file that [uploadSTLFile] sends for a project number
    that is not 0 or NaN, the component sends too, with the same form;
    and whatever the bytes of a file are, the component sends it when its
    name ends in [.stl] in either case, it is not larger than 100 MiB and
    a project is selected. *)
Theorem uploader_sends_what_uploadSTLFile_sends
    (unicodeLower : Z -> jsString) (numberToString : float -> jsString)
    (file : Client.File) (projectId : float) (formData : ClientUpload.FormData)
    (Hselected : FileUploader.selected (Some projectId) = true)
    (Hsent : ClientUpload.uploadSTLFile unicodeLower numberToString file projectId
             = ClientUpload.send formData) :
  FileUploader.validateAndSetFile unicodeLower numberToString (Some projectId)
    file
  = FileUploader.mutate formData /\
  forall bytes,
    Client.size {| Client.name := Client.name file; Client.content := bytes |}
    <= 104857600 ->
    exists form,
      FileUploader.validateAndSetFile unicodeLower numberToString
        (Some projectId)
        {| Client.name := Client.name file; Client.content := bytes |}
      = FileUploader.mutate form.
Proof.
  unfold ClientUpload.uploadSTLFile in Hsent.
  destruct (Client.isValid (Client.validateSTLFile unicodeLower file)) eqn:Hv;
    cbn [negb] in Hsent; [|discriminate].
  injection Hsent as <-.
  rewrite validateSTLFile_gate in Hv. revert Hv.
  unfold FileUploader.validateAndSetFile, FileUploader.handleUpload.
  cbn [Client.name]. rewrite Hselected. cbn [negb].
  change (100 * 1024 * 1024) with 104857600.
  gate_cases unicodeLower file; cbn [Client.isValid Client.rejected accepted];
    intros Hv; try discriminate.
  all: split; [reflexivity|].
  all: intros bytes Hb.
  all: destruct (Client.size _ >? 104857600) eqn:Eb'; [lia|].
  all: eauto.
Qed.

Lemma uploader_sends_what_uploadSTLFile_sends_witness :
  let file := {| Client.name := str "wing.STL"; Client.content := scenario_buffer |} in
  let formData :=
    {| ClientUpload.stlFile := file;
       ClientUpload.projectId := str "1";
       ClientUpload.name := str "wing.STL" |} in
  FileUploader.validateAndSetFile keepCodePoint sample_numberToString (Some 1%float)
    file
  = FileUploader.mutate formData /\
  forall bytes,
    Client.size {| Client.name := Client.name file; Client.content := bytes |}
    <= 104857600 ->
    exists form,
      FileUploader.validateAndSetFile keepCodePoint sample_numberToString
        (Some 1%float)
        {| Client.name := Client.name file; Client.content := bytes |}
      = FileUploader.mutate form.
Proof.
  apply (uploader_sends_what_uploadSTLFile_sends keepCodePoint
           sample_numberToString
           {| Client.name := str "wing.STL"; Client.content := scenario_buffer |}
           1%float); vm_compute; reflexivity.
Defined.

(* ------------------------------------------------------------------ *)
(** * A simulation that fails *)


